(** * SpamScope: attachment analysis engine

    A shallow embedding of the attachment/sample analysis code of SpamScope
    (Python 2) and the properties of it that the specification states.

    - [src/modules/attachments/attachments.py]: the [Attachments] collection
      ([filter], [pophash], [popcontenttype], [_addmetadata]);
    - [src/modules/attachments/utils.py]: [check_archive], [extension];
    - [src/modules/sample_parser.py]: [SampleParser]
      ([is_archive], [_create_sample_result], [_remove_content_type],
      [parse_sample]);
    - [src/modules/abstracts.py]: [AbstractUrlsHandlerBolt._load_whitelist].

    Python dictionaries are finite maps with string keys, Python sets are
    finite sets, exceptions are an explicit result type, and the file system
    and the external collaborators (patool, libmagic, Tika, VirusTotal, the
    clock) are an explicit world that is threaded through the code.

    The file has two parts.  The first holds the definitions: the values, the
    world, the functions of the program under their own names, then what the
    specification says in its own words, then sample data.  The second holds
    the lemmas and, marked C1 to C10, the theorems about the statements of
    the specification. *)

From Stdlib Require Import Ascii String.
From stdpp Require Import gmap strings list fin_maps.

#[local] Set Warnings "-clear-no-such-hyp".

Open Scope string_scope.
Open Scope list_scope.

(* ===================================================================== *)
(** ** Python values and exceptions *)
(* ===================================================================== *)

(** The exceptions the modelled code raises or lets through. *)
Inductive exn :=
  | KeyError | TypeError | AttributeError | ValueError | UnboundLocalError
  | OSError | PatoolError
  | HashError | ContentTypeError
  | IndexError | BinasciiError
  | TempIOError | VirusTotalApiKeyInvalid | ImproperlyConfigured.

Inductive result (A : Type) :=
  | Ok (a : A)
  | Raise (e : exn).
Arguments Ok {A} a.
Arguments Raise {A} e.

Global Instance exn_eq_dec : EqDecision exn.
Proof. solve_decision. Defined.

Global Instance result_eq_dec `{EqDecision A} : EqDecision (result A).
Proof. solve_decision. Defined.

(** Scalar values held in a record: [None], booleans, integers and (byte)
    strings.  Python 2 [str] values are byte strings; they are [string]
    here. *)
Inductive atom :=
  | ANone
  | ABool (b : bool)
  | AInt (n : Z)
  | AStr (s : string).

Global Instance atom_eq_dec : EqDecision atom.
Proof. solve_decision. Defined.

(** A file found inside an archive: a dictionary of scalars (expansion is one
    level deep, members carry no member list of their own). *)
Abbreviation member := (gmap string atom).

(** A value of an attachment record is a scalar or the list under ["files"]. *)
Inductive value :=
  | VAtom (a : atom)
  | VFiles (fs : list member).

Global Instance value_eq_dec : EqDecision value.
Proof. solve_decision. Defined.

Abbreviation record := (gmap string value).

Abbreviation VTrue := (VAtom (ABool true)).
Abbreviation VFalse := (VAtom (ABool false)).
Abbreviation VStr s := (VAtom (AStr s)).

(** *** Truth value testing ([if x:], [not x]) *)

Definition atom_truthy (a : atom) : bool :=
  match a with
  | ANone => false
  | ABool b => b
  | AInt n => negb (n =? 0)%Z
  | AStr s => negb (String.eqb s "")
  end.

Definition truthy (v : value) : bool :=
  match v with
  | VAtom a => atom_truthy a
  | VFiles fs => match fs with [] => false | _ => true end
  end.

(** *** Equality ([==])

    [bool] is a subclass of [int] in Python: [True == 1] and [False == 0].
    Dictionaries are equal when they have the same keys with equal values,
    lists when they are equal element by element. *)

Definition atom_eqb (a b : atom) : bool :=
  match a, b with
  | ANone, ANone => true
  | ABool x, ABool y => Bool.eqb x y
  | AInt n, AInt m => (n =? m)%Z
  | ABool x, AInt n | AInt n, ABool x => (n =? Z.b2z x)%Z
  | AStr s, AStr t => String.eqb s t
  | _, _ => false
  end.

Definition dict_eqb {A} (eqb : A → A → bool) (m1 m2 : gmap string A) : bool :=
  bool_decide (map_relation (λ _ x y, eqb x y = true)
                 (λ _ _, False) (λ _ _, False) m1 m2).

Fixpoint list_eqb {A} (eqb : A → A → bool) (l1 l2 : list A) : bool :=
  match l1, l2 with
  | [], [] => true
  | x :: l1, y :: l2 => eqb x y && list_eqb eqb l1 l2
  | _, _ => false
  end.

Definition member_eqb : member → member → bool := dict_eqb atom_eqb.

Definition value_eqb (v w : value) : bool :=
  match v, w with
  | VAtom a, VAtom b => atom_eqb a b
  | VFiles l1, VFiles l2 => list_eqb member_eqb l1 l2
  | _, _ => false
  end.

Definition record_eqb : record → record → bool := dict_eqb value_eqb.

(** *** [list.remove(x)]: delete the first item equal to [x]; [ValueError]
    when there is none. *)

Fixpoint list_remove {A} (eqb : A → A → bool) (x : A) (l : list A)
    : option (list A) :=
  match l with
  | [] => None
  | y :: l' =>
      if eqb y x then Some l'
      else match list_remove eqb x l' with
           | Some l'' => Some (y :: l'')
           | None => None
           end
  end.

(** [for x in xs: l.remove(x)]: the list when the loop stops, and whether it
    stopped on a [ValueError]. *)
Fixpoint remove_each {A} (eqb : A → A → bool) (xs : list A) (l : list A)
    : result unit * list A :=
  match xs with
  | [] => (Ok (), l)
  | x :: xs' =>
      match list_remove eqb x l with
      | None => (Raise ValueError, l)
      | Some l' => remove_each eqb xs' l'
      end
  end.

(** *** Set elements

    A Python set holds its elements up to [==] (equal values have equal
    hashes): [True] and [1] are the same element.  A set of scalars is a
    finite set of canonical representatives. *)

Definition canon (a : atom) : atom :=
  match a with
  | ABool b => AInt (Z.b2z b)
  | _ => a
  end.

Global Instance atom_countable : Countable atom.
Proof.
  refine (inj_countable'
    (λ a, match a with
          | ANone => inl ()
          | ABool b => inr (inl b)
          | AInt n => inr (inr (inl n))
          | AStr s => inr (inr (inr s))
          end)
    (λ x, match x with
          | inl _ => ANone
          | inr (inl b) => ABool b
          | inr (inr (inl n)) => AInt n
          | inr (inr (inr s)) => AStr s
          end) _).
  by intros [].
Defined.

(** [set(xs)] *)
Definition pyset (xs : list atom) : gset atom := list_to_set (canon <$> xs).

(** *** [str.lower()] on byte strings: only [A]..[Z] change. *)

Definition lower_ascii (c : Ascii.ascii) : Ascii.ascii :=
  let n := Ascii.nat_of_ascii c in
  if (65 <=? n)%nat && (n <=? 90)%nat then Ascii.ascii_of_nat (n + 32) else c.

Fixpoint lower (s : string) : string :=
  match s with
  | EmptyString => EmptyString
  | String c s' => String (lower_ascii c) (lower s')
  end.

(* ===================================================================== *)
(** ** [os.path.splitext] *)
(* ===================================================================== *)

(** [s.rfind(c)]: the index of the last [c] in [s], [-1] when there is
    none. *)
Fixpoint rfind_from (c : ascii) (s : string) (pos found : Z) : Z :=
  match s with
  | EmptyString => found
  | String x s' =>
      rfind_from c s' (pos + 1) (if Ascii.eqb x c then pos else found)
  end.

Definition rfind (c : ascii) (s : string) : Z := rfind_from c s 0 (-1).

(** [s[i]], [s[:i]] and [s[i:]] for an index inside the string. *)
Definition char_at (s : string) (i : Z) : option ascii :=
  String.get (Z.to_nat i) s.

Definition str_take (i : Z) (s : string) : string :=
  String.substring 0 (Z.to_nat i) s.

Definition str_drop (i : Z) (s : string) : string :=
  String.substring (Z.to_nat i) (String.length s - Z.to_nat i) s.

(** The [while filenameIndex < dotIndex] loop of [genericpath._splitext]
    ("skip all leading dots"): is there a character that is not a dot
    between the last separator and the last dot?  [n] is the number of
    iterations left, [dotIndex - filenameIndex]. *)
Fixpoint has_name_before_dot (p : string) (filenameIndex : Z) (n : nat)
    : bool :=
  match n with
  | O => false
  | S n' =>
      match char_at p filenameIndex with
      | Some c =>
          if negb (Ascii.eqb c "."%char) then true
          else has_name_before_dot p (filenameIndex + 1) n'
      | None => false
      end
  end.

(** [os.path.splitext] of [posixpath], that is
    [genericpath._splitext(p, '/', None, '.')] of the Python library. *)
Definition splitext (p : string) : string * string :=
  let sepIndex := rfind "/"%char p in
  let dotIndex := rfind "."%char p in
  if (sepIndex <? dotIndex)%Z &&
     has_name_before_dot p (sepIndex + 1) (Z.to_nat (dotIndex - (sepIndex + 1)))
  then (str_take dotIndex p, str_drop dotIndex p)
  else (p, "").

(** [v.lower()]: only strings have the method. *)
Definition atom_lower (a : atom) : result string :=
  match a with
  | AStr s => Ok (lower s)
  | _ => Raise AttributeError
  end.

(* ===================================================================== *)
(** ** The world: scratch storage, collaborators, objects *)
(* ===================================================================== *)

(** Names of files and directories in the scratch area. *)
Abbreviation path := nat.

(** Calls to the collaborators of [SampleParser], in the order they are
    made. *)
Inductive call :=
  | Sniffed (data : string)        (* [magic.Magic.from_buffer] *)
  | Hashed (data : string)         (* [SampleParser.fingerprints] *)
  | TikaExtract (payload : string) (* [TikaApp.extract_all_content] *)
  | VtReport (sha1 : string).      (* [VirusTotalPublicApi.get_file_report] *)

(** What an archive check returns: a flag, or with [write_sample] the pair
    of the flag and the path of the sample. *)
Inductive archive_check :=
  | Flag (is_archive : bool)
  | FlagAndPath (is_archive : bool) (temp : path).

(** The state the code works on:
    - the regular files by name, and the scratch directories with the
      regular files found below them (as [os.walk] lists them: leaf name and
      contents);
    - the log of collaborator calls;
    - the memo table of [check_archive], most recently used entry first;
    - the [_result] attribute of the [SampleParser] object;
    - the list held by the [Attachments] object. *)
Record world := World {
  files : gmap path string;
  dirs : gmap path (list (string * string));
  calls : list call;
  archive_cache : list (string * bool * archive_check);
  _result : option record;
  data : list record;
}.

Definition with_files (f : gmap path string) (w : world) : world :=
  World f (dirs w) (calls w) (archive_cache w) (_result w) (data w).

Definition with_dirs (d : gmap path (list (string * string))) (w : world)
    : world :=
  World (files w) d (calls w) (archive_cache w) (_result w) (data w).

Definition with_calls (c : list call) (w : world) : world :=
  World (files w) (dirs w) c (archive_cache w) (_result w) (data w).

Definition with_archive_cache (c : list (string * bool * archive_check))
    (w : world) : world :=
  World (files w) (dirs w) (calls w) c (_result w) (data w).

Definition with_result (r : option record) (w : world) : world :=
  World (files w) (dirs w) (calls w) (archive_cache w) r (data w).

Definition with_data (l : list record) (w : world) : world :=
  World (files w) (dirs w) (calls w) (archive_cache w) (_result w) l.

(** How the environment answers: which scratch operations fail, and what
    the collaborators return. *)
Record env := Env {
  mkstemp_raises : bool;   (* [tempfile.mkstemp()] fails *)
  write_raises : bool;     (* [open(temp, 'wb')] or [f.write(data)] fails *)
  mkdtemp_raises : bool;   (* [tempfile.mkdtemp()] fails *)
  (* [patoolib.test_archive] accepts a file with these contents *)
  test_archive : string → bool;
  (* the regular files [patoolib.extract_archive] unpacks from these
     contents; [None] when it raises *)
  extract_archive : string → option (list (string * string));
  from_buffer : string → string;               (* libmagic *)
  hashlib_md5 : string → string;
  hashlib_sha1 : string → string;
  hashlib_sha256 : string → string;
  hashlib_sha512 : string → string;
  ssdeep_hash : string → string;
  b64encode : string → string;                 (* [s.encode('base64')] *)
  b64decode : string → option string;          (* [s.decode('base64')] *)
  extract_all_content : string → atom;         (* Tika *)
  get_file_report : string → atom;             (* VirusTotal *)
}.

(** Computations that read and change the world and may raise. *)
Definition M (A : Type) : Type := world → result A * world.

Global Instance M_ret : MRet M := λ A a w, (Ok a, w).

Global Instance M_bind : MBind M := λ A B k m w,
  match m w with
  | (Ok a, w') => k a w'
  | (Raise e, w') => (Raise e, w')
  end.

Definition raise {A} (e : exn) : M A := λ w, (Raise e, w).

Definition get_world : M world := λ w, (Ok w, w).

(** [try: body except OSError: pass] *)
Definition ignore_OSError (body : M unit) : M unit := λ w,
  match body w with
  | (Raise OSError, w') => (Ok (), w')
  | r => r
  end.

(** [for x in xs: body(x)] *)
Fixpoint for_ {A} (xs : list A) (body : A → M unit) : M unit :=
  match xs with
  | [] => mret ()
  | x :: xs' => body x;; for_ xs' body
  end.

(** [d[key]] *)
Definition item {V} (d : gmap string V) (key : string) : M V :=
  match d !! key with
  | Some v => mret v
  | None => raise KeyError
  end.

(** A name that is not in use. *)
Definition fresh_path (w : world) : path :=
  fresh (dom (files w) ∪ dom (dirs w)).

(** *** File system and archive tool *)

(** [tempfile.mkstemp()[1]]: a new empty file.  The world keeps the files
    and the directories of the scratch area only: the descriptor that
    [mkstemp] opens, and that the code drops without closing it, is not
    part of it. *)
Definition mkstemp (E : env) : M path := λ w,
  if mkstemp_raises E then (Raise OSError, w)
  else let p := fresh_path w in (Ok p, with_files (<[p := ""]> (files w)) w).

(** [with open(temp, 'wb') as f: f.write(data)] *)
Definition write_file (E : env) (p : path) (data : string) : M unit := λ w,
  if write_raises E then (Raise OSError, w)
  else (Ok (), with_files (<[p := data]> (files w)) w).

(** [tempfile.mkdtemp()]: a new empty directory. *)
Definition mkdtemp (E : env) : M path := λ w,
  if mkdtemp_raises E then (Raise OSError, w)
  else let p := fresh_path w in (Ok p, with_dirs (<[p := []]> (dirs w)) w).

(** [os.remove(p)]: [OSError] when there is no such file.  A file that is
    there is removed: the scratch area of this model does not refuse a
    removal. *)
Definition os_remove (p : path) : M unit := λ w,
  match files w !! p with
  | None => (Raise OSError, w)
  | Some _ => (Ok (), with_files (delete p (files w)) w)
  end.

(** [shutil.rmtree(p)]: [OSError] when there is no such directory; a
    directory that is there is removed, as for [os_remove]. *)
Definition rmtree (p : path) : M unit := λ w,
  match dirs w !! p with
  | None => (Raise OSError, w)
  | Some _ => (Ok (), with_dirs (delete p (dirs w)) w)
  end.

(** [os.path.exists(p)] *)
Definition exists_ (p : path) : M bool := λ w,
  (Ok (bool_decide (is_Some (files w !! p) ∨ is_Some (dirs w !! p))), w).

(** [os.path.getsize(p)] *)
Definition getsize (p : path) : M Z := λ w,
  match files w !! p with
  | None => (Raise OSError, w)
  | Some data => (Ok (Z.of_nat (String.length data)), w)
  end.

(** [patoolib.test_archive(p, verbosity=-1)]: raises unless the file is an
    archive. *)
Definition patool_test (E : env) (p : path) : M unit := λ w,
  match files w !! p with
  | None => (Raise PatoolError, w)
  | Some data =>
      if test_archive E data then (Ok (), w) else (Raise PatoolError, w)
  end.

(** [patoolib.extract_archive(p, outdir=d, verbosity=-1)] *)
Definition patool_extract (E : env) (p d : path) : M unit := λ w,
  match files w !! p, dirs w !! d with
  | Some data, Some _ =>
      match extract_archive E data with
      | Some members => (Ok (), with_dirs (<[d := members]> (dirs w)) w)
      | None => (Raise PatoolError, w)
      end
  | _, _ => (Raise PatoolError, w)
  end.

(** The regular files [os.walk(d)] comes across, each with what
    [open(_, 'rb').read()] gives. *)
Definition walk (d : path) : M (list (string * string)) := λ w,
  (Ok (default [] (dirs w !! d)), w).

(** [s.decode('base64')] of a stored value *)
Definition decode_base64 (E : env) (a : atom) : M string :=
  match a with
  | AStr s =>
      match b64decode E s with
      | Some data => mret data
      | None => raise BinasciiError
      end
  | _ => raise AttributeError
  end.

Definition value_decode_base64 (E : env) (v : value) : M string :=
  match v with
  | VAtom a => decode_base64 E a
  | VFiles _ => raise AttributeError
  end.

(* ===================================================================== *)
(** ** [attachments/utils.py] *)
(* ===================================================================== *)

(** [extension]: [ext] is the tuple [splitext] returns, [len(ext)] the
    length of that tuple and [ext[-1]] its last component.  The result is an
    optional string, [None] being Python's [None]. *)
Definition extension (filename : string) : option string :=
  let ext := splitext filename in
  let ext : list string := [ext.1; ext.2] in
  if (1 <? length ext)%nat then lower <$> last ext else None.

(** [fingerprints] and [contenttype] are memoized functions of their
    argument without effects; the memo table makes no difference to what
    they return. *)
Definition fingerprints (E : env) (data : string)
    : string * string * string * string * string :=
  (hashlib_md5 E data, hashlib_sha1 E data, hashlib_sha256 E data,
   hashlib_sha512 E data, ssdeep_hash E data).

Definition contenttype (E : env) (payload : string) : string :=
  from_buffer E payload.

(** The function [check_archive] that [lru_cache] wraps.  The [try] around
    [mkstemp] and the write has a bare [except:] whose handler builds the
    [TempIOError] message from [temp]: when [mkstemp] itself raised, [temp]
    is not bound and evaluating it raises [UnboundLocalError] instead.  The
    second [try] ends in a [finally] that returns, so nothing raised by the
    test gets out. *)
Definition check_archive_wrapped (E : env) (data : string)
    (write_sample : bool) : M archive_check := λ w,
  match mkstemp E w with
  | (Raise _, w) => (Raise UnboundLocalError, w)
  | (Ok temp, w) =>
      match write_file E temp data w with
      | (Raise _, w) => (Raise TempIOError, w)
      | (Ok _, w) =>
          let '(tested, w) := patool_test E temp w in
          let is_archive :=
            match tested with Ok _ => true | Raise _ => false end in
          if write_sample then (Ok (FlagAndPath is_archive temp), w)
          else (os_remove temp;; mret (Flag is_archive)) w
      end
  end.

(** [functools.lru_cache()]: at most 128 entries, the least recently used
    entry goes first; a call that raises leaves no entry. *)
Definition lru_maxsize : nat := 128.

(** The entry for [key]. *)
Fixpoint lru_get {K V} `{EqDecision K} (key : K) (cache : list (K * V))
    : option V :=
  match cache with
  | [] => None
  | (k, v) :: cache' => if decide (k = key) then Some v else lru_get key cache'
  end.

(** The table without the entry for [key]. *)
Definition lru_without {K V} `{EqDecision K} (key : K) (cache : list (K * V))
    : list (K * V) :=
  List.filter (λ kv, negb (bool_decide (kv.1 = key))) cache.

Definition lru_insert {K V} (key : K) (v : V) (cache : list (K * V))
    : list (K * V) :=
  (key, v) :: take (lru_maxsize - 1) cache.

Definition check_archive (E : env) (data : string) (write_sample : bool)
    : M archive_check := λ w,
  let key := (data, write_sample) in
  match lru_get key (archive_cache w) with
  | Some v =>
      (Ok v,
       with_archive_cache ((key, v) :: lru_without key (archive_cache w)) w)
  | None =>
      match check_archive_wrapped E data write_sample w with
      | (Ok v, w') =>
          (Ok v,
           with_archive_cache
             (lru_insert key v (archive_cache w')) w')
      | (Raise e, w') => (Raise e, w')
      end
  end.
(* ===================================================================== *)
(** ** [Attachments]: the collection and its bulk operations *)
(* ===================================================================== *)

(** An [Attachments] object is a [UserList] of dictionaries.  Its methods
    mutate the list and the dictionaries in place.  [pophash],
    [popcontenttype] and [filter] touch nothing but the collection: each is
    a function from the collection before the call to the outcome of the
    call and the collection after it (also when the call raises).
    [_addmetadata] works on the scratch area as well and runs in the world.
    The methods work on one record at a time and never compare records by
    identity, so a record is modelled by its contents. *)

Module Attachments.

(** [d.get("is_filtered", False)] as a truth value. *)
Definition is_filtered (i : record) : bool :=
  truthy (default VFalse (i !! "is_filtered")).

(** **** [pophash] *)

(** [len_hashes = dict([(32, "md5"), (40, "sha1"), (64, "sha256"),
    (128, "sha512")])]; [None] is the [KeyError] of [len_hashes[n]]. *)
Definition len_hashes (n : nat) : option string :=
  if decide (n = 32) then Some "md5"
  else if decide (n = 40) then Some "sha1"
  else if decide (n = 64) then Some "sha256"
  else if decide (n = 128) then Some "sha512"
  else None.

(** [key in i and i[key] == attach_hash] *)
Definition hash_matches (key attach_hash : string) (i : record) : bool :=
  match i !! key with
  | Some v => value_eqb v (VStr attach_hash)
  | None => false
  end.

(** The [for i in self] loop of [pophash]: the key is looked up inside the
    loop body, once per record. *)
Fixpoint pophash_loop (attach_hash : string) (todo to_remove : list record)
    : result (list record) :=
  match todo with
  | [] => Ok to_remove
  | i :: todo' =>
      match len_hashes (String.length attach_hash) with
      | None => Raise HashError
      | Some key =>
          if hash_matches key attach_hash i
          then pophash_loop attach_hash todo' (to_remove ++ [i])
          else pophash_loop attach_hash todo' to_remove
      end
  end.

Definition pophash (attach_hash : string) (self : list record)
    : result unit * list record :=
  match pophash_loop attach_hash self [] with
  | Raise e => (Raise e, self)
  | Ok to_remove => remove_each record_eqb to_remove self
  end.

(** **** [popcontenttype] *)

Definition value_lower (v : value) : result string :=
  match v with
  | VAtom a => atom_lower a
  | VFiles _ => Raise AttributeError
  end.

(** [for j in i.get("files", []): if j["Content-Type"].lower() ==
    content_type: inner_remove.append(j)] over a list of members. *)
Fixpoint inner_loop (content_type : string) (js inner_remove : list member)
    : result (list member) :=
  match js with
  | [] => Ok inner_remove
  | j :: js' =>
      match j !! "Content-Type" with
      | None => Raise KeyError
      | Some a =>
          match atom_lower a with
          | Raise e => Raise e
          | Ok ct =>
              if String.eqb ct content_type
              then inner_loop content_type js' (inner_remove ++ [j])
              else inner_loop content_type js' inner_remove
          end
      end
  end.

(** What the body of the outer loop does with a record that is not
    filtered. *)
Inductive verdict :=
  | Drop                 (* [remove.append(i)] *)
  | Keep (i' : record).  (* [i], with its matching members removed *)

(** The [try: ... except KeyError: ... else: ...] statement.  The first
    match below is [i["Content-Type"]]: a missing key is the [KeyError] the
    handler turns into [ContentTypeError], a value without [lower] is an
    [AttributeError] that passes through.  Iterating a value under
    ["files"] that is not a list yields nothing for the empty string and
    fails with [TypeError] otherwise. *)
Definition examine (content_type : string) (i : record) : result verdict :=
  match i !! "Content-Type" with
  | None => Raise ContentTypeError
  | Some v =>
      match value_lower v with
      | Raise e => Raise e
      | Ok ct =>
          if String.eqb ct content_type then Ok Drop
          else
            match i !! "files" with
            | None => Ok (Keep i)
            | Some (VAtom a) =>
                if atom_eqb a (AStr "") then Ok (Keep i)
                else Raise TypeError
            | Some (VFiles js) =>
                match inner_loop content_type js [] with
                | Raise KeyError => Raise ContentTypeError
                | Raise e => Raise e
                | Ok inner_remove =>
                    match remove_each member_eqb inner_remove js with
                    | (Ok _, js') => Ok (Keep (<["files" := VFiles js']> i))
                    | (Raise e, _) => Raise e
                    end
                end
            end
      end
  end.

(** The outer [for i in self] loop: the collection with the records seen
    so far updated, and the [remove] list or the exception. *)
Fixpoint popcontenttype_loop (content_type : string)
    (todo remove : list record) : result (list record) * list record :=
  match todo with
  | [] => (Ok remove, [])
  | i :: todo' =>
      if is_filtered i then
        let '(r, rest) := popcontenttype_loop content_type todo' remove in
        (r, i :: rest)
      else
        match examine content_type i with
        | Raise e => (Raise e, i :: todo')
        | Ok Drop =>
            let '(r, rest) :=
              popcontenttype_loop content_type todo' (remove ++ [i]) in
            (r, i :: rest)
        | Ok (Keep i') =>
            let '(r, rest) := popcontenttype_loop content_type todo' remove in
            (r, i' :: rest)
        end
  end.

Definition popcontenttype (content_type : string) (self : list record)
    : result unit * list record :=
  let content_type := lower content_type in
  match popcontenttype_loop content_type self [] with
  | (Raise e, self') => (Raise e, self')
  | (Ok remove, self') => remove_each record_eqb remove self'
  end.

(** **** [_metadata] and [_addmetadata] *)

(** [len(payload)] *)
Definition len (v : value) : M Z :=
  match v with
  | VAtom (AStr s) => mret (Z.of_nat (String.length s))
  | VAtom _ => raise TypeError
  | VFiles fs => mret (Z.of_nat (length fs))
  end.

(** A value used where a string is needed: as the key of a memo table (a
    list cannot be hashed) and as the bytes to look at. *)
Definition as_string (v : value) : M string :=
  match v with
  | VAtom (AStr s) => mret s
  | _ => raise TypeError
  end.

(** [extension(filename)]: [splitext] calls [filename.rfind]. *)
Definition extension_of (filename : value) : M atom :=
  match filename with
  | VAtom (AStr f) =>
      mret match extension f with Some e => AStr e | None => ANone end
  | _ => raise AttributeError
  end.

Definition _metadata (E : env) (raw_dict : record) : M (value * Z * atom) :=
  encoding ← item raw_dict "content_transfer_encoding";
  payload ← item raw_dict "payload";
  payload ← (if value_eqb encoding (VStr "base64")
             then decoded ← value_decode_base64 E payload; mret (VStr decoded)
             else mret payload);
  size ← len payload;
  filename ← item raw_dict "filename";
  ext ← extension_of filename;
  mret (payload, size, ext).

(** [self[k]] and changes of [self[k]] in place. *)
Definition get_item (k : nat) : M record := λ w,
  match data w !! k with
  | Some i => (Ok i, w)
  | None => (Raise IndexError, w)
  end.

Definition update_item (k : nat) (f : record → record) : M unit := λ w,
  (Ok (), with_data (alter f k (data w)) w).

(** [i["files"].append(t)] *)
Definition append_file (k : nat) (t : member) : M unit :=
  i ← get_item k;
  fs ← item i "files";
  match fs with
  | VFiles fs => update_item k (<["files" := VFiles (fs ++ [t])]>)
  | VAtom _ => raise AttributeError
  end.

(** The dictionary [t] built for one file of the unpacked archive. *)
Definition archived_file (E : env) (found : string * string) : member :=
  let '(md5, sha1, sha256, sha512, ssdeep) := fingerprints E found.2 in
  {[ "filename" := AStr found.1;
     "extension" :=
       match extension found.1 with Some e => AStr e | None => ANone end;
     "size" := AInt (Z.of_nat (String.length found.2));
     "Content-Type" := AStr (contenttype E found.2);
     "payload" := AStr (b64encode E found.2);
     "md5" := AStr md5; "sha1" := AStr sha1; "sha256" := AStr sha256;
     "sha512" := AStr sha512; "ssdeep" := AStr ssdeep ]}.

(** The body of [for i in self], for the item at index [k]. *)
Definition _addmetadata_item (E : env) (k : nat) : M unit :=
  i ← get_item k;
  if negb (is_filtered i) then
    '(payload, size, ext) ← _metadata E i;
    payload ← as_string payload;
    let content_type := contenttype E payload in
    checked ← check_archive E payload true;
    match checked with
    | Flag _ => raise TypeError
    | FlagAndPath flag f =>
        update_item k (λ i,
          <["is_archive" := VAtom (ABool flag)]>
            (<["Content-Type" := VStr content_type]>
               (<["size" := VAtom (AInt size)]>
                  (<["extension" := VAtom ext]> i))));;
        (if flag then
           update_item k (<["files" := VFiles []]>);;
           temp_dir ← mkdtemp E;
           patool_extract E f temp_dir;;
           found ← walk temp_dir;
           for_ found (λ j, append_file k (archived_file E j));;
           ignore_OSError (rmtree temp_dir)
         else mret ());;
        ignore_OSError (os_remove f)
    end
  else mret ().

Definition _addmetadata (E : env) : M unit :=
  w ← get_world;
  for_ (seq 0 (length (data w))) (_addmetadata_item E).

(** **** [filter] *)

(** The loop of [filter]: [i[hash_type]] raises [KeyError] when the key is
    missing, and a list cannot be added to a set ([TypeError]). *)
Fixpoint filter_loop (check_list : gset atom) (hash_type : string)
    (todo : list record) (analyzed : gset atom)
    : result (gset atom) * list record :=
  match todo with
  | [] => (Ok analyzed, [])
  | i :: todo' =>
      match i !! hash_type with
      | None => (Raise KeyError, i :: todo')
      | Some (VFiles _) => (Raise TypeError, i :: todo')
      | Some (VAtom h) =>
          let analyzed := {[ canon h ]} ∪ analyzed in
          let i' :=
            if bool_decide (canon h ∈ check_list)
            then <["is_filtered" := VTrue]> (delete "payload" i)
            else <["is_filtered" := VFalse]> i in
          let '(r, rest) := filter_loop check_list hash_type todo' analyzed in
          (r, i' :: rest)
      end
  end.

Definition filter (check_list : list atom) (hash_type : string)
    (self : list record) : result (gset atom) * list record :=
  filter_loop (pyset check_list) hash_type self ∅.

(** **** [withhashes] *)

(** [payload.decode("base64")] for a value of a record: only strings have
    the method, and the codec gives up on a string that is not base64. *)
Definition decoded (E : env) (v : value) : result string :=
  match v with
  | VAtom (AStr s) =>
      match b64decode E s with
      | Some data => Ok data
      | None => Raise BinasciiError
      end
  | _ => Raise AttributeError
  end.

(** The argument of [fingerprints(payload)]: the digests take a byte string
    and nothing else. *)
Definition raw (v : value) : result string :=
  match v with
  | VAtom (AStr s) => Ok s
  | _ => Raise TypeError
  end.

(** The body of [for i in r]: [i.get("content_transfer_encoding")] is
    [None] when the key is missing, [i["payload"]] raises [KeyError]. *)
Definition withhashes_item (E : env) (i : record) : result record :=
  let base64 :=
    value_eqb (default (VAtom ANone) (i !! "content_transfer_encoding"))
      (VStr "base64") in
  match i !! "payload" with
  | None => Raise KeyError
  | Some v =>
      match (if base64 then decoded E v else raw v) with
      | Raise e => Raise e
      | Ok payload =>
          let '(md5, sha1, sha256, sha512, ssdeep) :=
            fingerprints E payload in
          Ok (<["ssdeep" := VStr ssdeep]> (<["sha512" := VStr sha512]>
                (<["sha256" := VStr sha256]> (<["sha1" := VStr sha1]>
                   (<["md5" := VStr md5]> i)))))
      end
  end.

(** [withhashes] works on a deep copy [r] of its argument and hands back a
    new collection made of it; when the loop raises there is no
    collection. *)
Fixpoint withhashes (E : env) (attachments : list record)
    : result (list record) :=
  match attachments with
  | [] => Ok []
  | i :: attachments' =>
      match withhashes_item E i with
      | Raise e => Raise e
      | Ok i' =>
          match withhashes E attachments' with
          | Raise e => Raise e
          | Ok r => Ok (i' :: r)
          end
      end
  end.

(** **** [filenamestext] and [payloadstext] *)

(** The text under construction is a [unicode] string and the values of the
    records are byte strings: [value + "\n"] decodes the bytes as ASCII, and
    a byte above 127 raises [UnicodeDecodeError].  Both methods catch that
    error around the body of their loop and go on with the next record, with
    the text as it stood when the error came up. *)
Definition newline : string := String (ascii_of_nat 10) "".

Definition is_ascii (s : string) : bool :=
  forallb (λ c, (nat_of_ascii c <? 128)%nat) (list_ascii_of_string s).

(** How a piece of a loop body ends: with the text longer, with the
    [UnicodeDecodeError] that the handler of the loop catches, or with
    another exception, which gets out. *)
Inductive appended :=
  | Appended (text : string)
  | UnicodeDecodeError (text : string)
  | Escapes (e : exn).

(** [text += s + "\n"] *)
Definition add_line (text : string) (a : atom) : appended :=
  match a with
  | AStr s =>
      if is_ascii s then Appended (text +:+ s +:+ newline)
      else UnicodeDecodeError text
  | _ => Escapes TypeError
  end.

(** [text += s.decode("base64") + "\n"] *)
Definition add_decoded_line (E : env) (text : string) (a : atom)
    : appended :=
  match a with
  | AStr s =>
      match b64decode E s with
      | Some data => add_line text (AStr data)
      | None => Escapes BinasciiError
      end
  | _ => Escapes AttributeError
  end.

(** [for j in files: filenames += j["filename"] + "\n"] *)
Fixpoint add_filenames (js : list member) (filenames : string) : appended :=
  match js with
  | [] => Appended filenames
  | j :: js' =>
      match j !! "filename" with
      | None => Escapes KeyError
      | Some a =>
          match add_line filenames a with
          | Appended filenames => add_filenames js' filenames
          | stop => stop
          end
      end
  end.

(** [for j in files: text += j["payload"].decode("base64") + "\n"] *)
Fixpoint add_payloads (E : env) (js : list member) (text : string)
    : appended :=
  match js with
  | [] => Appended text
  | j :: js' =>
      match j !! "payload" with
      | None => Escapes KeyError
      | Some a =>
          match add_decoded_line E text a with
          | Appended text => add_payloads E js' text
          | stop => stop
          end
      end
  end.

(** [for j in i.get("files", []): ...]: a value that is not a list yields
    nothing when it is the empty string and fails with [TypeError]
    otherwise. *)
Definition for_files_of (i : record) (body : list member → string → appended)
    (text : string) : appended :=
  match i !! "files" with
  | None => Appended text
  | Some (VFiles js) => body js text
  | Some (VAtom a) =>
      if atom_eqb a (AStr "") then Appended text else Escapes TypeError
  end.

(** The body of the loop of [filenamestext]. *)
Definition filenamestext_item (i : record) (filenames : string) : appended :=
  match i !! "filename" with
  | None => Escapes KeyError
  | Some (VFiles _) => Escapes TypeError
  | Some (VAtom a) =>
      match add_line filenames a with
      | Appended filenames => for_files_of i add_filenames filenames
      | stop => stop
      end
  end.

(** The body of the loop of [payloadstext]: [i.get("is_filtered")] and
    [i.get("is_archive")] are [None] when the key is missing. *)
Definition payloadstext_item (E : env) (i : record) (text : string)
    : appended :=
  if truthy (default (VAtom ANone) (i !! "is_filtered")) then Appended text
  else if negb (truthy (default (VAtom ANone) (i !! "is_archive"))) then
    match i !! "content_transfer_encoding" with
    | None => Escapes KeyError
    | Some encoding =>
        match i !! "payload" with
        | None => Escapes KeyError
        | Some (VFiles _) =>
            Escapes (if value_eqb encoding (VStr "base64")
                     then AttributeError else TypeError)
        | Some (VAtom a) =>
            if value_eqb encoding (VStr "base64")
            then add_decoded_line E text a
            else add_line text a
        end
    end
  else for_files_of i (add_payloads E) text.

(** [for i in self: try: body except UnicodeDecodeError: continue] *)
Fixpoint text_loop (body : record → string → appended) (todo : list record)
    (text : string) : result string :=
  match todo with
  | [] => Ok text
  | i :: todo' =>
      match body i text with
      | Appended text | UnicodeDecodeError text => text_loop body todo' text
      | Escapes e => Raise e
      end
  end.

(** [text.strip()] of a [unicode] string of ASCII characters: white space
    is tab, line feed, vertical tab, form feed, carriage return, the four
    separators from 28 to 31 and the blank. *)
Definition is_space (c : ascii) : bool :=
  let n := nat_of_ascii c in
  ((9 <=? n) && (n <=? 13) || (28 <=? n) && (n <=? 32))%nat.

Fixpoint lstrip (s : string) : string :=
  match s with
  | EmptyString => EmptyString
  | String c s' => if is_space c then lstrip s' else s
  end.

Fixpoint rstrip (s : string) : string :=
  match s with
  | EmptyString => EmptyString
  | String c s' =>
      match rstrip s' with
      | EmptyString => if is_space c then EmptyString else String c EmptyString
      | r => String c r
      end
  end.

Definition strip (s : string) : string := rstrip (lstrip s).

Definition filenamestext (self : list record) : result string :=
  match text_loop filenamestext_item self "" with
  | Ok filenames => Ok (strip filenames)
  | Raise e => Raise e
  end.

Definition payloadstext (E : env) (self : list record) : result string :=
  match text_loop (payloadstext_item E) self "" with
  | Ok text => Ok (strip text)
  | Raise e => Raise e
  end.

(** **** [_filtercontenttypes] and [run] *)

(** [for i in self.filter_cont_types: self.popcontenttype(i)] *)
Fixpoint filtercontenttypes_loop (filter_cont_types : list string)
    (self : list record) : result unit * list record :=
  match filter_cont_types with
  | [] => (Ok (), self)
  | i :: filter_cont_types' =>
      match popcontenttype i self with
      | (Ok _, self') => filtercontenttypes_loop filter_cont_types' self'
      | (Raise e, self') => (Raise e, self')
      end
  end.

(** [filter_cont_types] is what the keyword arguments of [reload] hold
    under that name, [None] when they have no such entry: [hasattr] is false
    then and nothing happens. *)
Definition _filtercontenttypes (filter_cont_types : option (list string))
    (self : list record) : result unit * list record :=
  match filter_cont_types with
  | None => (Ok (), self)
  | Some cts => filtercontenttypes_loop cts self
  end.

(** A method that works on the collection alone, as a step in the world. *)
Definition on_data (method : list record → result unit * list record)
    : M unit := λ w,
  let '(r, self') := method (data w) in (r, with_data self' w).

(** [run]: the metadata pass, then the content-type filter on what it
    left. *)
Definition run (E : env) (filter_cont_types : option (list string))
    : M unit :=
  _addmetadata E;; on_data (_filtercontenttypes filter_cont_types).

End Attachments.

(* ===================================================================== *)
(** ** [SampleParser] *)
(* ===================================================================== *)

(** The configuration a [SampleParser] is built with. *)
Record sample_parser := SampleParserConf {
  tika_enabled : bool;
  tika_content_types : gset string;
  blacklist_content_types : gset string;
  virustotal_enabled : bool;
  virustotal_api_key : option string;
}.

Module SampleParser.

(** Reading and writing [self._result]. *)
Definition set_result (r : option record) : M unit := λ w,
  (Ok (), with_result r w).

(** [self._result[...]] needs a dictionary: [None[...]] is a [TypeError]. *)
Definition get_result : M record := λ w,
  match _result w with
  | Some r => (Ok r, w)
  | None => (Raise TypeError, w)
  end.

Definition update_result (f : record → record) : M unit :=
  r ← get_result; set_result (Some (f r)).

Definition log (c : call) : M unit := λ w,
  (Ok (), with_calls (calls w ++ [c]) w).

(** [for i in self._result['files']: ...], where the body changes [i] in
    place: the members seen so far are changed also when the body raises. *)
Fixpoint for_members (body : member → M member) (todo : list member)
    : world → (result unit * list member) * world := λ w,
  match todo with
  | [] => ((Ok (), []), w)
  | i :: todo' =>
      match body i w with
      | (Raise e, w') => ((Raise e, i :: todo'), w')
      | (Ok i', w') =>
          let '((r, rest), w'') := for_members body todo' w' in
          ((r, i' :: rest), w'')
      end
  end.

Definition for_files (body : member → M member) : M unit :=
  r ← get_result;
  fs ← item r "files";
  match fs with
  | VAtom _ => raise TypeError
  | VFiles fs => λ w,
      let '((res, fs'), w') := for_members body fs w in
      (res, with_result (<["files" := VFiles fs']> <$> _result w') w')
  end.

(** [x in s] for a set of strings. *)
Definition in_set (v : value) (s : gset string) : M bool :=
  match v with
  | VAtom (AStr x) => mret (bool_decide (x ∈ s))
  | VAtom _ => mret false
  | VFiles _ => raise TypeError
  end.

(** [mime.from_buffer(data)] *)
Definition mime_from_buffer (E : env) (data : string) : M string :=
  log (Sniffed data);; mret (from_buffer E data).

(** [self.fingerprints(data)] *)
Definition fingerprints (E : env) (data : string)
    : M (string * string * string * string * string) :=
  log (Hashed data);;
  mret (hashlib_md5 E data, hashlib_sha1 E data, hashlib_sha256 E data,
        hashlib_sha512 E data, ssdeep_hash E data).

(** [vt.get_file_report(sha1)] *)
Definition vt_get_file_report (E : env) (sha1 : atom) : M atom :=
  match sha1 with
  | AStr h => log (VtReport h);; mret (get_file_report E h)
  | _ => raise TypeError
  end.

(** [is_archive]: the same statements as [check_archive] of
    [attachments/utils.py], without the memo table.  When [mkstemp] raises,
    the handler fails on the unbound [temp]; what the test raises stays
    inside. *)
Definition is_archive (E : env) (data : string) (write_sample : bool)
    : M archive_check := λ w,
  match mkstemp E w with
  | (Raise _, w) => (Raise UnboundLocalError, w)
  | (Ok temp, w) =>
      match write_file E temp data w with
      | (Raise _, w) => (Raise TempIOError, w)
      | (Ok _, w) =>
          let '(tested, w) := patool_test E temp w in
          let is_archive :=
            match tested with Ok _ => true | Raise _ => false end in
          if write_sample then (Ok (FlagAndPath is_archive temp), w)
          else (os_remove temp;; mret (Flag is_archive)) w
      end
  end.

(** One file of the unpacked archive, as [_create_sample_result] records
    it. *)
Definition archived_file (E : env) (found : string * string) : member :=
  {[ "filename" := AStr found.1;
     "payload" := AStr (b64encode E found.2);
     "size" := AInt (Z.of_nat (String.length found.2)) ]}.

(** [self._result['files'].append(t)] *)
Definition append_file (t : member) : M unit :=
  r ← get_result;
  fs ← item r "files";
  match fs with
  | VFiles fs => set_result (Some (<["files" := VFiles (fs ++ [t])]> r))
  | VAtom _ => raise AttributeError
  end.

Definition _create_sample_result (E : env) (data : string)
    (filename mail_content_type transfer_encoding : atom) : M unit :=
  checked ← is_archive E data true;
  match checked with
  | Flag _ => raise TypeError
  | FlagAndPath is_archive file_ =>
      size ← getsize file_;
      set_result (Some
        {[ "filename" := VAtom filename;
           "payload" := VStr (b64encode E data);
           "mail_content_type" := VAtom mail_content_type;
           "content_transfer_encoding" := VAtom transfer_encoding;
           "size" := VAtom (AInt size);
           "is_archive" := VAtom (ABool is_archive) ]});;
      (if is_archive then
         update_result (<["files" := VFiles []]>);;
         temp_dir ← mkdtemp E;
         patool_extract E file_ temp_dir;;
         found ← walk temp_dir;
         for_ found (λ i, append_file (archived_file E i));;
         there ← exists_ temp_dir;
         if (there : bool) then rmtree temp_dir else mret ()
       else mret ());;
      there ← exists_ file_;
      if (there : bool) then os_remove file_ else mret ()
  end.

Definition _add_fingerprints (E : env) : M unit :=
  r ← get_result;
  payload ← item r "payload";
  data ← value_decode_base64 E payload;
  '(md5, sha1, sha256, sha512, ssdeep_) ← fingerprints E data;
  update_result (λ r,
    <["ssdeep" := VStr ssdeep_]> (<["sha512" := VStr sha512]>
      (<["sha256" := VStr sha256]> (<["sha1" := VStr sha1]>
        (<["md5" := VStr md5]> r)))));;
  r ← get_result;
  is_archive ← item r "is_archive";
  if truthy is_archive then
    for_files (λ i,
      payload ← item i "payload";
      data ← decode_base64 E payload;
      '(md5, sha1, sha256, sha512, ssdeep_) ← fingerprints E data;
      mret (<["ssdeep" := AStr ssdeep_]> (<["sha512" := AStr sha512]>
        (<["sha256" := AStr sha256]> (<["sha1" := AStr sha1]>
          (<["md5" := AStr md5]> i))))))
  else mret ().

Definition _add_content_type (E : env) : M unit :=
  r ← get_result;
  payload ← item r "payload";
  data ← value_decode_base64 E payload;
  content_type ← mime_from_buffer E data;
  update_result (<["Content-Type" := VStr content_type]>);;
  r ← get_result;
  is_archive ← item r "is_archive";
  if truthy is_archive then
    for_files (λ i,
      payload ← item i "payload";
      data ← decode_base64 E payload;
      content_type ← mime_from_buffer E data;
      mret (<["Content-Type" := AStr content_type]> i))
  else mret ().

Definition _add_tika_meta_data (E : env) (self : sample_parser) : M unit :=
  r ← get_result;
  content_type ← item r "Content-Type";
  wanted ← in_set content_type (tika_content_types self);
  if (wanted : bool) then
    payload ← item r "payload";
    match payload with
    | VAtom (AStr p) =>
        log (TikaExtract p);;
        update_result (<["tika" := VAtom (extract_all_content E p)]>)
    | _ => raise TypeError
    end
  else mret ().

(** [i['Content-Type'] not in self.blacklist_content_types] *)
Definition member_allowed (self : sample_parser) (i : member) : result bool :=
  match i !! "Content-Type" with
  | None => Raise KeyError
  | Some (AStr ct) =>
      Ok (negb (bool_decide (ct ∈ blacklist_content_types self)))
  | Some _ => Ok true
  end.

(** [[i for i in files if i['Content-Type'] not in blacklist]] *)
Fixpoint allowed_files (self : sample_parser) (fs : list member)
    : result (list member) :=
  match fs with
  | [] => Ok []
  | i :: fs' =>
      match member_allowed self i with
      | Raise e => Raise e
      | Ok keep =>
          match allowed_files self fs' with
          | Raise e => Raise e
          | Ok rest => Ok (if keep then i :: rest else rest)
          end
      end
  end.

Definition _remove_content_type (self : sample_parser) : M unit :=
  if bool_decide (blacklist_content_types self ≠ ∅) then
    r ← get_result;
    content_type ← item r "Content-Type";
    listed ← in_set content_type (blacklist_content_types self);
    if (listed : bool) then set_result None
    else
      is_archive ← item r "is_archive";
      if truthy is_archive then
        fs ← item r "files";
        match fs with
        | VFiles fs =>
            match allowed_files self fs with
            | Ok fs' => update_result (<["files" := VFiles fs']>)
            | Raise e => raise e
            end
        | VAtom _ => raise TypeError
        end
      else mret ()
  else mret ().

Definition _add_virustotal_output (E : env) (self : sample_parser)
    : M unit :=
  match virustotal_api_key self with
  | None | Some "" => raise VirusTotalApiKeyInvalid
  | Some _ =>
      r ← get_result;
      sha1 ← item r "sha1";
      match sha1 with
      | VFiles _ => raise TypeError
      | VAtom sha1 =>
          result ← vt_get_file_report E sha1;
          (if atom_truthy result
           then update_result (<["virustotal" := VAtom result]>)
           else mret ());;
          r ← get_result;
          is_archive ← item r "is_archive";
          if truthy is_archive then
            for_files (λ i,
              i_sha1 ← item i "sha1";
              i_result ← vt_get_file_report E i_sha1;
              if atom_truthy i_result
              then mret (<["virustotal" := i_result]> i)
              else mret i)
          else mret ()
      end
  end.

(** The truth value of [self._result]: [None] and the empty dictionary are
    false. *)
Definition result_truthy : M bool := λ w,
  (Ok match _result w with
      | None => false
      | Some r => negb (bool_decide (r = ∅))
      end, w).

Definition parse_sample (E : env) (self : sample_parser) (data : string)
    (filename mail_content_type transfer_encoding : atom) : M unit :=
  _create_sample_result E data filename mail_content_type transfer_encoding;;
  _add_content_type E;;
  _remove_content_type self;;
  kept ← result_truthy;
  if (kept : bool) then
    _add_fingerprints E;;
    (if tika_enabled self then _add_tika_meta_data E self else mret ());;
    (if virustotal_enabled self then _add_virustotal_output E self
     else mret ())
  else mret ().

End SampleParser.

(* ===================================================================== *)
(** ** [AbstractUrlsHandlerBolt._load_whitelist] *)
(* ===================================================================== *)

(** What [load_config] hands back for a file: a list, or something that is
    not a list. *)
Inductive conf :=
  | CList (l : list atom)
  | COther.

(** What [_load_whitelist] calls from outside this repository's sources at
    hand: the date parser, the clock, and [load_config] of
    [modules/utils.py]. *)
Record bolt_env := BoltEnv {
  (* [datetime.strptime(s, "%Y-%m-%dT%H:%M:%S.%fZ")], as microseconds since
     the epoch; [None] is the [ValueError] for a string of another form *)
  strptime : string → option Z;
  (* [datetime.utcnow()]: the value of its [n]-th call *)
  utcnow : nat → Z;
  (* [load_config(path)]; it is given whatever is under ['path'] *)
  load_config : atom → result conf;
}.

(** The state of the bolt that [_load_whitelist] reads and writes: the
    whitelist, and how often the clock has been read so far. *)
Record bolt := Bolt {
  _whitelist : gset string;
  clock_reads : nat;
}.

(** [{i.lower() for i in domains}] *)
Fixpoint lower_all (domains : list atom) : result (gset string) :=
  match domains with
  | [] => Ok ∅
  | i :: domains' =>
      match atom_lower i with
      | Raise e => Raise e
      | Ok d =>
          match lower_all domains' with
          | Raise e => Raise e
          | Ok ds => Ok ({[ d ]} ∪ ds)
          end
      end
  end.

(** The body of [for k, v in self.conf['whitelists'].iteritems()], for the
    entries in the order the dictionary yields them. *)
Fixpoint load_whitelist_loop (C : bolt_env) (items : list (string * member))
    (self : bolt) : result unit * bolt :=
  match items with
  | [] => (Ok (), self)
  | (k, v) :: items' =>
      let expiry := default ANone (v !! "expiry") in
      let '(reload_, self) :=
        if atom_truthy expiry then
          let now := utcnow C (clock_reads self) in
          let self := Bolt (_whitelist self) (S (clock_reads self)) in
          match expiry with
          | AStr s =>
              match strptime C s with
              | Some t => (Ok (now <? t)%Z, self)
              | None => (Raise ValueError, self)
              end
          | _ => (Raise TypeError, self)
          end
        else (Ok true, self) in
      match reload_ with
      | Raise e => (Raise e, self)
      | Ok false => load_whitelist_loop C items' self
      | Ok true =>
          match v !! "path" with
          | None => (Raise KeyError, self)
          | Some path =>
              match load_config C path with
              | Raise e => (Raise e, self)
              | Ok COther => (Raise ImproperlyConfigured, self)
              | Ok (CList domains) =>
                  match lower_all domains with
                  | Raise e => (Raise e, self)
                  | Ok domains =>
                      load_whitelist_loop C items'
                        (Bolt (_whitelist self ∪ domains) (clock_reads self))
                  end
              end
          end
      end
  end.

(** [self._whitelist = set()], then the loop. *)
Definition _load_whitelist (C : bolt_env)
    (whitelists : list (string * member)) (self : bolt)
    : result unit * bolt :=
  load_whitelist_loop C whitelists (Bolt ∅ (clock_reads self)).

(* ===================================================================== *)
(** ** [AbstractUrlsHandlerBolt._extract_urls] *)
(* ===================================================================== *)

(** What [_extract_urls] calls from outside the sources at hand: the
    [UrlsExtractor] of [modules/urls_extractor.py] and [json.dumps].  [U] is
    what the extractor keeps for a domain. *)
Record urls_env (U : Type) := UrlsEnv {
  (* [urls_obj] after [extract(text)]: what was found, by domain *)
  urls_obj : string → gmap string U;
  (* [json.dumps(urls, ensure_ascii=False)] *)
  json_dumps : gmap string U → string;
}.
Arguments urls_obj {U} _ _.
Arguments json_dumps {U} _ _.

(** The second component of what [_extract_urls] returns: the dictionary,
    or its JSON text with [conv_to_str]. *)
Inductive urls_out (U : Type) :=
  | UrlsDict (urls : gmap string U)
  | UrlsJson (text : string).
Arguments UrlsDict {U} urls.
Arguments UrlsJson {U} text.

(** [for d in domains: if d.lower() in self._whitelist: urls.pop(d)], where
    [urls.pop(d)] raises [KeyError] when [d] is not a key.  Domains are
    strings of ASCII characters. *)
Fixpoint pop_whitelisted {U} (whitelist : gset string)
    (domains : list string) (urls : gmap string U) : result (gmap string U) :=
  match domains with
  | [] => Ok urls
  | d :: domains' =>
      if bool_decide (lower d ∈ whitelist) then
        match urls !! d with
        | None => Raise KeyError
        | Some _ => pop_whitelisted whitelist domains' (delete d urls)
        end
      else pop_whitelisted whitelist domains' urls
  end.

(** [domains = urls.keys()] is a list of the keys, made before the loop
    starts to take keys out. *)
Definition _extract_urls {U} (H : urls_env U) (self : bolt) (text : string)
    (conv_to_str : bool) : result (bool * urls_out U) :=
  let urls :=
    if negb (String.eqb text "")
    then pop_whitelisted (_whitelist self) (map_to_list (urls_obj H text)).*1
           (urls_obj H text)
    else Ok ∅ in
  match urls with
  | Raise e => Raise e
  | Ok urls =>
      let with_urls := negb (size urls =? 0)%nat in
      Ok (with_urls,
          if conv_to_str then UrlsJson (json_dumps H urls) else UrlsDict urls)
  end.

(* ===================================================================== *)
(** ** What the operations are meant to do *)
(* ===================================================================== *)

(** The definitions below are not taken from the code: they say, in the
    words of the specification, what the theorems compare the code with. *)

(** *** Removal by content type *)

(** The record carries a string under ["Content-Type"] that equals the
    (lower-cased) target [ct] when case is ignored. *)
Definition record_matches (ct : string) (i : record) : bool :=
  match i !! "Content-Type" with
  | Some (VAtom (AStr s)) => String.eqb (lower s) ct
  | _ => false
  end.

Definition member_matches (ct : string) (j : member) : bool :=
  match j !! "Content-Type" with
  | Some (AStr s) => String.eqb (lower s) ct
  | _ => false
  end.

(** The record without its matching members. *)
Definition prune (ct : string) (i : record) : record :=
  match i !! "files" with
  | Some (VFiles js) =>
      <["files" := VFiles (List.filter (λ j, negb (member_matches ct j)) js)]> i
  | _ => i
  end.

(** The records that are removed from the collection. *)
Definition dropped (ct : string) (i : record) : bool :=
  negb (Attachments.is_filtered i) && record_matches ct i.

(** What becomes of a record: filtered records stay as they are, matching
    records go, the others lose their matching members. *)
Definition survive (ct : string) (i : record) : option record :=
  if Attachments.is_filtered i then Some i
  else if record_matches ct i then None
  else Some (prune ct i).

(** The loop body goes through for this record. *)
Definition passes (ct : string) (i : record) : bool :=
  Attachments.is_filtered i ||
  match Attachments.examine ct i with Ok _ => true | Raise _ => false end.

(** The record as the first loop leaves it. *)
Definition touch (ct : string) (i : record) : record :=
  if dropped ct i then i else default i (survive ct i).

(** Records as the metadata pass leaves them: ["Content-Type"], when present,
    is a string, and ["files"], when present, is a list of such members. *)
Definition member_typed (j : member) : bool :=
  match j !! "Content-Type" with
  | None | Some (AStr _) => true
  | Some _ => false
  end.

Definition record_typed (i : record) : bool :=
  match i !! "Content-Type" with
  | None | Some (VAtom (AStr _)) => true
  | Some _ => false
  end &&
  match i !! "files" with
  | None => true
  | Some (VFiles js) => forallb member_typed js
  | Some (VAtom _) => false
  end.

Definition well_formed (i : record) : bool :=
  Attachments.is_filtered i || record_typed i.

(** Something the loop body looks at has no ["Content-Type"]: the record
    itself, or a member of a record that does not match. *)
Definition member_lacks (j : member) : bool :=
  bool_decide (j !! "Content-Type" = None).

Definition lacks_content_type (ct : string) (i : record) : bool :=
  match i !! "Content-Type" with
  | None => true
  | Some _ =>
      negb (record_matches ct i) &&
      match i !! "files" with
      | Some (VFiles js) => existsb member_lacks js
      | _ => false
      end
  end.

Definition examined_lacks (ct : string) (i : record) : bool :=
  negb (Attachments.is_filtered i) && lacks_content_type ct i.

(** *** Marking by hash *)

Definition atom_of (v : value) : option atom :=
  match v with VAtom a => Some a | VFiles _ => None end.

(** [i[hash_type]], when it is there and can be put in a set. *)
Definition fingerprint (hash_type : string) (i : record) : option atom :=
  i !! hash_type ≫= atom_of.

(** *** Whitelist reload *)

(** The entry has an expiry to compare with the clock. *)
Definition has_expiry (v : member) : bool :=
  atom_truthy (default ANone (v !! "expiry")).

(** The entry counts at time [now]: no expiry, or an expiry strictly later
    than [now]. *)
Definition live (C : bolt_env) (now : Z) (v : member) : bool :=
  match default ANone (v !! "expiry") with
  | AStr s =>
      if String.eqb s "" then true
      else match strptime C s with Some t => (now <? t)%Z | None => false end
  | a => negb (atom_truthy a)
  end.

(** The strings of a list that holds nothing else. *)
Fixpoint strings_of (l : list atom) : option (list string) :=
  match l with
  | [] => Some []
  | AStr s :: l' =>
      match strings_of l' with Some ss => Some (s :: ss) | None => None end
  | _ :: _ => None
  end.

(** What the file the entry points to lists: the strings of the list that
    [load_config] finds under the path of the entry.  There is nothing when
    the entry has no path, when the file cannot be loaded, or when it holds
    something else than a list of strings. *)
Definition listed (C : bolt_env) (v : member) : option (list string) :=
  match v !! "path" with
  | Some path =>
      match load_config C path with
      | Ok (CList domains) => strings_of domains
      | _ => None
      end
  | None => None
  end.

(** The domains the entry lists, in lower case. *)
Definition domains_of (C : bolt_env) (v : member) : gset string :=
  match listed C v with
  | Some ds => list_to_set (lower <$> ds)
  | None => ∅
  end.

(** The expiry can be compared with the clock: it is missing, [None], empty
    or otherwise false, or it is a timestamp in the expected form. *)
Definition expiry_ok (C : bolt_env) (v : member) : bool :=
  match default ANone (v !! "expiry") with
  | AStr s => String.eqb s "" || bool_decide (is_Some (strptime C s))
  | a => negb (atom_truthy a)
  end.

(** The path leads to a list of strings. *)
Definition path_ok (C : bolt_env) (v : member) : bool :=
  match listed C v with Some _ => true | None => false end.

(** A well-formed entry: its expiry can be compared with the clock and its
    path leads to a list of strings, whether the entry has expired or not
    (which is more than a reload needs, see [entry_ready]). *)
Definition entry_ok (C : bolt_env) (v : member) : bool :=
  expiry_ok C v && path_ok C v.

(** An entry that can be reloaded at time [now]: its expiry can be compared
    with the clock, and its path leads to a list of strings if the entry
    counts at that time.  Nothing is asked of the file of an entry that has
    expired. *)
Definition entry_ready (C : bolt_env) (now : Z) (v : member) : bool :=
  expiry_ok C v && (negb (live C now v) || path_ok C v).

(** A list of entries that can be reloaded, each at the clock reading made
    for it, the first clock reading being the [n]-th. *)
Fixpoint entries_ready (C : bolt_env) (items : list (string * member))
    (n : nat) : bool :=
  match items with
  | [] => true
  | (k, v) :: items' =>
      entry_ready C (utcnow C n) v &&
      entries_ready C items' (n + Nat.b2n (has_expiry v))
  end.

(** The clock readings the loop makes for a list of entries. *)
Definition reads (items : list (string * member)) : nat :=
  length (List.filter (λ kv, has_expiry kv.2) items).

(** The whitelist the entries add up to, the first clock reading being the
    [n]-th. *)
Fixpoint rebuilt (C : bolt_env) (items : list (string * member)) (n : nat)
    : gset string :=
  match items with
  | [] => ∅
  | (k, v) :: items' =>
      (if live C (utcnow C n) v then domains_of C v else ∅) ∪
      rebuilt C items' (n + Nat.b2n (has_expiry v))
  end.

(** *** Sample parsing *)

(** The record [_create_sample_result] builds before it looks into the
    archive. *)
Definition basic_result (E : env) (data : string)
    (filename mail_content_type transfer_encoding : atom) : record :=
  {[ "filename" := VAtom filename;
     "payload" := VStr (b64encode E data);
     "mail_content_type" := VAtom mail_content_type;
     "content_transfer_encoding" := VAtom transfer_encoding;
     "size" := VAtom (AInt (Z.of_nat (String.length data)));
     "is_archive" := VAtom (ABool (test_archive E data)) ]}.

(** The scratch area is as it was. *)
Definition same_scratch (w w' : world) : Prop :=
  files w' = files w ∧ dirs w' = dirs w.

(** Base64 decoding undoes encoding. *)
Definition b64_roundtrip (E : env) : Prop :=
  ∀ s, b64decode E (b64encode E s) = Some s.

(** A member of the archive at the stages of [parse_sample]: with its
    content type, with its fingerprints, with its VirusTotal report. *)
Definition member_sniffed (E : env) (x : string * string) : member :=
  <["Content-Type" := AStr (from_buffer E x.2)]>
    (SampleParser.archived_file E x).

Definition member_hashed (E : env) (x : string * string) : member :=
  <["ssdeep" := AStr (ssdeep_hash E x.2)]>
    (<["sha512" := AStr (hashlib_sha512 E x.2)]>
       (<["sha256" := AStr (hashlib_sha256 E x.2)]>
          (<["sha1" := AStr (hashlib_sha1 E x.2)]>
             (<["md5" := AStr (hashlib_md5 E x.2)]> (member_sniffed E x))))).

Definition member_reported (E : env) (x : string * string) : member :=
  let report := get_file_report E (hashlib_sha1 E x.2) in
  if atom_truthy report then <["virustotal" := report]> (member_hashed E x)
  else member_hashed E x.

(** The content type of the unpacked file is not in the blacklist. *)
Definition file_allowed (E : env) (self : sample_parser)
    (x : string * string) : bool :=
  negb (bool_decide (from_buffer E x.2 ∈ blacklist_content_types self)).

(** The file name and the content type of each member of a list. *)
Definition names_and_types (fs : list member)
    : list (option atom * option atom) :=
  (λ i, (i !! "filename", i !! "Content-Type")) <$> fs.

(** The API key is there when VirusTotal is switched on. *)
Definition virustotal_ready (self : sample_parser) : Prop :=
  virustotal_enabled self = true →
  ∃ key, virustotal_api_key self = Some key ∧ key ≠ "".

(** The root record with its fingerprints. *)
Definition hashed (E : env) (data : string) (r : record) : record :=
  <["ssdeep" := VStr (ssdeep_hash E data)]>
    (<["sha512" := VStr (hashlib_sha512 E data)]>
       (<["sha256" := VStr (hashlib_sha256 E data)]>
          (<["sha1" := VStr (hashlib_sha1 E data)]>
             (<["md5" := VStr (hashlib_md5 E data)]> r)))).

(** The keys under which the fingerprints are stored. *)
Definition hash_key (k : string) : bool :=
  String.eqb k "md5" || String.eqb k "sha1" || String.eqb k "sha256" ||
  String.eqb k "sha512" || String.eqb k "ssdeep".

(** *** Collections ready for the content-type filter *)

(** Everything the loop body of [popcontenttype] may look at in the record
    is there and is a string: the content type of the record and, when the
    record has members, the content type of each. *)
Definition member_sound (j : member) : bool :=
  match j !! "Content-Type" with
  | Some (AStr _) => true
  | _ => false
  end.

Definition members_sound (i : record) : bool :=
  match i !! "files" with
  | None => true
  | Some (VFiles js) => forallb member_sound js
  | Some (VAtom a) => atom_eqb a (AStr "")
  end.

Definition record_sound (i : record) : bool :=
  Attachments.is_filtered i ||
  match i !! "Content-Type" with
  | Some (VAtom (AStr _)) => members_sound i
  | _ => false
  end.

(** The record has nothing of content type [ct] (in lower case): neither
    itself nor one of its members. *)
Definition clear_of (ct : string) (i : record) : bool :=
  negb (record_matches ct i) &&
  match i !! "files" with
  | Some (VFiles js) => forallb (λ j, negb (member_matches ct j)) js
  | _ => true
  end.

(** The collection after the removal of each target in turn. *)
Definition survivors (cts : list string) (self : list record) : list record :=
  foldl (λ l ct, omap (survive (lower ct)) l) self cts.

(** *** Fingerprinting *)

(** The bytes [withhashes] takes the fingerprints of: the payload, decoded
    when the record says it is base64. *)
Definition payload_bytes (E : env) (i : record) : option string :=
  match i !! "payload" with
  | Some (VAtom (AStr s)) =>
      if bool_decide (i !! "content_transfer_encoding" = Some (VStr "base64"))
      then b64decode E s else Some s
  | _ => None
  end.

(** The record as [filter] leaves it when its fingerprint is [h]. *)
Definition marked (check_list : list atom) (h : atom) (i : record) : record :=
  if bool_decide (canon h ∈ pyset check_list)
  then <["is_filtered" := VTrue]> (delete "payload" i)
  else <["is_filtered" := VFalse]> i.

(** *** Text *)

(** A record [filenamestext] can read: a name that is a string, and
    members, if any, with names that are strings. *)
Definition member_named (j : member) : bool :=
  match j !! "filename" with
  | Some (AStr _) => true
  | _ => false
  end.

Definition record_named (i : record) : bool :=
  match i !! "filename" with
  | Some (VAtom (AStr _)) =>
      match i !! "files" with
      | None => true
      | Some (VFiles js) => forallb member_named js
      | Some (VAtom a) => atom_eqb a (AStr "")
      end
  | _ => false
  end.

(** No white space at either end. *)
Definition stripped (s : string) : bool :=
  match s with
  | EmptyString => true
  | String c _ =>
      negb (Attachments.is_space c) &&
      match last (list_ascii_of_string s) with
      | Some d => negb (Attachments.is_space d)
      | None => true
      end
  end.

(** The digest stored under one of the fingerprint keys. *)
Definition digest (E : env) (k : string) (payload : string) : string :=
  if String.eqb k "md5" then hashlib_md5 E payload
  else if String.eqb k "sha1" then hashlib_sha1 E payload
  else if String.eqb k "sha256" then hashlib_sha256 E payload
  else if String.eqb k "sha512" then hashlib_sha512 E payload
  else ssdeep_hash E payload.

(** What a piece of the loop body of a text method hands on: the text, and
    whether an exception gets out of the loop. *)
Definition text_of (text : string) (r : Attachments.appended) : string :=
  match r with
  | Attachments.Appended t | Attachments.UnicodeDecodeError t => t
  | Attachments.Escapes _ => text
  end.

Definition escapes (r : Attachments.appended) : bool :=
  match r with Attachments.Escapes _ => true | _ => false end.

(** *** The metadata pass *)

(** The keys [_addmetadata] writes. *)
Definition metadata_key (k : string) : bool :=
  String.eqb k "extension" || String.eqb k "size" ||
  String.eqb k "Content-Type" || String.eqb k "is_archive" ||
  String.eqb k "files".

(** The shape of a record after the metadata pass.  A filtered record is
    left alone.  Any other record has the extension of its file name, the
    size and the content type of its payload bytes and some archive flag;
    with the flag set its member list is made of the records of some files,
    otherwise the member list (or its absence) is as before; no other key
    changes.  (Which flag and which files is said by [with_metadata]
    below.) *)
Definition enriched (E : env) (i i' : record) : Prop :=
  if Attachments.is_filtered i then i' = i
  else ∃ p fn (flag : bool),
    payload_bytes E i = Some p ∧
    i !! "filename" = Some (VStr fn) ∧
    i' !! "extension" =
      Some (VAtom match extension fn with Some e => AStr e | None => ANone end)
    ∧ i' !! "size" = Some (VAtom (AInt (Z.of_nat (String.length p)))) ∧
    i' !! "Content-Type" = Some (VStr (from_buffer E p)) ∧
    i' !! "is_archive" = Some (VAtom (ABool flag)) ∧
    (if flag
     then ∃ found,
       i' !! "files" = Some (VFiles (Attachments.archived_file E <$> found))
     else i' !! "files" = i !! "files") ∧
    ∀ k, metadata_key k = false → i' !! k = i !! k.

(** The memo table of [check_archive] is in step with the archive tool and
    the scratch area: what it remembers for a sample that was to be written
    is the answer of the archive test on that sample, and a path that names
    no file (the sample was removed after use).  An empty table is in
    step. *)
Definition cache_in_step (E : env) (w : world) : Prop :=
  ∀ p flag f,
    lru_get (p, true) (archive_cache w) = Some (FlagAndPath flag f) →
    flag = test_archive E p ∧ files w !! f = None.

(** A record before and after the metadata pass.  A filtered record is
    left alone.  Any other record gets the extension of its file name, the
    size and the content type of its payload bytes [p] (decoded first when
    the record says base64), and as archive flag the answer of the archive
    test on [p]; when [p] is an archive, the member list is rebuilt from the
    files the archive tool unpacks from [p], in their order, otherwise the
    member list (or its absence) is as before; no other key changes. *)
Definition with_metadata (E : env) (i i' : record) : Prop :=
  if Attachments.is_filtered i then i' = i
  else ∃ p fn,
    payload_bytes E i = Some p ∧
    i !! "filename" = Some (VStr fn) ∧
    i' !! "extension" =
      Some (VAtom match extension fn with Some e => AStr e | None => ANone end)
    ∧ i' !! "size" = Some (VAtom (AInt (Z.of_nat (String.length p)))) ∧
    i' !! "Content-Type" = Some (VStr (from_buffer E p)) ∧
    i' !! "is_archive" = Some (VAtom (ABool (test_archive E p))) ∧
    (if test_archive E p
     then ∃ found,
       extract_archive E p = Some found ∧
       i' !! "files" = Some (VFiles (Attachments.archived_file E <$> found))
     else i' !! "files" = i !! "files") ∧
    ∀ k, metadata_key k = false → i' !! k = i !! k.

(** What the metadata pass needs to find for the content-type filter to
    work afterwards: a record that is not filtered has no member list yet,
    or one in which every member has a content type. *)
Definition members_ready (i : record) : bool :=
  Attachments.is_filtered i || members_sound i.

(** A record the metadata pass can read, with payload bytes [p]: it is not
    filtered, says how its payload is encoded, and has a payload and a file
    name that are strings. *)
Definition attached (E : env) (p : string) (i : record) : Prop :=
  Attachments.is_filtered i = false ∧
  is_Some (i !! "content_transfer_encoding") ∧
  payload_bytes E i = Some p ∧
  ∃ fn, i !! "filename" = Some (VStr fn).

(** *** The collaborators of [parse_sample] *)

(** The members of the archive that the blacklist lets through. *)
Definition kept (E : env) (self : sample_parser)
    (found : list (string * string)) : list (string * string) :=
  List.filter (file_allowed E self) found.

(** Tika is switched on and the content type of the sample is one of those
    it is meant for. *)
Definition tika_wanted (E : env) (self : sample_parser) (data : string)
    : bool :=
  tika_enabled self &&
  bool_decide (from_buffer E data ∈ tika_content_types self).

(** The calls [parse_sample] makes for a sample, in order: the content type
    of the sample and of every unpacked file is sniffed; the fingerprints
    are taken of the sample and of the members that are kept; Tika gets the
    sample in base64; VirusTotal is asked about the sample and then about
    each member that is kept. *)
Definition expected_calls (E : env) (self : sample_parser) (data : string)
    (found : list (string * string)) : list call :=
  Sniffed data :: (Sniffed ∘ snd <$> found) ++
  Hashed data :: (Hashed ∘ snd <$> kept E self found) ++
  (if tika_wanted E self data then [TikaExtract (b64encode E data)] else []) ++
  (if virustotal_enabled self
   then VtReport (hashlib_sha1 E data) ::
          (VtReport ∘ hashlib_sha1 E ∘ snd <$> kept E self found)
   else []).

(** A member as [parse_sample] leaves it. *)
Definition member_parsed (E : env) (self : sample_parser)
    (x : string * string) : member :=
  if virustotal_enabled self then member_reported E x else member_hashed E x.

(** The same parser with VirusTotal switched off. *)
Definition without_virustotal (self : sample_parser) : sample_parser :=
  SampleParserConf (tika_enabled self) (tika_content_types self)
    (blacklist_content_types self) false (virustotal_api_key self).

(* ===================================================================== *)
(** ** Sample data *)
(* ===================================================================== *)

Definition sha_A : string := "aaaaaaaaaaaaaaaaaaaaaaaaaaaaaaaaaaaaaaaa".
Definition sha_B : string := "bbbbbbbbbbbbbbbbbbbbbbbbbbbbbbbbbbbbbbbb".
Definition sha_C : string := "cccccccccccccccccccccccccccccccccccccccc".

Definition attachment (sha1 content_type payload : string) : record :=
  {[ "filename" := VStr "sample.bin"; "payload" := VStr payload;
     "sha1" := VStr sha1; "Content-Type" := VStr content_type ]}.

Definition three_records : list record :=
  [ attachment sha_A "text/plain" "first";
    attachment sha_B "text/plain" "second";
    attachment sha_C "text/plain" "third" ].

(** A record that an earlier [filter] call marked: no payload any more. *)
Definition marked_earlier : record :=
  {[ "filename" := VStr "old.bin"; "sha1" := VStr sha_B;
     "is_filtered" := VTrue ]}.

Definition html_page : record := attachment sha_A "text/html" "<html></html>".

(** A filtered record whose content type is the one to remove. *)
Definition filtered_html : record :=
  {[ "filename" := VStr "page.html"; "sha1" := VStr sha_B;
     "Content-Type" := VStr "text/html"; "is_filtered" := VTrue ]}.

Definition zip_with_html : record :=
  {[ "filename" := VStr "docs.zip"; "payload" := VStr "UEsDBA==";
     "sha1" := VStr sha_C; "Content-Type" := VStr "application/zip";
     "is_archive" := VTrue;
     "files" := VFiles
       [ {[ "filename" := AStr "a.html"; "Content-Type" := AStr "Text/HTML" ]};
         {[ "filename" := AStr "b.txt"; "Content-Type" := AStr "text/plain" ]} ]
  ]}.

Definition mixed_collection : list record :=
  [html_page; zip_with_html; filtered_html].

(** A reload at 2016-11-03 00:00:00 UTC with three configured lists: one
    without expiry, one that expired a second before, one that expires in
    2030. *)
Definition reload_time : Z := 1478131200000000.

Definition sample_bolt_env : bolt_env := {|
  strptime := λ s,
    if String.eqb s "2016-11-02T23:59:59.000000Z" then Some 1478131199000000%Z
    else if String.eqb s "2030-01-01T00:00:00.000000Z"
    then Some 1893456000000000%Z
    else None;
  utcnow := λ _, reload_time;
  load_config := λ p,
    match p with
    | AStr "/etc/spamscope/whitelists/generic.yml" =>
        Ok (CList [AStr "Example.com"; AStr "python.org"])
    | AStr "/etc/spamscope/whitelists/campaign.yml" =>
        Ok (CList [AStr "Old.Example.org"])
    | AStr "/etc/spamscope/whitelists/partners.yml" =>
        Ok (CList [AStr "partner.example.net"])
    | _ => Ok COther
    end;
|}.

Definition sample_whitelists : list (string * member) :=
  [ ("generic", {[ "path" := AStr "/etc/spamscope/whitelists/generic.yml" ]});
    ("campaign",
     {[ "path" := AStr "/etc/spamscope/whitelists/campaign.yml";
        "expiry" := AStr "2016-11-02T23:59:59.000000Z" ]});
    ("partners",
     {[ "path" := AStr "/etc/spamscope/whitelists/partners.yml";
        "expiry" := AStr "2030-01-01T00:00:00.000000Z" ]}) ].

(** The bolt before the reload: the domain of the campaign list is still in
    its whitelist. *)
Definition stale_bolt : bolt := Bolt {[ "old.example.org" ]} 0.

(** An environment for running the sample parser: archives are the byte
    strings that start with [PK]; unpacking gives a page and a note, except
    for a truncated archive, on which the archive tool gives up. *)
Definition sample_env : env := {|
  mkstemp_raises := false;
  write_raises := false;
  mkdtemp_raises := false;
  test_archive := λ d, String.prefix "PK" d;
  extract_archive := λ d,
    if String.eqb d "PK-truncated" then None
    else Some [("index.html", "<html></html>"); ("notes.txt", "hello")];
  from_buffer := λ d,
    if String.prefix "<html" d then "text/html"
    else if String.prefix "PK" d then "application/zip"
    else "text/plain";
  hashlib_md5 := λ d, "md5 of " +:+ d;
  hashlib_sha1 := λ d, "sha1 of " +:+ d;
  hashlib_sha256 := λ d, "sha256 of " +:+ d;
  hashlib_sha512 := λ d, "sha512 of " +:+ d;
  ssdeep_hash := λ d, "ssdeep of " +:+ d;
  b64encode := λ d, String "=" d;
  b64decode := λ s,
    match s with
    | String "=" d => Some d
    | _ => None
    end;
  extract_all_content := λ p, AStr "text";
  get_file_report := λ h, ANone;
|}.

(** The same environment with no room for scratch files: [mkstemp] fails. *)
Definition no_scratch_env : env := {|
  mkstemp_raises := true;
  write_raises := write_raises sample_env;
  mkdtemp_raises := mkdtemp_raises sample_env;
  test_archive := test_archive sample_env;
  extract_archive := extract_archive sample_env;
  from_buffer := from_buffer sample_env;
  hashlib_md5 := hashlib_md5 sample_env;
  hashlib_sha1 := hashlib_sha1 sample_env;
  hashlib_sha256 := hashlib_sha256 sample_env;
  hashlib_sha512 := hashlib_sha512 sample_env;
  ssdeep_hash := ssdeep_hash sample_env;
  b64encode := b64encode sample_env;
  b64decode := b64decode sample_env;
  extract_all_content := extract_all_content sample_env;
  get_file_report := get_file_report sample_env;
|}.

Definition empty_world : world := World ∅ ∅ [] [] None [].

(** A parser that blacklists HTML and has VirusTotal switched on without an
    API key. *)
Definition html_blacklist : sample_parser := {|
  tika_enabled := false;
  tika_content_types := ∅;
  blacklist_content_types := {[ "text/html" ]};
  virustotal_enabled := true;
  virustotal_api_key := None;
|}.

(** A parser that blacklists HTML and enriches nothing. *)
Definition html_blacklist_plain : sample_parser := {|
  tika_enabled := false;
  tika_content_types := ∅;
  blacklist_content_types := {[ "text/html" ]};
  virustotal_enabled := false;
  virustotal_api_key := None;
|}.

(** A collection with one raw attachment, before [_addmetadata]. *)
Definition raw_attachment (payload : string) : record :=
  {[ "filename" := VStr "Archive.ZIP"; "payload" := VStr payload;
     "content_transfer_encoding" := VStr "binary" ]}.

Definition world_with (payload : string) : world :=
  World ∅ ∅ [] [] None [raw_attachment payload].

(** A byte that is not ASCII, and an archive record with a binary member
    between two texts. *)
Definition binary_blob : string := String (ascii_of_nat 200) "PNG".

Definition text_member (name text : string) : member :=
  {[ "filename" := AStr name; "payload" := AStr (b64encode sample_env text) ]}.

Definition zip_with_binary : record :=
  {[ "filename" := VStr "bundle.zip"; "payload" := VStr "=PK-good";
     "content_transfer_encoding" := VStr "base64"; "is_archive" := VTrue;
     "files" := VFiles
       ([text_member "a.txt" "see http://a.example/"] ++
        text_member "b.png" binary_blob ::
        [text_member "c.txt" "see http://c.example/"]) ]}.

(** A collection with the same archive attached twice, before
    [_addmetadata]. *)
Definition attached_twice : world :=
  World ∅ ∅ [] [] None [raw_attachment "PK-good"; raw_attachment "PK-good"].

(** The sample environment with a scratch area in which files can be made
    but not written. *)
Definition no_write_env : env := {|
  mkstemp_raises := false;
  write_raises := true;
  mkdtemp_raises := mkdtemp_raises sample_env;
  test_archive := test_archive sample_env;
  extract_archive := extract_archive sample_env;
  from_buffer := from_buffer sample_env;
  hashlib_md5 := hashlib_md5 sample_env;
  hashlib_sha1 := hashlib_sha1 sample_env;
  hashlib_sha256 := hashlib_sha256 sample_env;
  hashlib_sha512 := hashlib_sha512 sample_env;
  ssdeep_hash := ssdeep_hash sample_env;
  b64encode := b64encode sample_env;
  b64decode := b64decode sample_env;
  extract_all_content := extract_all_content sample_env;
  get_file_report := get_file_report sample_env;
|}.

(** A configured list whose file is not there. *)
Definition broken_entry : string * member :=
  ("broken", {[ "path" := AStr "/etc/spamscope/whitelists/missing.yml" ]}).

(** A list that expired a second before the reload and whose file is no
    longer there. *)
Definition retired_entry : string * member :=
  ("retired",
   {[ "path" := AStr "/etc/spamscope/whitelists/missing.yml";
      "expiry" := AStr "2016-11-02T23:59:59.000000Z" ]}).

(** An extractor that finds the same two domains in every text. *)
Definition sample_urls_env : urls_env (list string) := {|
  urls_obj := λ _,
    {[ "Example.COM" := ["http://Example.COM/a"];
       "stranger.example" := ["http://stranger.example/b"] ]};
  json_dumps := λ _, "{}";
|}.

(** A parser with everything switched on: HTML is blacklisted, archives go
    to Tika, and VirusTotal has its key. *)
Definition full_parser : sample_parser := {|
  tika_enabled := true;
  tika_content_types := {[ "application/zip" ]};
  blacklist_content_types := {[ "text/html" ]};
  virustotal_enabled := true;
  virustotal_api_key := Some "0123456789abcdef";
|}.
(* ===================================================================== *)
(** ** Facts about equality, truth values and [list.remove] *)
(* ===================================================================== *)

Lemma atom_eqb_refl a : atom_eqb a a = true.
Proof.
  destruct a as [|b|n|s]; simpl; auto.
  - by destruct b.
  - apply Z.eqb_refl.
  - apply String.eqb_refl.
Qed.

Lemma atom_eqb_str_r a s : atom_eqb a (AStr s) = true → a = AStr s.
Proof.
  destruct a as [|b|n|t]; simpl; try discriminate.
  intros H%String.eqb_eq. by subst.
Qed.

Lemma atom_eqb_str_l a s : atom_eqb (AStr s) a = true → a = AStr s.
Proof.
  destruct a as [|b|n|t]; simpl; try discriminate.
  intros H%String.eqb_eq. by subst.
Qed.

Lemma atom_eqb_truthy a b : atom_eqb a b = true → atom_truthy a = atom_truthy b.
Proof.
  destruct a as [|x|n|s], b as [|y|m|t]; simpl; try discriminate; auto.
  - intros H%Bool.eqb_prop. by subst.
  - intros H%Z.eqb_eq. subst. by destruct x.
  - intros H%Z.eqb_eq. subst. by destruct y.
  - intros H%Z.eqb_eq. by subst.
  - intros H%String.eqb_eq. by subst.
Qed.

Section dict_eqb.
Context {A : Type} (eqb : A → A → bool).

Lemma dict_eqb_lookup (m1 m2 : gmap string A) k :
  dict_eqb eqb m1 m2 = true →
  match m1 !! k, m2 !! k with
  | Some x, Some y => eqb x y = true
  | None, None => True
  | _, _ => False
  end.
Proof.
  unfold dict_eqb. intros H%bool_decide_eq_true. specialize (H k).
  unfold option_relation in H. by destruct (m1 !! k), (m2 !! k).
Qed.

Lemma dict_eqb_refl (m : gmap string A) :
  (∀ x, eqb x x = true) → dict_eqb eqb m m = true.
Proof.
  intros Hrefl. apply bool_decide_eq_true. intros k.
  unfold option_relation. destruct (m !! k); auto.
Qed.

Lemma list_eqb_refl (l : list A) :
  (∀ x, eqb x x = true) → list_eqb eqb l l = true.
Proof. intros Hrefl. induction l as [|x l IH]; simpl; [done|]. by rewrite Hrefl. Qed.
End dict_eqb.

Lemma member_eqb_refl (j : member) : member_eqb j j = true.
Proof. apply dict_eqb_refl, atom_eqb_refl. Qed.

Lemma value_eqb_refl v : value_eqb v v = true.
Proof.
  destruct v as [a|fs]; simpl; [apply atom_eqb_refl|].
  apply list_eqb_refl, member_eqb_refl.
Qed.

Lemma record_eqb_refl (i : record) : record_eqb i i = true.
Proof. apply dict_eqb_refl, value_eqb_refl. Qed.

Lemma value_eqb_truthy v w : value_eqb v w = true → truthy v = truthy w.
Proof.
  destruct v as [a|l1], w as [b|l2]; simpl; try discriminate.
  - apply atom_eqb_truthy.
  - destruct l1, l2; simpl; auto; discriminate.
Qed.

Lemma value_eqb_str_r v s : value_eqb v (VStr s) = true → v = VStr s.
Proof.
  destruct v as [a|fs]; simpl; [|discriminate].
  intros H%atom_eqb_str_r. by subst.
Qed.

Lemma value_eqb_str_l v s : value_eqb (VStr s) v = true → v = VStr s.
Proof.
  destruct v as [a|fs]; simpl; [|discriminate].
  intros H%atom_eqb_str_l. by subst.
Qed.

(** Removing, one after the other, the items of a list that satisfy [P]
    leaves the items that do not, when equal items agree on [P]. *)
Section remove_each.
Context {A : Type} (eqb : A → A → bool) (P : A → bool).
Hypothesis eqb_refl : ∀ x, eqb x x = true.
Hypothesis P_eqb : ∀ x y, eqb x y = true → P x = P y.

Lemma remove_each_skip a xs l :
  P a = false → Forall (λ x, P x = true) xs →
  remove_each eqb xs (a :: l) =
    ((remove_each eqb xs l).1, a :: (remove_each eqb xs l).2).
Proof.
  intros Ha Hxs. revert l.
  induction Hxs as [|x xs Hx Hxs IH]; intros l; simpl; [done|].
  destruct (eqb a x) eqn:Hax.
  { apply P_eqb in Hax. congruence. }
  destruct (list_remove eqb x l) as [l'|]; simpl; [apply IH|done].
Qed.

Lemma remove_each_filter l :
  remove_each eqb (List.filter P l) l =
    (Ok (), List.filter (λ x, negb (P x)) l).
Proof.
  induction l as [|a l IH]; simpl; [done|].
  destruct (P a) eqn:Ha; simpl.
  - by rewrite eqb_refl.
  - rewrite remove_each_skip, IH; [done..|].
    apply Forall_forall. intros x Hx%list_elem_of_In%filter_In. tauto.
Qed.
End remove_each.

(* ===================================================================== *)
(** ** [pophash] *)
(* ===================================================================== *)

Section pophash.
Import Attachments.

Lemma len_hashes_Some n key :
  len_hashes n = Some key ↔
    (n = 32 ∧ key = "md5") ∨ (n = 40 ∧ key = "sha1") ∨
    (n = 64 ∧ key = "sha256") ∨ (n = 128 ∧ key = "sha512").
Proof.
  unfold len_hashes. repeat case_decide; subst; split;
    try (intros [= <-]; tauto); try done;
    intros [[??]|[[??]|[[??]|[??]]]]; subst; first [ done | lia ].
Qed.

Lemma hash_matches_eqb key h (i i' : record) :
  record_eqb i i' = true → hash_matches key h i = hash_matches key h i'.
Proof.
  intros H. apply (dict_eqb_lookup _ _ _ key) in H. unfold hash_matches.
  destruct (i !! key) as [v|], (i' !! key) as [v'|]; try done.
  destruct (value_eqb v (VStr h)) eqn:E1.
  - apply value_eqb_str_r in E1. subst.
    apply value_eqb_str_l in H. subst. symmetry. apply value_eqb_refl.
  - destruct (value_eqb v' (VStr h)) eqn:E2; [|done].
    apply value_eqb_str_r in E2. subst.
    apply value_eqb_str_r in H. subst.
    by rewrite value_eqb_refl in E1.
Qed.

Lemma pophash_loop_valid h key todo to_remove :
  len_hashes (String.length h) = Some key →
  pophash_loop h todo to_remove =
    Ok (to_remove ++ List.filter (hash_matches key h) todo).
Proof.
  intros Hkey. revert to_remove.
  induction todo as [|i todo IH]; intros to_remove; simpl.
  - by rewrite app_nil_r.
  - rewrite Hkey. destruct (hash_matches key h i); rewrite IH; [|done].
    by rewrite <-app_assoc.
Qed.

Lemma pophash_valid h key self :
  len_hashes (String.length h) = Some key →
  pophash h self =
    (Ok (), List.filter (λ i, negb (hash_matches key h i)) self).
Proof.
  intros Hkey. unfold pophash. rewrite (pophash_loop_valid _ key) by done.
  simpl. apply remove_each_filter.
  - apply record_eqb_refl.
  - apply hash_matches_eqb.
Qed.

Lemma pophash_invalid h i self :
  len_hashes (String.length h) = None →
  pophash h (i :: self) = (Raise HashError, i :: self).
Proof. intros Hkey. unfold pophash. simpl. by rewrite Hkey. Qed.

Lemma pophash_empty h : pophash h [] = (Ok (), []).
Proof. reflexivity. Qed.
End pophash.

(* ===================================================================== *)
(** ** [popcontenttype] *)
(* ===================================================================== *)

(** In the lemmas below [ct] is the target in lower case. *)

Lemma member_matches_eqb ct (j j' : member) :
  member_eqb j j' = true → member_matches ct j = member_matches ct j'.
Proof.
  intros H. apply (dict_eqb_lookup _ _ _ "Content-Type") in H.
  unfold member_matches.
  destruct (j !! "Content-Type") as [a|], (j' !! "Content-Type") as [a'|];
    try done.
  destruct a as [| | |s].
  4: { apply atom_eqb_str_l in H. by subst. }
  all: destruct a' as [| | |s']; try done.
Qed.

Lemma record_matches_eqb ct (i i' : record) :
  record_eqb i i' = true → record_matches ct i = record_matches ct i'.
Proof.
  intros H. apply (dict_eqb_lookup _ _ _ "Content-Type") in H.
  unfold record_matches.
  destruct (i !! "Content-Type") as [v|], (i' !! "Content-Type") as [v'|];
    try done.
  destruct v as [[| | |s]|fs].
  4: { apply value_eqb_str_l in H. by subst. }
  all: destruct v' as [[| | |s']|fs']; try done.
Qed.

Lemma is_filtered_eqb (i i' : record) :
  record_eqb i i' = true →
  Attachments.is_filtered i = Attachments.is_filtered i'.
Proof.
  intros H. apply (dict_eqb_lookup _ _ _ "is_filtered") in H.
  unfold Attachments.is_filtered.
  destruct (i !! "is_filtered") as [v|], (i' !! "is_filtered") as [v'|];
    try done.
  simpl. by apply value_eqb_truthy.
Qed.

Lemma dropped_eqb ct (i i' : record) :
  record_eqb i i' = true → dropped ct i = dropped ct i'.
Proof.
  intros H. unfold dropped.
  by rewrite (is_filtered_eqb _ _ H), (record_matches_eqb _ _ _ H).
Qed.

Lemma inner_loop_Ok ct js acc r :
  Attachments.inner_loop ct js acc = Ok r →
  r = acc ++ List.filter (member_matches ct) js.
Proof.
  revert acc. induction js as [|j js IH]; intros acc; simpl.
  - intros [= <-]. by rewrite app_nil_r.
  - unfold member_matches at 1.
    destruct (j !! "Content-Type") as [[| | |s]|]; simpl; try done.
    destruct (String.eqb (lower s) ct); intros H%IH; [|done].
    by rewrite <-app_assoc in H.
Qed.

Lemma examine_Ok ct i v :
  Attachments.examine ct i = Ok v →
  v = if record_matches ct i then Attachments.Drop
      else Attachments.Keep (prune ct i).
Proof.
  unfold Attachments.examine, record_matches, prune.
  destruct (i !! "Content-Type") as [[[| | |s]|fs]|]; simpl; try done.
  destruct (String.eqb (lower s) ct); [by intros [= <-]|].
  destruct (i !! "files") as [[a|js]|]; [| |by intros [= <-]].
  - destruct (atom_eqb a (AStr "")); [by intros [= <-]|done].
  - destruct (Attachments.inner_loop ct js []) as [rm|e] eqn:Hin.
    2: { by destruct e. }
    apply inner_loop_Ok in Hin. simpl in Hin. subst rm.
    rewrite (remove_each_filter member_eqb (member_matches ct))
      by auto using member_eqb_refl, member_matches_eqb.
    by intros [= <-].
Qed.

Lemma prune_lookup_ne ct (i : record) k :
  k ≠ "files" → prune ct i !! k = i !! k.
Proof.
  intros Hk. unfold prune. destruct (i !! "files") as [[a|js]|]; try done.
  by rewrite lookup_insert_ne.
Qed.

Lemma prune_is_filtered ct i :
  Attachments.is_filtered (prune ct i) = Attachments.is_filtered i.
Proof. unfold Attachments.is_filtered. by rewrite prune_lookup_ne. Qed.

Lemma prune_record_matches ct ct' i :
  record_matches ct' (prune ct i) = record_matches ct' i.
Proof. unfold record_matches. by rewrite prune_lookup_ne. Qed.

Lemma dropped_touch ct i : dropped ct (touch ct i) = dropped ct i.
Proof.
  unfold touch. destruct (dropped ct i) eqn:Hd; [done|].
  unfold survive, dropped in *.
  destruct (Attachments.is_filtered i) eqn:Hf; simpl in *; [by rewrite Hf|].
  rewrite Hd. simpl. by rewrite prune_is_filtered, prune_record_matches, Hf.
Qed.

Lemma touch_dropped ct i : dropped ct i = true → touch ct i = i.
Proof. unfold touch. by intros ->. Qed.

Lemma filter_dropped_touch ct l :
  List.filter (dropped ct) (touch ct <$> l) = List.filter (dropped ct) l.
Proof.
  induction l as [|i l IH]; csimpl; [done|].
  rewrite dropped_touch. destruct (dropped ct i) eqn:Hd; [|done].
  by rewrite touch_dropped, IH.
Qed.

Lemma filter_kept_touch ct l :
  List.filter (λ i, negb (dropped ct i)) (touch ct <$> l) =
  omap (survive ct) l.
Proof.
  induction l as [|i l IH]; csimpl; [done|].
  rewrite dropped_touch, IH. unfold touch, survive, dropped.
  destruct (Attachments.is_filtered i), (record_matches ct i); done.
Qed.

Lemma popcontenttype_loop_passes ct todo remove :
  Forall (λ i, passes ct i = true) todo →
  Attachments.popcontenttype_loop ct todo remove =
    (Ok (remove ++ List.filter (dropped ct) todo), touch ct <$> todo).
Proof.
  intros Hall. revert remove.
  induction Hall as [|i todo Hi _ IH]; intros remove; simpl.
  - by rewrite app_nil_r.
  - unfold passes in Hi. unfold touch, survive, dropped.
    destruct (Attachments.is_filtered i); simpl in *.
    + by rewrite IH.
    + destruct (Attachments.examine ct i) as [v|] eqn:Hex; [|done].
      rewrite (examine_Ok _ _ _ Hex).
      destruct (record_matches ct i); rewrite IH; [|done].
      by rewrite <-app_assoc.
Qed.

Lemma popcontenttype_loop_fails ct pre i post remove :
  Forall (λ i, passes ct i = true) pre →
  passes ct i = false →
  ∃ e, Attachments.examine ct i = Raise e ∧
       Attachments.popcontenttype_loop ct (pre ++ i :: post) remove =
         (Raise e, (touch ct <$> pre) ++ i :: post).
Proof.
  intros Hpre Hi. unfold passes in Hi.
  apply orb_false_iff in Hi as [Hf Hex].
  destruct (Attachments.examine ct i) as [|e] eqn:Hexi; [done|].
  exists e. split; [done|]. revert remove.
  induction Hpre as [|x pre Hx _ IH]; intros remove; simpl.
  - by rewrite Hf, Hexi.
  - unfold passes in Hx. unfold touch, survive, dropped.
    destruct (Attachments.is_filtered x); simpl in *.
    + by rewrite IH.
    + destruct (Attachments.examine ct x) as [v|] eqn:Hexx; [|done].
      rewrite (examine_Ok _ _ _ Hexx).
      destruct (record_matches ct x); by rewrite IH.
Qed.

Lemma passes_split ct (l : list record) :
  Forall (λ i, passes ct i = true) l ∨
  ∃ pre i post, l = pre ++ i :: post ∧
    Forall (λ i, passes ct i = true) pre ∧ passes ct i = false.
Proof.
  induction l as [|x l IH]; [by left|].
  destruct (passes ct x) eqn:Hx.
  - destruct IH as [IH|(pre & i & post & -> & Hpre & Hi)].
    + left. by constructor.
    + right. exists (x :: pre), i, post. split; [done|].
      split; [by constructor|done].
  - right. exists [], x, l. by repeat split.
Qed.

Lemma popcontenttype_passes ct self :
  Forall (λ i, passes (lower ct) i = true) self →
  Attachments.popcontenttype ct self = (Ok (), omap (survive (lower ct)) self).
Proof.
  intros Hall. unfold Attachments.popcontenttype.
  rewrite popcontenttype_loop_passes by done. simpl.
  rewrite <-filter_dropped_touch.
  rewrite (remove_each_filter record_eqb (dropped (lower ct)))
    by auto using record_eqb_refl, dropped_eqb.
  by rewrite filter_kept_touch.
Qed.

Lemma popcontenttype_fails ct pre i post :
  Forall (λ i, passes (lower ct) i = true) pre →
  passes (lower ct) i = false →
  ∃ e, Attachments.examine (lower ct) i = Raise e ∧
       Attachments.popcontenttype ct (pre ++ i :: post) =
         (Raise e, (touch (lower ct) <$> pre) ++ i :: post).
Proof.
  intros Hpre Hi.
  destruct (popcontenttype_loop_fails _ _ _ post [] Hpre Hi) as (e & He & Hl).
  exists e. split; [done|]. unfold Attachments.popcontenttype. by rewrite Hl.
Qed.

Lemma inner_loop_typed ct js acc :
  forallb member_typed js = true →
  Attachments.inner_loop ct js acc =
    if existsb member_lacks js then Raise KeyError
    else Ok (acc ++ List.filter (member_matches ct) js).
Proof.
  revert acc. induction js as [|j js IH]; intros acc; simpl.
  - by rewrite app_nil_r.
  - intros [Hj Hjs]%andb_true_iff.
    unfold member_typed in Hj. unfold member_lacks at 1, member_matches at 1.
    destruct (j !! "Content-Type") as [[| | |s]|]; simpl; try done.
    destruct (String.eqb (lower s) ct); rewrite IH by done;
      destruct (existsb member_lacks js); try done.
    by rewrite <-app_assoc.
Qed.

Lemma examine_typed ct i :
  record_typed i = true →
  Attachments.examine ct i =
    if lacks_content_type ct i then Raise ContentTypeError
    else if record_matches ct i then Ok Attachments.Drop
    else Ok (Attachments.Keep (prune ct i)).
Proof.
  unfold record_typed, Attachments.examine, lacks_content_type,
    record_matches, prune.
  intros [Hct Hfiles]%andb_true_iff.
  destruct (i !! "Content-Type") as [[[| | |s]|fs]|]; simpl; try done.
  destruct (String.eqb (lower s) ct); simpl; [done|].
  destruct (i !! "files") as [[a|js]|]; try done.
  rewrite inner_loop_typed by done.
  destruct (existsb member_lacks js); [done|]. simpl.
  by rewrite (remove_each_filter member_eqb (member_matches ct))
    by auto using member_eqb_refl, member_matches_eqb.
Qed.

Lemma passes_typed ct i :
  well_formed i = true → passes ct i = negb (examined_lacks ct i).
Proof.
  unfold well_formed, passes, examined_lacks.
  destruct (Attachments.is_filtered i); simpl; [done|].
  intros Ht. rewrite examine_typed by done.
  destruct (lacks_content_type ct i); [done|].
  by destruct (record_matches ct i).
Qed.

Lemma examine_typed_Raise ct i e :
  well_formed i = true → Attachments.is_filtered i = false →
  Attachments.examine ct i = Raise e → e = ContentTypeError.
Proof.
  unfold well_formed. intros Hw Hf. rewrite Hf in Hw. simpl in Hw.
  rewrite examine_typed by done.
  destruct (lacks_content_type ct i); [by intros [= <-]|].
  by destruct (record_matches ct i).
Qed.

Lemma passes_not_filtered ct i :
  passes ct i = false → Attachments.is_filtered i = false.
Proof. unfold passes. by intros [??]%orb_false_iff. Qed.

Lemma touch_is_filtered ct i :
  Attachments.is_filtered (touch ct i) = Attachments.is_filtered i.
Proof.
  unfold touch, survive, dropped.
  destruct (Attachments.is_filtered i) eqn:Hf; simpl; [done|].
  destruct (record_matches ct i); simpl; [done|].
  by rewrite prune_is_filtered.
Qed.

Lemma touch_filtered ct i : Attachments.is_filtered i = true → touch ct i = i.
Proof. unfold touch, survive, dropped. by intros ->. Qed.

Lemma filter_filtered_touch ct l :
  List.filter Attachments.is_filtered (touch ct <$> l) =
  List.filter Attachments.is_filtered l.
Proof.
  induction l as [|i l IH]; csimpl; [done|].
  rewrite touch_is_filtered, IH.
  destruct (Attachments.is_filtered i) eqn:Hf; [|done].
  by rewrite touch_filtered.
Qed.

Lemma filter_filtered_survive ct l :
  List.filter Attachments.is_filtered (omap (survive ct) l) =
  List.filter Attachments.is_filtered l.
Proof.
  induction l as [|i l IH]; csimpl; [done|]. unfold survive at 1.
  destruct (Attachments.is_filtered i) eqn:Hf; csimpl.
  - by rewrite Hf, IH.
  - destruct (record_matches ct i); csimpl; [done|].
    by rewrite prune_is_filtered, Hf.
Qed.

Lemma Forall_passes_unfiltered ct l :
  Forall (λ i, passes ct i = true) l →
  Forall (λ i, passes ct i = true)
    (List.filter (λ i, negb (Attachments.is_filtered i)) l).
Proof.
  intros H. apply Forall_forall. intros x Hx%list_elem_of_In%filter_In.
  rewrite Forall_forall in H. apply H, list_elem_of_In. tauto.
Qed.

(** ** C6: removal by content type *)

(** C6 (as amended).  On a collection whose unfiltered records are typed,
    [popcontenttype] either returns, and then nothing it looked at lacked a
    content type and the collection is the old one in which every record
    that is not marked filtered and whose content type equals the target
    (ignoring case) is gone, every other unfiltered record has lost its
    matching members, and the filtered records are as before; or it raises,
    and then the exception is [ContentTypeError] and some unfiltered record,
    or a member of an unfiltered record that does not match, has no
    ["Content-Type"]. *)
Theorem popcontenttype_removes_unfiltered_matches ct self :
  Forall (λ i, well_formed i = true) self →
  match Attachments.popcontenttype ct self with
  | (Ok _, self') =>
      Forall (λ i, examined_lacks (lower ct) i = false) self ∧
      self' = omap (survive (lower ct)) self
  | (Raise e, _) =>
      e = ContentTypeError ∧
      Exists (λ i, examined_lacks (lower ct) i = true) self
  end.
Proof.
  intros Hwf.
  destruct (passes_split (lower ct) self)
    as [Hall|(pre & i & post & -> & Hpre & Hi)].
  - rewrite popcontenttype_passes by done. split; [|done].
    rewrite Forall_forall in Hwf, Hall. apply Forall_forall. intros i Hin.
    specialize (Hall i Hin). rewrite passes_typed in Hall by auto.
    by apply negb_true_iff.
  - destruct (popcontenttype_fails ct pre i post Hpre Hi) as (e & He & ->).
    assert (well_formed i = true) as Hwi.
    { rewrite Forall_forall in Hwf. apply Hwf. set_solver. }
    split.
    + eapply examine_typed_Raise; eauto using passes_not_filtered.
    + apply Exists_exists. exists i. split; [set_solver|].
      rewrite passes_typed in Hi by done. by apply negb_false_iff.
Qed.

(** ** C10: filtered records are out of reach of [popcontenttype] *)

(** C10.  Whatever the outcome of [popcontenttype] (normal return or
    exception), the records marked filtered are in the collection afterwards
    exactly as they were, in the same order; and the outcome is the one the
    call has on the collection without its filtered records, so nothing in a
    filtered record (a matching or a missing ["Content-Type"] included) has
    any influence on it. *)
Theorem popcontenttype_skips_filtered ct self :
  List.filter Attachments.is_filtered (Attachments.popcontenttype ct self).2 =
    List.filter Attachments.is_filtered self ∧
  (Attachments.popcontenttype ct self).1 =
    (Attachments.popcontenttype ct
       (List.filter (λ i, negb (Attachments.is_filtered i)) self)).1.
Proof.
  destruct (passes_split (lower ct) self)
    as [Hall|(pre & i & post & -> & Hpre & Hi)].
  - rewrite !popcontenttype_passes by auto using Forall_passes_unfiltered.
    split; [apply filter_filtered_survive|done].
  - destruct (popcontenttype_fails ct pre i post Hpre Hi) as (e & He & ->).
    pose proof (passes_not_filtered _ _ Hi) as Hf. simpl. split.
    + rewrite !List.filter_app, filter_filtered_touch. simpl. by rewrite Hf.
    + rewrite List.filter_app. simpl. rewrite Hf. simpl.
      destruct (popcontenttype_fails ct _ i
        (List.filter (λ i, negb (Attachments.is_filtered i)) post)
        (Forall_passes_unfiltered _ _ Hpre) Hi) as (e' & He' & ->).
      simpl. congruence.
Qed.

(* ===================================================================== *)
(** ** [filter] *)
(* ===================================================================== *)

Lemma fingerprint_Some hash_type i h :
  fingerprint hash_type i = Some h ↔ i !! hash_type = Some (VAtom h).
Proof.
  unfold fingerprint. destruct (i !! hash_type) as [[a|fs]|]; simpl;
    split; intros H; by simplify_eq.
Qed.

Lemma filter_loop_total check hash_type todo analyzed :
  Forall (λ i, is_Some (fingerprint hash_type i)) todo →
  ∃ analyzed' todo',
    Attachments.filter_loop check hash_type todo analyzed =
      (Ok analyzed', todo') ∧
    analyzed' = analyzed ∪ list_to_set (canon <$> omap (fingerprint hash_type) todo) ∧
    Forall2 (λ i i', ∃ h,
        i !! hash_type = Some (VAtom h) ∧
        i' = if bool_decide (canon h ∈ check)
             then <["is_filtered" := VTrue]> (delete "payload" i)
             else <["is_filtered" := VFalse]> i)
      todo todo'.
Proof.
  intros Hall. revert analyzed.
  induction Hall as [|i todo [h Hi] _ IH]; intros analyzed; simpl.
  - eexists _, _. split; [done|]. split; [set_solver|constructor].
  - rewrite Hi. simpl. apply fingerprint_Some in Hi. rewrite Hi.
    destruct (IH ({[canon h]} ∪ analyzed)) as (a' & t' & -> & -> & HF).
    eexists _, _. split; [done|]. split; [set_solver|].
    constructor; [|done]. by exists h.
Qed.

(** ** C9 *)

(** C9.  When every record has a fingerprint under [hash_type], [filter]
    returns, and every record of the collection then carries an
    [is_filtered] flag that says whether its fingerprint is in the hash set
    of this call; a record whose fingerprint is not in the set is otherwise
    as it was before the call, whatever its flag said then: a payload that
    was dropped earlier is still missing. *)
Theorem filter_flags_every_record check_list hash_type self :
  Forall (λ i, is_Some (fingerprint hash_type i)) self →
  ∃ analyzed self',
    Attachments.filter check_list hash_type self = (Ok analyzed, self') ∧
    Forall2 (λ i i', ∃ h,
        fingerprint hash_type i = Some h ∧
        i' !! "is_filtered" =
          Some (VAtom (ABool (bool_decide (canon h ∈ pyset check_list)))) ∧
        (canon h ∉ pyset check_list →
           i' = <["is_filtered" := VFalse]> i ∧
           i' !! "payload" = i !! "payload"))
      self self'.
Proof.
  intros Hall. unfold Attachments.filter.
  destruct (filter_loop_total (pyset check_list) _ _ ∅ Hall)
    as (a' & s' & -> & _ & HF).
  exists a', s'. split; [done|].
  eapply Forall2_impl; [exact HF|]. simpl.
  intros i i' (h & Hh & ->). exists h. split; [by apply fingerprint_Some|].
  case_bool_decide; simplify_map_eq; done.
Qed.

(** ** C1 *)

(** C1 (as amended).  For three records with sha1 fingerprints [A], [B] and
    [C], [B] different from [A] and [C], [filter(collection, {A, C}, "sha1")]
    leaves the records of [A] and [C] with [is_filtered = True] and without
    payload, leaves the payload of the record of [B] as it was, and returns
    the set of all fingerprints it has seen, [{A, B, C}]. *)
Theorem filter_three_records A B C (rA rB rC : record) :
  rA !! "sha1" = Some (VStr A) →
  rB !! "sha1" = Some (VStr B) →
  rC !! "sha1" = Some (VStr C) →
  B ≠ A → B ≠ C →
  ∃ rA' rB' rC' : record,
    Attachments.filter [AStr A; AStr C] "sha1" [rA; rB; rC] =
      (Ok {[AStr A; AStr B; AStr C]}, [rA'; rB'; rC']) ∧
    rA' !! "is_filtered" = Some VTrue ∧ rA' !! "payload" = None ∧
    rC' !! "is_filtered" = Some VTrue ∧ rC' !! "payload" = None ∧
    rB' !! "payload" = rB !! "payload".
Proof.
  intros HA HB HC HBA HBC.
  assert (AStr A ∈ pyset [AStr A; AStr C]) as HinA by (unfold pyset; simpl; set_solver).
  assert (AStr C ∈ pyset [AStr A; AStr C]) as HinC by (unfold pyset; simpl; set_solver).
  assert (AStr B ∉ pyset [AStr A; AStr C]) as HninB by (unfold pyset; simpl; set_solver).
  unfold Attachments.filter. simpl. rewrite HA, HB, HC. simpl.
  rewrite (bool_decide_eq_true_2 _ HinA), (bool_decide_eq_false_2 _ HninB),
    ?(bool_decide_eq_true_2 _ HinC).
  eexists _, _, _. split.
  - f_equal. f_equal. set_solver.
  - by simplify_map_eq.
Qed.

(** The three sample records, marked with the hashes of the first and the
    third. *)
Lemma filter_three_records_witness :
  ∃ rA' rB' rC' : record,
    Attachments.filter [AStr sha_A; AStr sha_C] "sha1" three_records =
      (Ok {[AStr sha_A; AStr sha_B; AStr sha_C]}, [rA'; rB'; rC']) ∧
    rA' !! "is_filtered" = Some VTrue ∧ rA' !! "payload" = None ∧
    rC' !! "is_filtered" = Some VTrue ∧ rC' !! "payload" = None ∧
    rB' !! "payload" = Some (VStr "second").
Proof.
  assert (attachment sha_B "text/plain" "second" !! "payload"
          = Some (VStr "second")) as <- by (vm_compute; reflexivity).
  apply (filter_three_records sha_A sha_B sha_C);
    first [ vm_compute; reflexivity | discriminate ].
Defined.

(** The set that comes back is not [{A, C}]: the fingerprint of the record
    that did not match is in it. *)
Lemma filter_returns_unmatched_hash :
  (Attachments.filter [AStr sha_A; AStr sha_C] "sha1" three_records).1
    ≠ Ok {[AStr sha_A; AStr sha_C]}.
Proof.
  apply (proj1 (bool_decide_eq_false _)). vm_compute. reflexivity.
Qed.

(** A page and a record that was marked by an earlier call, marked with the
    hash of the page only. *)
Lemma filter_flags_every_record_witness :
  ∃ analyzed self',
    Attachments.filter [AStr sha_A] "sha1" [html_page; marked_earlier] =
      (Ok analyzed, self') ∧
    Forall2 (λ i i', ∃ h,
        fingerprint "sha1" i = Some h ∧
        i' !! "is_filtered" =
          Some (VAtom (ABool (bool_decide (canon h ∈ pyset [AStr sha_A])))) ∧
        (canon h ∉ pyset [AStr sha_A] →
           i' = <["is_filtered" := VFalse]> i ∧
           i' !! "payload" = i !! "payload"))
      [html_page; marked_earlier] self'.
Proof.
  apply (filter_flags_every_record [AStr sha_A] "sha1"
           [html_page; marked_earlier]).
  repeat (apply Forall_cons_2; [by (vm_compute; eexists)|]). apply Forall_nil_2.
Defined.

(** The record that was marked before and does not match now comes out with
    [is_filtered = False] and still without payload. *)
Example filter_unmarks_marked_earlier :
  (Attachments.filter [AStr sha_A] "sha1" [html_page; marked_earlier]).2 !! 1
  = Some ({[ "filename" := VStr "old.bin"; "sha1" := VStr sha_B;
             "is_filtered" := VFalse ]} : record).
Proof. vm_compute. reflexivity. Qed.

(** ** C2 *)

(** C2 (the code departs from it).  The hash string [abc] has a length that
    selects no algorithm, and on every collection with at least one record
    [pophash] refuses it with [HashError]; on the empty collection the loop
    body with the length lookup never runs and the call returns as if
    nothing were wrong. *)
Theorem pophash_silent_on_empty_collection :
  Attachments.len_hashes (String.length "abc") = None ∧
  (∀ i self,
     Attachments.pophash "abc" (i :: self) = (Raise HashError, i :: self)) ∧
  Attachments.pophash "abc" [] = (Ok (), []).
Proof.
  split; [reflexivity|]. split; [|reflexivity].
  intros i self. by apply pophash_invalid.
Qed.

(** On a collection that is not empty the same hash string is refused. *)
Example pophash_refuses_short_hash :
  Attachments.pophash "abc" three_records = (Raise HashError, three_records).
Proof. apply pophash_invalid. vm_compute. reflexivity. Qed.

(** The sample collection (a page, an archive with a page inside, a
    filtered page), cleared of HTML. *)
Lemma popcontenttype_removes_unfiltered_matches_witness :
  match Attachments.popcontenttype "text/HTML" mixed_collection with
  | (Ok _, self') =>
      Forall (λ i, examined_lacks (lower "text/HTML") i = false)
        mixed_collection ∧
      self' = omap (survive (lower "text/HTML")) mixed_collection
  | (Raise e, _) =>
      e = ContentTypeError ∧
      Exists (λ i, examined_lacks (lower "text/HTML") i = true)
        mixed_collection
  end.
Proof.
  apply (popcontenttype_removes_unfiltered_matches "text/HTML"
           mixed_collection).
  repeat (apply Forall_cons_2; [by vm_compute|]). apply Forall_nil_2.
Defined.

(** What is left of the sample collection: the page is gone, the archive has
    lost its HTML member, the filtered page is still there. *)
Example popcontenttype_mixed_collection :
  Attachments.popcontenttype "text/HTML" mixed_collection =
    (Ok (),
     [ <["files" := VFiles
          [ {[ "filename" := AStr "b.txt";
               "Content-Type" := AStr "text/plain" ]} ]]> zip_with_html;
       filtered_html ]).
Proof. vm_compute. reflexivity. Qed.

(** A record marked filtered stays in the collection although its content
    type is the target. *)
Lemma popcontenttype_keeps_filtered_match :
  record_matches "text/html" filtered_html = true ∧
  Attachments.popcontenttype "text/html" [filtered_html] =
    (Ok (), [filtered_html]).
Proof. split; vm_compute; reflexivity. Qed.

(* ===================================================================== *)
(** ** [extension] *)
(* ===================================================================== *)

(** The tuple [splitext] returns always has two components, so the test
    [len(ext) > 1] never fails and [extension] never returns [None]. *)
Lemma extension_is_Some filename :
  extension filename = Some (lower (splitext filename).2).
Proof. reflexivity. Qed.

Lemma rfind_from_none c s pos found :
  (∀ i, String.get i s ≠ Some c) → rfind_from c s pos found = found.
Proof.
  revert pos found.
  induction s as [|x s IH]; intros pos found H; simpl; [done|].
  destruct (Ascii.eqb_spec x c) as [->|Hne].
  - by specialize (H 0%nat).
  - apply IH. intros i. apply (H (S i)).
Qed.

Lemma rfind_from_lower_bound c s pos found :
  (-1 ≤ found)%Z → (0 ≤ pos)%Z → (-1 ≤ rfind_from c s pos found)%Z.
Proof.
  revert pos found. induction s as [|x s IH]; intros pos found ??; simpl;
    [done|].
  apply IH; [|lia]. destruct (Ascii.eqb x c); lia.
Qed.

Lemma splitext_no_dot p :
  (∀ i, String.get i p ≠ Some "."%char) → splitext p = (p, "").
Proof.
  intros H. unfold splitext, rfind. rewrite (rfind_from_none "." p) by done.
  pose proof (rfind_from_lower_bound "/" p 0 (-1)) as Hsep.
  destruct (Z.ltb_spec (rfind_from "/" p 0 (-1)) (-1)); [lia|done].
Qed.

(** For a file name without any dot the extension is the empty string. *)
Lemma extension_no_dot filename :
  (∀ i, String.get i filename ≠ Some "."%char) →
  extension filename = Some "".
Proof. intros H. rewrite extension_is_Some. by rewrite splitext_no_dot. Qed.

(** ** C4 *)

(** C4 (the code departs from it).  For the file name [README], which has no
    dot, [extension] returns the empty string and not [None]; and there is
    no file name at all for which it returns [None]. *)
Theorem extension_of_dotless_name_is_empty_string :
  extension "README" = Some "" ∧ ∀ filename, extension filename ≠ None.
Proof.
  split; [reflexivity|]. intros filename. by rewrite extension_is_Some.
Qed.

(** With a dot, the extension is the lower-cased last segment, the dot
    included; a name of dots and letters only after them has none. *)
Example extension_examples :
  extension "Invoice.PDF" = Some ".pdf" ∧
  extension "backup.tar.GZ" = Some ".gz" ∧
  extension ".bashrc" = Some "" ∧
  extension "v1.2/notes" = Some "".
Proof. repeat split; reflexivity. Qed.

(* ===================================================================== *)
(** ** Whitelist reload *)
(* ===================================================================== *)

Section whitelist.
Context (C : bolt_env).

Lemma reads_cons k v items :
  reads ((k, v) :: items) = Nat.b2n (has_expiry v) + reads items.
Proof. unfold reads. simpl. by destruct (has_expiry v). Qed.

(** The set comprehension of the code on a list of strings, and on a list
    with something else in it. *)
Lemma lower_all_strings domains ss :
  strings_of domains = Some ss →
  lower_all domains = Ok (list_to_set (lower <$> ss)).
Proof.
  revert ss. induction domains as [|[| | |s] domains IH]; intros ss; simpl;
    try done.
  - by intros [= <-].
  - destruct (strings_of domains) as [ss'|]; [|done]. intros [= <-].
    by rewrite (IH ss').
Qed.

Lemma lower_all_not_strings domains :
  strings_of domains = None → ∃ e, lower_all domains = Raise e.
Proof.
  induction domains as [|[| | |s] domains IH]; simpl; try done; eauto.
  destruct (strings_of domains) as [ss'|]; [done|]. intros _.
  destruct IH as [e ->]; eauto.
Qed.

Lemma load_whitelist_loop_ready items wl n :
  entries_ready C items n = true →
  load_whitelist_loop C items (Bolt wl n) =
    (Ok (), Bolt (wl ∪ rebuilt C items n) (n + reads items)).
Proof.
  revert wl n. induction items as [|[k v] items IH]; intros wl n.
  - intros _. simpl. unfold reads. simpl. rewrite Nat.add_0_r. f_equal.
    f_equal. set_solver.
  - simpl. intros [[Hexp Hpath]%andb_true_iff Hrest]%andb_true_iff.
    rewrite reads_cons.
    unfold expiry_ok in Hexp. unfold has_expiry in *. unfold live in *.
    assert (path_ok C v = true →
            ∃ path domains ss, v !! "path" = Some path ∧
              load_config C path = Ok (CList domains) ∧
              strings_of domains = Some ss ∧
              domains_of C v = list_to_set (lower <$> ss)) as Hlisted.
    { unfold path_ok, domains_of, listed.
      destruct (v !! "path") as [path|]; [|done].
      destruct (load_config C path) as [[domains|]|] eqn:Hload; try done.
      destruct (strings_of domains) as [ss|] eqn:Hss; [|done].
      intros _. by exists path, domains, ss. }
    assert (∀ m, entries_ready C items m = true →
              path_ok C v = true →
              match v !! "path" with
              | Some path =>
                  match load_config C path with
                  | Ok (CList domains) =>
                      match lower_all domains with
                      | Ok domains =>
                          load_whitelist_loop C items (Bolt (wl ∪ domains) m)
                      | Raise e => (Raise e, Bolt wl m)
                      end
                  | Ok COther => (Raise ImproperlyConfigured, Bolt wl m)
                  | Raise e => (Raise e, Bolt wl m)
                  end
              | None => (Raise KeyError, Bolt wl m)
              end =
              (Ok (), Bolt (wl ∪ (domains_of C v ∪ rebuilt C items m))
                        (m + reads items))) as Hload.
    { intros m Hm Hp.
      destruct (Hlisted Hp) as (path & domains & ss & -> & -> & Hss & ->).
      rewrite (lower_all_strings _ _ Hss), IH by done.
      f_equal. f_equal. set_solver. }
    clear Hlisted.
    destruct (default ANone (v !! "expiry")) as [|b|z|s]; simpl in *.
    + rewrite Nat.add_0_r in *. by apply Hload.
    + destruct b; [done|]. simpl in *.
      rewrite Nat.add_0_r in *. by apply Hload.
    + destruct (z =? 0)%Z; [|done]. simpl in *.
      rewrite Nat.add_0_r in *. by apply Hload.
    + destruct (String.eqb s ""); simpl in *.
      * rewrite Nat.add_0_r in *. by apply Hload.
      * apply bool_decide_eq_true in Hexp as [t Ht]. rewrite Ht in *.
        replace (n + 1) with (S n) in * by lia.
        replace (n + S (reads items)) with (S n + reads items) by lia.
        destruct (utcnow C n <? t)%Z; simpl in *.
        -- by apply Hload.
        -- rewrite IH by done. f_equal. f_equal. set_solver.
Qed.

(** Well-formed entries can be reloaded at any time. *)
Lemma entries_ok_ready items n :
  Forall (λ kv, entry_ok C kv.2 = true) items →
  entries_ready C items n = true.
Proof.
  intros Hall. revert n. induction Hall as [|[k v] items Hv _ IH]; intros n;
    simpl; [done|].
  rewrite IH, andb_true_r. unfold entry_ready. simpl in Hv.
  apply andb_true_iff in Hv as [-> ->]. simpl. apply orb_true_r.
Qed.

Lemma load_whitelist_loop_ok items wl n :
  Forall (λ kv, entry_ok C kv.2 = true) items →
  load_whitelist_loop C items (Bolt wl n) =
    (Ok (), Bolt (wl ∪ rebuilt C items n) (n + reads items)).
Proof. intros Hall. by apply load_whitelist_loop_ready, entries_ok_ready. Qed.

(** The entries that cannot be reloaded stop the loop. *)
Lemma load_whitelist_loop_not_ready items wl n :
  entries_ready C items n = false →
  ∃ e self', load_whitelist_loop C items (Bolt wl n) = (Raise e, self').
Proof.
  revert wl n. induction items as [|[k v] items IH]; intros wl n; [done|].
  simpl. unfold entry_ready, expiry_ok, path_ok, live, has_expiry, listed.
  intros Hnr.
  assert (∀ m, (match v !! "path" with
                | Some path =>
                    match load_config C path with
                    | Ok (CList domains) => strings_of domains
                    | _ => None
                    end
                | None => None
                end = None ∨ entries_ready C items m = false) →
            ∃ e self',
              match v !! "path" with
              | Some path =>
                  match load_config C path with
                  | Ok (CList domains) =>
                      match lower_all domains with
                      | Ok domains =>
                          load_whitelist_loop C items (Bolt (wl ∪ domains) m)
                      | Raise e => (Raise e, Bolt wl m)
                      end
                  | Ok COther => (Raise ImproperlyConfigured, Bolt wl m)
                  | Raise e => (Raise e, Bolt wl m)
                  end
              | None => (Raise KeyError, Bolt wl m)
              end = (Raise e, self')) as Hload.
  { intros m Hm. destruct (v !! "path") as [path|]; [|by eauto].
    destruct (load_config C path) as [[domains|]|]; [|by eauto..].
    destruct (strings_of domains) as [ss|] eqn:Hss.
    - rewrite (lower_all_strings _ _ Hss). destruct Hm as [|Hm]; [done|].
      by apply IH.
    - destruct (lower_all_not_strings _ Hss) as [e ->]. eauto. }
  destruct (default ANone (v !! "expiry")) as [|b|z|s]; simpl in *.
  - rewrite Nat.add_0_r in Hnr. apply Hload.
    destruct (match v !! "path" with Some _ => _ | None => _ end);
      [by right|by left].
  - destruct b; simpl in *; [by eauto|].
    rewrite Nat.add_0_r in Hnr. apply Hload.
    destruct (match v !! "path" with Some _ => _ | None => _ end);
      [by right|by left].
  - destruct (z =? 0)%Z; simpl in *; [|by eauto].
    rewrite Nat.add_0_r in Hnr. apply Hload.
    destruct (match v !! "path" with Some _ => _ | None => _ end);
      [by right|by left].
  - destruct (String.eqb s ""); simpl in *.
    + rewrite Nat.add_0_r in Hnr. apply Hload.
      destruct (match v !! "path" with Some _ => _ | None => _ end);
        [by right|by left].
    + destruct (strptime C s) as [t|]; [|by eauto].
      replace (n + 1) with (S n) in * by lia.
      rewrite bool_decide_eq_true_2 in Hnr by eauto. simpl in *.
      destruct (utcnow C n <? t)%Z; simpl in *.
      * apply Hload.
        destruct (match v !! "path" with Some _ => _ | None => _ end);
          [by right|by left].
      * by apply IH.
Qed.

(** What it is for a domain to be among those of an entry. *)
Lemma elem_of_domains_of v d :
  d ∈ domains_of C v ↔ ∃ ds s, listed C v = Some ds ∧ s ∈ ds ∧ d = lower s.
Proof.
  unfold domains_of. destruct (listed C v) as [ds|].
  - rewrite elem_of_list_to_set, list_elem_of_fmap. split.
    + intros (s & -> & Hs). eauto.
    + intros (? & s & [= <-] & Hs & ->). eauto.
  - split; [set_solver|]. by intros (? & ? & ? & _).
Qed.

Lemma elem_of_rebuilt items n d :
  d ∈ rebuilt C items n ↔
    ∃ pre k v post, items = pre ++ (k, v) :: post ∧
      live C (utcnow C (n + reads pre)) v = true ∧ d ∈ domains_of C v.
Proof.
  revert n. induction items as [|[k v] items IH]; intros n; simpl.
  - split; [set_solver|]. intros (pre & ? & ? & ? & Heq & _). by destruct pre.
  - rewrite elem_of_union, IH. split.
    + intros [Hd|(pre & k' & v' & post & -> & Hl & Hd)].
      * exists [], k, v, items. unfold reads. simpl. rewrite Nat.add_0_r.
        destruct (live C (utcnow C n) v); [done|set_solver].
      * exists ((k, v) :: pre), k', v', post. rewrite reads_cons.
        by rewrite Nat.add_assoc.
    + intros (pre & k' & v' & post & Heq & Hl & Hd).
      destruct pre as [|[k0 v0] pre]; simplify_eq/=.
      * left. unfold reads in Hl. simpl in Hl. rewrite Nat.add_0_r in Hl.
        by rewrite Hl.
      * right. exists pre, k', v', post. rewrite reads_cons in Hl.
        by rewrite Nat.add_assoc in Hl.
Qed.

(** ** C7 *)

(** C7.  For a list of entries that can be reloaded (every expiry can be
    compared with the clock, and the file of every entry that counts at the
    clock reading made for it holds a list of strings; nothing is asked of
    the file of an expired entry), reloading returns, and a domain is in the
    new whitelist exactly when some entry whose expiry is absent or strictly
    later than the clock reading made for it lists a string of which the
    domain is the lower case.  The whitelist before the reload plays no
    part. *)
Theorem load_whitelist_rebuilds whitelists (self : bolt) :
  entries_ready C whitelists (clock_reads self) = true →
  ∃ self', _load_whitelist C whitelists self = (Ok (), self') ∧
    ∀ d, d ∈ _whitelist self' ↔
      ∃ pre k v post ds s, whitelists = pre ++ (k, v) :: post ∧
        live C (utcnow C (clock_reads self + reads pre)) v = true ∧
        listed C v = Some ds ∧ s ∈ ds ∧ d = lower s.
Proof.
  intros Hall. unfold _load_whitelist.
  rewrite load_whitelist_loop_ready by done. eexists. split; [done|]. simpl.
  intros d. rewrite union_empty_l_L, elem_of_rebuilt.
  setoid_rewrite elem_of_domains_of. naive_solver.
Qed.

(** A list of entries that cannot be reloaded makes the reload fail. *)
Lemma load_whitelist_fails_otherwise whitelists (self : bolt) :
  entries_ready C whitelists (clock_reads self) = false →
  ∃ e self', _load_whitelist C whitelists self = (Raise e, self').
Proof. apply load_whitelist_loop_not_ready. Qed.
End whitelist.

(** The sample configuration and a retired list whose file is gone,
    reloaded on a bolt that still has the domain of the expired list. *)
Lemma load_whitelist_rebuilds_witness :
  ∃ self', _load_whitelist sample_bolt_env
             (sample_whitelists ++ [retired_entry]) stale_bolt
             = (Ok (), self') ∧
    ∀ d, d ∈ _whitelist self' ↔
      ∃ pre k v post ds s,
        sample_whitelists ++ [retired_entry] = pre ++ (k, v) :: post ∧
        live sample_bolt_env
          (utcnow sample_bolt_env (clock_reads stale_bolt + reads pre)) v
          = true ∧
        listed sample_bolt_env v = Some ds ∧ s ∈ ds ∧ d = lower s.
Proof.
  apply (load_whitelist_rebuilds sample_bolt_env
           (sample_whitelists ++ [retired_entry]) stale_bolt).
  vm_compute. reflexivity.
Defined.

(** The list that expired a second before the reload adds nothing: its
    domain, in the whitelist before, is not in the new one. *)
Example reload_drops_expired_domain :
  _load_whitelist sample_bolt_env sample_whitelists stale_bolt =
    (Ok (),
     Bolt {[ "example.com"; "python.org"; "partner.example.net" ]} 2).
Proof. vm_compute. reflexivity. Qed.

(** The retired list is not well formed, since its file is gone, and the
    reload goes through all the same: the file is never asked for. *)
Example reload_skips_file_of_expired_list :
  entry_ok sample_bolt_env retired_entry.2 = false ∧
  _load_whitelist sample_bolt_env (sample_whitelists ++ [retired_entry])
    stale_bolt =
    (Ok (),
     Bolt {[ "example.com"; "python.org"; "partner.example.net" ]} 3).
Proof. split; vm_compute; reflexivity. Qed.

(* ===================================================================== *)
(** ** Scratch storage *)
(* ===================================================================== *)

Lemma fresh_path_files w : files w !! fresh_path w = None.
Proof.
  apply not_elem_of_dom. unfold fresh_path.
  pose proof (is_fresh (dom (files w) ∪ dom (dirs w))). set_solver.
Qed.

Lemma fresh_path_dirs w : dirs w !! fresh_path w = None.
Proof.
  apply not_elem_of_dom. unfold fresh_path.
  pose proof (is_fresh (dom (files w) ∪ dom (dirs w))). set_solver.
Qed.

Lemma fresh_path_ne_file w p : is_Some (files w !! p) → fresh_path w ≠ p.
Proof. intros [x Hx] <-. by rewrite fresh_path_files in Hx. Qed.

(** Unfolding one step of a computation. *)
Lemma bind_Ok {A B} (m : M A) (k : A → M B) w a w' :
  m w = (Ok a, w') → (m ≫= k) w = k a w'.
Proof. unfold mbind, M_bind. by intros ->. Qed.

Lemma bind_Raise {A B} (m : M A) (k : A → M B) w e w' :
  m w = (Raise e, w') → (m ≫= k) w = (Raise e, w').
Proof. unfold mbind, M_bind. by intros ->. Qed.

(** *** [is_archive] and [check_archive] *)

Section archive_check.
Context (E : env).

(** When [mkstemp] fails, the exception that gets out is the
    [UnboundLocalError] of the handler. *)
Lemma is_archive_mkstemp_raises data write_sample w :
  mkstemp_raises E = true →
  SampleParser.is_archive E data write_sample w = (Raise UnboundLocalError, w).
Proof.
  intros H. unfold SampleParser.is_archive, mkstemp. by rewrite H.
Qed.

(** When the scratch file cannot be written, [TempIOError] is raised (and
    the empty file [mkstemp] made is left behind). *)
Lemma is_archive_write_raises data write_sample w :
  mkstemp_raises E = false → write_raises E = true →
  SampleParser.is_archive E data write_sample w =
    (Raise TempIOError, with_files (<[fresh_path w := ""]> (files w)) w).
Proof.
  intros H1 H2. unfold SampleParser.is_archive, mkstemp, write_file.
  by rewrite H1, H2.
Qed.

(** Otherwise the call returns, whatever the archive test does: the flag
    says whether the test went through, and with [write_sample] the sample
    stays on disk under the path that is returned. *)
Lemma is_archive_returns data w :
  mkstemp_raises E = false → write_raises E = false →
  SampleParser.is_archive E data true w =
    (Ok (FlagAndPath (test_archive E data) (fresh_path w)),
     with_files (<[fresh_path w := data]> (files w)) w).
Proof.
  intros H1 H2.
  unfold SampleParser.is_archive, mkstemp, write_file, patool_test.
  rewrite H1, H2. destruct w as [f d c a r l]; simpl.
  rewrite insert_insert_eq, lookup_insert_eq.
  by destruct (test_archive E data).
Qed.

Lemma is_archive_returns_flag data w :
  mkstemp_raises E = false → write_raises E = false →
  SampleParser.is_archive E data false w = (Ok (Flag (test_archive E data)), w).
Proof.
  intros H1 H2.
  unfold SampleParser.is_archive, mkstemp, write_file, patool_test, os_remove.
  rewrite H1, H2. destruct w as [f d c a r l] eqn:Hw; simpl.
  rewrite insert_insert_eq, lookup_insert_eq.
  assert (f !! fresh_path w = None) as Hf.
  { rewrite Hw. apply (fresh_path_files (World f d c a r l)). }
  rewrite Hw in Hf.
  destruct (test_archive E data); unfold mbind, M_bind; simpl;
    rewrite lookup_insert_eq; unfold with_files; simpl;
    by rewrite delete_insert_id.
Qed.

(** [check_archive] runs the same statements when the memo table has no
    entry for the data. *)
Lemma check_archive_wrapped_eq data write_sample w :
  check_archive_wrapped E data write_sample w =
  SampleParser.is_archive E data write_sample w.
Proof. reflexivity. Qed.

Lemma check_archive_miss data write_sample w :
  lru_get (data, write_sample) (archive_cache w) = None →
  check_archive E data write_sample w =
    match SampleParser.is_archive E data write_sample w with
    | (Ok v, w') =>
        (Ok v, with_archive_cache
                 (lru_insert (data, write_sample) v (archive_cache w')) w')
    | (Raise e, w') => (Raise e, w')
    end.
Proof. intros H. unfold check_archive. by rewrite H. Qed.

End archive_check.

(** *** [_create_sample_result] *)

Lemma getsize_file p d w :
  files w !! p = Some d → getsize p w = (Ok (Z.of_nat (String.length d)), w).
Proof. unfold getsize. by intros ->. Qed.

Lemma exists_file p d w : files w !! p = Some d → exists_ p w = (Ok true, w).
Proof.
  intros H. unfold exists_. rewrite bool_decide_eq_true_2; [done|].
  left. by rewrite H.
Qed.

Lemma exists_dir p d w : dirs w !! p = Some d → exists_ p w = (Ok true, w).
Proof.
  intros H. unfold exists_. rewrite bool_decide_eq_true_2; [done|].
  right. by rewrite H.
Qed.

Lemma os_remove_file p d w :
  files w !! p = Some d →
  os_remove p w = (Ok (), with_files (delete p (files w)) w).
Proof. unfold os_remove. by intros ->. Qed.

Lemma rmtree_dir p d w :
  dirs w !! p = Some d →
  rmtree p w = (Ok (), with_dirs (delete p (dirs w)) w).
Proof. unfold rmtree. by intros ->. Qed.

Lemma mkdtemp_ok E w :
  mkdtemp_raises E = false →
  mkdtemp E w =
    (Ok (fresh_path w), with_dirs (<[fresh_path w := []]> (dirs w)) w).
Proof. unfold mkdtemp. by intros ->. Qed.

Lemma patool_extract_ok E p d data old members w :
  files w !! p = Some data → dirs w !! d = Some old →
  extract_archive E data = Some members →
  patool_extract E p d w = (Ok (), with_dirs (<[d := members]> (dirs w)) w).
Proof. unfold patool_extract. by intros -> -> ->. Qed.

Lemma patool_extract_raises E p d data old w :
  files w !! p = Some data → dirs w !! d = Some old →
  extract_archive E data = None →
  patool_extract E p d w = (Raise PatoolError, w).
Proof. unfold patool_extract. by intros -> -> ->. Qed.

(** Fresh names depend on the files and directories only. *)
Lemma fresh_path_with_result r w : fresh_path (with_result r w) = fresh_path w.
Proof. reflexivity. Qed.

Section create_sample_result.
Context (E : env).

Lemma for_append_files (f : string * string → member) found w r fs :
  _result w = Some r → r !! "files" = Some (VFiles fs) →
  for_ found (λ i, SampleParser.append_file (f i)) w =
    (Ok (), with_result (Some (<["files" := VFiles (fs ++ (f <$> found))]> r)) w).
Proof.
  revert w r fs. induction found as [|x found IH]; intros w r fs Hr Hfs.
  - simpl. rewrite app_nil_r, insert_id by done.
    destruct w; simpl in *. by subst.
  - simpl.
    erewrite bind_Ok.
    2: { unfold SampleParser.append_file.
         erewrite bind_Ok; [|unfold SampleParser.get_result; by rewrite Hr].
         erewrite bind_Ok; [|unfold item; by rewrite Hfs].
         reflexivity. }
    erewrite IH; [| reflexivity | apply lookup_insert_eq].
    rewrite insert_insert_eq, <-app_assoc. by destruct w.
Qed.

Lemma create_sample_result_not_archive data fn mct te w :
  mkstemp_raises E = false → write_raises E = false →
  test_archive E data = false →
  SampleParser._create_sample_result E data fn mct te w =
    (Ok (), with_result (Some (basic_result E data fn mct te)) w).
Proof.
  intros H1 H2 Ht. unfold SampleParser._create_sample_result.
  erewrite bind_Ok by (by apply is_archive_returns).
  unfold basic_result. rewrite Ht.
  erewrite bind_Ok by (apply getsize_file, lookup_insert_eq).
  erewrite bind_Ok by reflexivity.
  erewrite bind_Ok by reflexivity.
  erewrite bind_Ok by (eapply exists_file, lookup_insert_eq).
  cbv beta iota.
  erewrite os_remove_file by apply lookup_insert_eq.
  simpl. rewrite delete_insert_id by apply fresh_path_files.
  by destruct w.
Qed.

Lemma create_sample_result_archive data fn mct te found w :
  mkstemp_raises E = false → write_raises E = false →
  mkdtemp_raises E = false →
  test_archive E data = true →
  extract_archive E data = Some found →
  SampleParser._create_sample_result E data fn mct te w =
    (Ok (),
     with_result
       (Some (<["files" := VFiles (SampleParser.archived_file E <$> found)]>
                (basic_result E data fn mct te))) w).
Proof.
  intros H1 H2 H3 Ht Hx. unfold SampleParser._create_sample_result.
  erewrite bind_Ok by (by apply is_archive_returns).
  unfold basic_result. rewrite Ht.
  erewrite bind_Ok by (apply getsize_file, lookup_insert_eq).
  erewrite bind_Ok by reflexivity.
  set (p := fresh_path w).
  set (w1 := with_files (<[p:=data]> (files w)) w).
  set (q := fresh_path w1).
  assert (q ≠ p) as Hqp.
  { apply fresh_path_ne_file. subst w1. simpl. by rewrite lookup_insert_eq. }
  erewrite bind_Ok.
  2: { erewrite bind_Ok by reflexivity.
       erewrite bind_Ok by (by apply mkdtemp_ok).
       erewrite bind_Ok.
       2: { eapply patool_extract_ok;
              [apply lookup_insert_eq|apply lookup_insert_eq|done]. }
       erewrite bind_Ok by reflexivity.
       erewrite bind_Ok.
       2: { simpl. rewrite lookup_insert_eq. simpl.
            eapply (for_append_files _ _ _ _ []);
              [reflexivity|apply lookup_insert_eq]. }
       erewrite bind_Ok by (eapply exists_dir, lookup_insert_eq).
       cbv beta iota. eapply rmtree_dir, lookup_insert_eq. }
  erewrite bind_Ok by (eapply exists_file, lookup_insert_eq).
  cbv beta iota.
  erewrite os_remove_file by apply lookup_insert_eq.
  simpl. rewrite delete_insert_id by apply fresh_path_files.
  rewrite !fresh_path_with_result. fold q.
  rewrite delete_insert_eq, delete_insert_id by apply (fresh_path_dirs w1).
  rewrite insert_insert_eq. by destruct w.
Qed.

(** When [extract_archive] raises, the error gets out at once: the sample
    and the directory made for its members are still there. *)
Lemma create_sample_result_extract_raises data fn mct te w :
  mkstemp_raises E = false → write_raises E = false →
  mkdtemp_raises E = false →
  test_archive E data = true →
  extract_archive E data = None →
  let file_ := fresh_path w in
  let w1 := with_files (<[file_ := data]> (files w)) w in
  let temp_dir := fresh_path w1 in
  SampleParser._create_sample_result E data fn mct te w =
    (Raise PatoolError,
     with_result (Some (<["files" := VFiles []]> (basic_result E data fn mct te)))
       (with_dirs (<[temp_dir := []]> (dirs w)) w1)).
Proof.
  intros H1 H2 H3 Ht Hx p w1 q. unfold SampleParser._create_sample_result.
  erewrite bind_Ok by (by apply is_archive_returns).
  unfold basic_result. rewrite Ht.
  erewrite bind_Ok by (apply getsize_file, lookup_insert_eq).
  erewrite bind_Ok by reflexivity.
  erewrite bind_Raise; [reflexivity|].
  erewrite bind_Ok by reflexivity.
  erewrite bind_Ok by (by apply mkdtemp_ok).
  erewrite bind_Raise; [reflexivity|].
  eapply patool_extract_raises;
    [apply lookup_insert_eq|apply lookup_insert_eq|done].
Qed.

End create_sample_result.

(** *** [_addmetadata] *)

Lemma bind_Ok_inv {A B} (m : M A) (k : A → M B) w b w' :
  (m ≫= k) w = (Ok b, w') →
  ∃ a w1, m w = (Ok a, w1) ∧ k a w1 = (Ok b, w').
Proof.
  unfold mbind, M_bind. destruct (m w) as [[a|e] w1]; [|done]. eauto.
Qed.

Section addmetadata.
Context (E : env).

Lemma item_world {V} (d : gmap string V) key r w w' :
  item d key w = (r, w') → w' = w.
Proof. unfold item. destruct (d !! key); by intros [= _ <-]. Qed.

Lemma decode_base64_world a r w w' :
  decode_base64 E a w = (r, w') → w' = w.
Proof.
  unfold decode_base64. destruct a as [| | |s]; try by intros [= _ <-].
  destruct (b64decode E s); by intros [= _ <-].
Qed.

Lemma value_decode_base64_world v r w w' :
  value_decode_base64 E v w = (r, w') → w' = w.
Proof.
  destruct v as [a|fs]; simpl; [apply decode_base64_world|by intros [= _ <-]].
Qed.

Lemma metadata_world i r w w' :
  Attachments._metadata E i w = (Ok r, w') → w' = w.
Proof.
  unfold Attachments._metadata.
  intros (enc & w1 & ->%item_world & H)%bind_Ok_inv.
  apply bind_Ok_inv in H as (pl & w2 & ->%item_world & H).
  apply bind_Ok_inv in H as (pl' & w3 & Hdec & H).
  assert (w3 = w) as ->.
  { destruct (value_eqb enc (VStr "base64")).
    - apply bind_Ok_inv in Hdec as (? & ? & ->%value_decode_base64_world & Hr).
      by injection Hr.
    - by injection Hdec. }
  apply bind_Ok_inv in H as (sz & w4 & Hlen & H).
  assert (w4 = w) as ->.
  { unfold Attachments.len in Hlen.
    destruct pl' as [[| | |?]|?]; by injection Hlen. }
  apply bind_Ok_inv in H as (fl & w5 & ->%item_world & H).
  apply bind_Ok_inv in H as (ext & w6 & Hext & H).
  assert (w6 = w) as ->.
  { unfold Attachments.extension_of in Hext.
    destruct fl as [[| | |?]|?]; by injection Hext. }
  by injection H.
Qed.

End addmetadata.

(** *** [parse_sample] *)

(** A loop over the members whose body turns the member made from [x] into
    [g x] and makes the calls [c x]. *)
Lemma for_members_map {X} (body : member → M member)
    (f g : X → member) (c : X → list call) xs w :
  (∀ x w, body (f x) w = (Ok (g x), with_calls (calls w ++ c x) w)) →
  SampleParser.for_members body (f <$> xs) w =
    ((Ok (), g <$> xs), with_calls (calls w ++ concat (c <$> xs)) w).
Proof.
  intros Hbody. revert w. induction xs as [|x xs IH]; intros w; csimpl.
  - rewrite app_nil_r. by destruct w.
  - rewrite Hbody, IH. simpl. rewrite <-app_assoc. by destruct w.
Qed.

Lemma for_files_map {X} (body : member → M member)
    (f g : X → member) (c : X → list call) xs r w :
  _result w = Some r → r !! "files" = Some (VFiles (f <$> xs)) →
  (∀ x w, body (f x) w = (Ok (g x), with_calls (calls w ++ c x) w)) →
  SampleParser.for_files body w =
    (Ok (),
     with_result (Some (<["files" := VFiles (g <$> xs)]> r))
       (with_calls (calls w ++ concat (c <$> xs)) w)).
Proof.
  intros Hr Hfs Hbody. unfold SampleParser.for_files.
  erewrite bind_Ok by (unfold SampleParser.get_result; by rewrite Hr).
  erewrite bind_Ok by (unfold item; by rewrite Hfs).
  cbv beta iota. rewrite (for_members_map body f g c) by done.
  simpl. by rewrite Hr.
Qed.

Lemma concat_singletons {X Y} (h : X → Y) (xs : list X) :
  concat ((λ x, [h x]) <$> xs) = h <$> xs.
Proof. induction xs as [|x xs IH]; csimpl; [done|]. by rewrite IH. Qed.

Section parse_sample.
Context (E : env) (self : sample_parser).
Hypothesis b64 : b64_roundtrip E.

Lemma get_result_Some r w :
  _result w = Some r → SampleParser.get_result w = (Ok r, w).
Proof. unfold SampleParser.get_result. by intros ->. Qed.

Lemma item_Some {V} (d : gmap string V) key v w :
  d !! key = Some v → item d key w = (Ok v, w).
Proof. unfold item. by intros ->. Qed.

Lemma decode_encoded s w :
  decode_base64 E (AStr (b64encode E s)) w = (Ok s, w).
Proof. unfold decode_base64. by rewrite b64. Qed.

Lemma add_content_type_ok data r (b : bool) found w :
  _result w = Some r →
  r !! "payload" = Some (VStr (b64encode E data)) →
  r !! "is_archive" = Some (VAtom (ABool b)) →
  (if b then r !! "files" = Some (VFiles (SampleParser.archived_file E <$> found))
   else found = []) →
  SampleParser._add_content_type E w =
    (Ok (),
     with_result
       (Some ((if b then <["files" := VFiles (member_sniffed E <$> found)]>
               else id)
                (<["Content-Type" := VStr (from_buffer E data)]> r)))
       (with_calls (calls w ++ Sniffed data :: (Sniffed ∘ snd <$> found)) w)).
Proof.
  intros Hr Hp Ha Hf. unfold SampleParser._add_content_type.
  erewrite bind_Ok by (by apply get_result_Some).
  erewrite bind_Ok by (by apply item_Some).
  erewrite bind_Ok by apply decode_encoded.
  erewrite bind_Ok by reflexivity.
  erewrite bind_Ok.
  2: { unfold SampleParser.update_result.
       erewrite bind_Ok by (by apply get_result_Some). reflexivity. }
  erewrite bind_Ok by (by apply get_result_Some).
  erewrite bind_Ok by (apply item_Some; by rewrite lookup_insert_ne).
  destruct b; simpl.
  - erewrite (for_files_map _ (SampleParser.archived_file E)
                (member_sniffed E) (λ x, [Sniffed x.2]));
      [| reflexivity | by rewrite lookup_insert_ne |].
    + simpl. rewrite concat_singletons, <-app_assoc. by destruct w.
    + intros x w'.
      erewrite bind_Ok by (by apply item_Some).
      erewrite bind_Ok by apply decode_encoded.
      erewrite bind_Ok by reflexivity. reflexivity.
  - subst found. simpl. by destruct w.
Qed.

Lemma in_set_str ct s w :
  SampleParser.in_set (VStr ct) s w = (Ok (bool_decide (ct ∈ s)), w).
Proof. reflexivity. Qed.

(** The root is dropped when its content type is in the blacklist. *)
Lemma remove_content_type_root ct r w :
  blacklist_content_types self ≠ ∅ →
  _result w = Some r → r !! "Content-Type" = Some (VStr ct) →
  ct ∈ blacklist_content_types self →
  SampleParser._remove_content_type self w = (Ok (), with_result None w).
Proof.
  intros Hne Hr Hct Hin. unfold SampleParser._remove_content_type.
  rewrite bool_decide_eq_true_2 by done.
  erewrite bind_Ok by (by apply get_result_Some).
  erewrite bind_Ok by (by apply item_Some).
  erewrite bind_Ok by apply in_set_str.
  by rewrite bool_decide_eq_true_2.
Qed.

Lemma allowed_files_sniffed found :
  SampleParser.allowed_files self (member_sniffed E <$> found) =
    Ok (member_sniffed E <$> List.filter (file_allowed E self) found).
Proof.
  induction found as [|x found IH]; csimpl; [done|]. rewrite IH.
  unfold SampleParser.member_allowed, member_sniffed at 1, file_allowed.
  rewrite lookup_insert_eq.
  by destruct (bool_decide (from_buffer E x.2 ∈ blacklist_content_types self)).
Qed.

(** Otherwise the root stays, and an archive loses the members whose
    content type is in the blacklist. *)
Lemma remove_content_type_members ct r (b : bool) found w :
  blacklist_content_types self ≠ ∅ →
  _result w = Some r → r !! "Content-Type" = Some (VStr ct) →
  ct ∉ blacklist_content_types self →
  r !! "is_archive" = Some (VAtom (ABool b)) →
  (if b then r !! "files" = Some (VFiles (member_sniffed E <$> found))
   else True) →
  SampleParser._remove_content_type self w =
    (Ok (),
     with_result
       (Some ((if b
               then <["files" := VFiles (member_sniffed E <$>
                                 List.filter (file_allowed E self) found)]>
               else id) r)) w).
Proof.
  intros Hne Hr Hct Hin Ha Hf. unfold SampleParser._remove_content_type.
  rewrite bool_decide_eq_true_2 by done.
  erewrite bind_Ok by (by apply get_result_Some).
  erewrite bind_Ok by (by apply item_Some).
  erewrite bind_Ok by apply in_set_str.
  rewrite bool_decide_eq_false_2 by done.
  erewrite bind_Ok by (by apply item_Some).
  destruct b; simpl.
  - erewrite bind_Ok by (by apply item_Some).
    cbv beta iota. rewrite allowed_files_sniffed.
    unfold SampleParser.update_result.
    erewrite bind_Ok by (by apply get_result_Some). reflexivity.
  - by destruct w; simpl in *; subst.
Qed.

Lemma add_fingerprints_ok data r (b : bool) xs w :
  _result w = Some r →
  r !! "payload" = Some (VStr (b64encode E data)) →
  r !! "is_archive" = Some (VAtom (ABool b)) →
  (if b then r !! "files" = Some (VFiles (member_sniffed E <$> xs)) else True) →
  SampleParser._add_fingerprints E w =
    (Ok (),
     with_result
       (Some ((if b then <["files" := VFiles (member_hashed E <$> xs)]>
               else id) (hashed E data r)))
       (with_calls (calls w ++ Hashed data :: (if b then Hashed ∘ snd <$> xs else [])) w)).
Proof.
  intros Hr Hp Ha Hf. unfold SampleParser._add_fingerprints.
  erewrite bind_Ok by (by apply get_result_Some).
  erewrite bind_Ok by (by apply item_Some).
  erewrite bind_Ok by apply decode_encoded.
  erewrite bind_Ok by reflexivity. cbv beta iota.
  erewrite bind_Ok.
  2: { unfold SampleParser.update_result.
       erewrite bind_Ok by (by apply get_result_Some). reflexivity. }
  erewrite bind_Ok by (by apply get_result_Some).
  erewrite bind_Ok by (apply item_Some; by rewrite !lookup_insert_ne).
  destruct b; simpl.
  - erewrite (for_files_map _ (member_sniffed E)
                (member_hashed E) (λ x, [Hashed x.2]));
      [| reflexivity | by rewrite !lookup_insert_ne |].
    + simpl. rewrite concat_singletons, <-app_assoc. by destruct w.
    + intros x w'.
      erewrite bind_Ok.
      2: { apply item_Some. unfold member_sniffed, SampleParser.archived_file.
           by simplify_map_eq. }
      erewrite bind_Ok by apply decode_encoded.
      erewrite bind_Ok by reflexivity. reflexivity.
  - by destruct w.
Qed.

Lemma add_tika_ok r ct p w :
  _result w = Some r →
  r !! "Content-Type" = Some (VStr ct) → r !! "payload" = Some (VStr p) →
  ∃ w' r', SampleParser._add_tika_meta_data E self w = (Ok (), w') ∧
    _result w' = Some r' ∧ ∀ k, k ≠ "tika" → r' !! k = r !! k.
Proof.
  intros Hr Hct Hp. unfold SampleParser._add_tika_meta_data.
  erewrite bind_Ok by (by apply get_result_Some).
  erewrite bind_Ok by (by apply item_Some).
  erewrite bind_Ok by apply in_set_str.
  destruct (bool_decide (ct ∈ tika_content_types self)).
  - erewrite bind_Ok by (by apply item_Some). cbv beta iota.
    erewrite bind_Ok by reflexivity.
    unfold SampleParser.update_result.
    erewrite bind_Ok by (by apply get_result_Some).
    eexists _, _. split; [reflexivity|]. split; [reflexivity|].
    intros k Hk. by rewrite lookup_insert_ne.
  - eexists _, _. split; [reflexivity|]. eauto.
Qed.

Lemma add_virustotal_ok key r h (b : bool) xs w :
  virustotal_api_key self = Some key → key ≠ "" →
  _result w = Some r →
  r !! "sha1" = Some (VStr h) →
  r !! "is_archive" = Some (VAtom (ABool b)) →
  (if b then r !! "files" = Some (VFiles (member_hashed E <$> xs)) else True) →
  ∃ w' r', SampleParser._add_virustotal_output E self w = (Ok (), w') ∧
    _result w' = Some r' ∧
    (∀ k, k ≠ "virustotal" → k ≠ "files" → r' !! k = r !! k) ∧
    r' !! "files" = if b then Some (VFiles (member_reported E <$> xs))
                    else r !! "files".
Proof.
  intros Hkey Hne Hr Hs Ha Hf. unfold SampleParser._add_virustotal_output.
  rewrite Hkey. destruct key as [|c key]; [done|].
  erewrite bind_Ok by (by apply get_result_Some).
  erewrite bind_Ok by (by apply item_Some). cbv beta iota.
  erewrite bind_Ok by reflexivity.
  set (report := get_file_report E h).
  set (r1 := if atom_truthy report then <["virustotal" := VAtom report]> r
             else r).
  set (w1 := with_result (Some r1) (with_calls (calls w ++ [VtReport h]) w)).
  assert (∀ k, k ≠ "virustotal" → r1 !! k = r !! k) as Hr1.
  { intros k Hk. subst r1. destruct (atom_truthy report); [|done].
    by rewrite lookup_insert_ne. }
  erewrite (bind_Ok _ _ _ () w1).
  2: { subst w1 r1. destruct (atom_truthy report).
       - unfold SampleParser.update_result.
         erewrite bind_Ok by (by apply get_result_Some). reflexivity.
       - destruct w; simpl in *. by subst. }
  erewrite bind_Ok by (by apply get_result_Some).
  erewrite bind_Ok by (apply item_Some; by rewrite Hr1).
  destruct b; simpl.
  - erewrite (for_files_map _ (member_hashed E) (member_reported E)
                (λ x, [VtReport (hashlib_sha1 E x.2)]));
      [| reflexivity | by rewrite Hr1 |].
    + eexists _, _. split; [reflexivity|]. split; [reflexivity|].
      split; [|by rewrite lookup_insert_eq].
      intros k Hk1 Hk2. rewrite lookup_insert_ne by done. by apply Hr1.
    + intros x w'.
      erewrite bind_Ok.
      2: { apply item_Some. unfold member_hashed. by simplify_map_eq. }
      erewrite bind_Ok by reflexivity.
      unfold member_reported.
      by destruct (atom_truthy (get_file_report E (hashlib_sha1 E x.2))).
  - eexists _, _. split; [reflexivity|]. split; [reflexivity|].
    split; [by intros; apply Hr1|by apply Hr1].
Qed.

Lemma names_and_types_hashed xs :
  names_and_types (member_hashed E <$> xs) =
    (λ x, (Some (AStr x.1), Some (AStr (from_buffer E x.2)))) <$> xs.
Proof.
  unfold names_and_types. rewrite <-list_fmap_compose.
  apply list_fmap_ext. intros _ x _. simpl.
  unfold member_hashed, member_sniffed, SampleParser.archived_file.
  by simplify_map_eq.
Qed.

Lemma names_and_types_reported xs :
  names_and_types (member_reported E <$> xs) =
    (λ x, (Some (AStr x.1), Some (AStr (from_buffer E x.2)))) <$> xs.
Proof.
  unfold names_and_types. rewrite <-list_fmap_compose.
  apply list_fmap_ext. intros _ x _. simpl.
  unfold member_reported, member_hashed, member_sniffed,
    SampleParser.archived_file.
  destruct (atom_truthy _); by simplify_map_eq.
Qed.

Lemma create_sample_result_ok data fn mct te found w :
  mkstemp_raises E = false → write_raises E = false →
  (if test_archive E data
   then mkdtemp_raises E = false ∧ extract_archive E data = Some found
   else found = []) →
  SampleParser._create_sample_result E data fn mct te w =
    (Ok (),
     with_result
       (Some ((if test_archive E data
               then <["files" := VFiles (SampleParser.archived_file E <$> found)]>
               else id) (basic_result E data fn mct te))) w).
Proof.
  intros H1 H2 H3. destruct (test_archive E data) eqn:Ht.
  - destruct H3 as [H3 H4]. by apply create_sample_result_archive.
  - by apply create_sample_result_not_archive.
Qed.

Lemma result_truthy_Some r k v w :
  _result w = Some r → r !! k = Some v →
  SampleParser.result_truthy w = (Ok true, w).
Proof.
  intros Hr Hk. unfold SampleParser.result_truthy. rewrite Hr.
  rewrite bool_decide_eq_false_2; [done|].
  intros ->. by rewrite lookup_empty in Hk.
Qed.

(** ** C5 *)

(** C5.  [parse_sample] with a blacklist that is not empty, on a sample for
    which the scratch area and the archive tool work.  If the content type
    sniffed from the sample is in the blacklist, the call returns with
    [_result = None], and the only collaborator calls it has made are the
    content-type sniffs: nothing was hashed, nothing went to Tika or
    VirusTotal (not even the check of the API key).  If it is not, the call
    ends with a record for the root in [_result], and the member list of an
    archive holds, in order, exactly the unpacked files whose own sniffed
    content type is not in the blacklist; the call returns normally unless
    VirusTotal is switched on without an API key. *)
Theorem parse_sample_blacklist data fn mct te found w :
  mkstemp_raises E = false → write_raises E = false →
  (if test_archive E data
   then mkdtemp_raises E = false ∧ extract_archive E data = Some found
   else found = []) →
  blacklist_content_types self ≠ ∅ →
  (from_buffer E data ∈ blacklist_content_types self →
     SampleParser.parse_sample E self data fn mct te w =
       (Ok (),
        with_result None
          (with_calls (calls w ++ Sniffed data :: (Sniffed ∘ snd <$> found))
             w))) ∧
  (from_buffer E data ∉ blacklist_content_types self →
     ∃ out w' r,
       SampleParser.parse_sample E self data fn mct te w = (out, w') ∧
       (virustotal_ready self → out = Ok ()) ∧
       _result w' = Some r ∧
       r !! "filename" = Some (VAtom fn) ∧
       r !! "Content-Type" = Some (VStr (from_buffer E data)) ∧
       match r !! "files" with
       | Some (VFiles fs) =>
           test_archive E data = true ∧
           names_and_types fs =
             (λ x, (Some (AStr x.1), Some (AStr (from_buffer E x.2)))) <$>
               List.filter (file_allowed E self) found
       | Some (VAtom _) => False
       | None => test_archive E data = false
       end).
Proof.
  intros H1 H2 H3 Hne.
  pose proof (create_sample_result_ok data fn mct te found w H1 H2 H3) as Hc.
  set (b := test_archive E data) in *.
  set (r0 := (if b then <["files" := VFiles (SampleParser.archived_file E <$> found)]>
              else id) (basic_result E data fn mct te)) in *.
  assert (∀ k, k ≠ "files" → r0 !! k = basic_result E data fn mct te !! k)
    as Hk0.
  { intros k Hk. subst r0. destruct b; simpl; [|done].
    by rewrite lookup_insert_ne. }
  assert (r0 !! "payload" = Some (VStr (b64encode E data))) as Hp0
    by (by rewrite Hk0).
  assert (r0 !! "is_archive" = Some (VAtom (ABool b))) as Ha0
    by (by rewrite Hk0).
  assert (r0 !! "filename" = Some (VAtom fn)) as Hn0
    by (by rewrite Hk0).
  assert (if b then r0 !! "files" =
                      Some (VFiles (SampleParser.archived_file E <$> found))
          else found = []) as Hf0.
  { subst r0. destruct b eqn:Hb; [by simplify_map_eq|done]. }
  assert (b = false → r0 !! "files" = None) as Hf0'.
  { intros Hb. subst r0. rewrite Hb. done. }
  set (w1 := with_result (Some r0) w) in *.
  pose proof (add_content_type_ok data r0 b found w1 eq_refl Hp0 Ha0 Hf0)
    as Hs.
  set (r1 := (if b then <["files" := VFiles (member_sniffed E <$> found)]>
              else id) (<["Content-Type" := VStr (from_buffer E data)]> r0))
    in *.
  set (w2 := with_result (Some r1)
               (with_calls (calls w1 ++ Sniffed data :: (Sniffed ∘ snd <$> found))
                  w1)) in *.
  assert (r1 !! "Content-Type" = Some (VStr (from_buffer E data))) as Hct1.
  { subst r1. destruct b; simpl;
      by rewrite ?(lookup_insert_ne _ "files"), lookup_insert_eq by done. }
  assert (∀ k, k ≠ "files" → k ≠ "Content-Type" → r1 !! k = r0 !! k) as Hk1.
  { intros k ??. subst r1. destruct b; simpl;
      by rewrite !lookup_insert_ne by done. }
  assert (if b then r1 !! "files" = Some (VFiles (member_sniffed E <$> found))
          else True) as Hf1.
  { subst r1. destruct b; by simplify_map_eq. }
  assert (b = false → r1 !! "files" = None) as Hf1'.
  { intros Hb. subst r1. rewrite Hb. simpl. rewrite lookup_insert_ne by done.
    by apply Hf0'. }
  unfold SampleParser.parse_sample.
  erewrite bind_Ok by exact Hc. erewrite bind_Ok by exact Hs.
  split.
  - intros Hin.
    erewrite bind_Ok
      by (by eapply (remove_content_type_root _ r1 w2 Hne eq_refl Hct1)).
    erewrite bind_Ok by reflexivity. by destruct w.
  - intros Hnin.
    set (kept := List.filter (file_allowed E self) found).
    set (r2 := (if b then <["files" := VFiles (member_sniffed E <$> kept)]>
                else id) r1).
    erewrite bind_Ok.
    2: { eapply (remove_content_type_members _ r1 b found w2 Hne eq_refl Hct1
                   Hnin); [by rewrite Hk1|exact Hf1]. }
    fold kept. fold r2.
    assert (∀ k, k ≠ "files" → r2 !! k = r1 !! k) as Hk2.
    { intros k ?. subst r2. destruct b; by simplify_map_eq. }
    assert (if b then r2 !! "files" = Some (VFiles (member_sniffed E <$> kept))
            else True) as Hf2.
    { subst r2. destruct b; by simplify_map_eq. }
    assert (b = false → r2 !! "files" = None) as Hf2'.
    { intros Hb. subst r2. rewrite Hb. by apply Hf1'. }
    set (w3 := with_result (Some r2) w2).
    erewrite bind_Ok.
    2: { eapply (result_truthy_Some r2 "Content-Type"); [reflexivity|].
         by rewrite Hk2. }
    cbv beta iota.
    erewrite bind_Ok.
    2: { eapply (add_fingerprints_ok data r2 b kept w3 eq_refl); [| |exact Hf2].
         - by rewrite Hk2, Hk1.
         - by rewrite Hk2, Hk1. }
    set (r3 := (if b then <["files" := VFiles (member_hashed E <$> kept)]>
                else id) (hashed E data r2)).
    set (w4 := with_result (Some r3) _).
    assert (∀ k, k ≠ "files" → hash_key k = false → r3 !! k = r2 !! k)
      as Hk3.
    { intros k Hk Hh. subst r3. unfold hashed, hash_key in *.
      repeat (apply orb_false_iff in Hh as [Hh ?%String.eqb_neq]).
      apply String.eqb_neq in Hh.
      destruct b; simpl; by rewrite !lookup_insert_ne by congruence. }
    assert (r3 !! "filename" = Some (VAtom fn)) as Hn3
      by (by rewrite Hk3, Hk2, Hk1).
    assert (r3 !! "Content-Type" = Some (VStr (from_buffer E data))) as Hct3
      by (by rewrite Hk3, Hk2).
    assert (r3 !! "payload" = Some (VStr (b64encode E data))) as Hp3
      by (by rewrite Hk3, Hk2, Hk1).
    assert (r3 !! "is_archive" = Some (VAtom (ABool b))) as Ha3
      by (by rewrite Hk3, Hk2, Hk1).
    assert (r3 !! "sha1" = Some (VStr (hashlib_sha1 E data))) as Hs3.
    { subst r3. unfold hashed.
      destruct b; simpl; by rewrite !lookup_insert_ne, lookup_insert_eq by done. }
    assert (r3 !! "files" = if b then Some (VFiles (member_hashed E <$> kept))
                            else None) as Hf3.
    { subst r3. destruct b eqn:Hb; [by rewrite lookup_insert_eq|].
      unfold hashed. simpl. rewrite !lookup_insert_ne by done.
      by apply Hf2'. }
    (* Tika *)
    assert (∃ w5 r5,
      (if tika_enabled self then SampleParser._add_tika_meta_data E self
       else mret ()) w4 = (Ok (), w5) ∧
      _result w5 = Some r5 ∧ ∀ k, k ≠ "tika" → r5 !! k = r3 !! k)
      as (w5 & r5 & Ht & Hr5 & Hk5).
    { destruct (tika_enabled self).
      - by eapply add_tika_ok.
      - eexists _, _. split; [reflexivity|]. split; [reflexivity|done]. }
    erewrite bind_Ok by exact Ht.
    (* VirusTotal *)
    assert (∃ out w6 r6,
      (if virustotal_enabled self
       then SampleParser._add_virustotal_output E self
       else mret ()) w5 = (out, w6) ∧
      (virustotal_ready self → out = Ok ()) ∧
      _result w6 = Some r6 ∧
      (∀ k, k ≠ "virustotal" → k ≠ "files" → r6 !! k = r5 !! k) ∧
      match r6 !! "files" with
      | Some (VFiles fs) =>
          b = true ∧
          names_and_types fs =
            (λ x, (Some (AStr x.1), Some (AStr (from_buffer E x.2)))) <$> kept
      | Some (VAtom _) => False
      | None => b = false
      end) as (out & w6 & r6 & Hv & Hout & Hr6 & Hk6 & Hf6).
    { assert (match r5 !! "files" with
              | Some (VFiles fs) =>
                  b = true ∧
                  names_and_types fs =
                    (λ x, (Some (AStr x.1),
                           Some (AStr (from_buffer E x.2)))) <$> kept
              | Some (VAtom _) => False
              | None => b = false
              end) as Hf5.
      { rewrite Hk5, Hf3 by done. destruct b; [|done].
        split; [done|]. apply names_and_types_hashed. }
      destruct (virustotal_enabled self) eqn:Hen.
      2: { by exists (Ok ()), w5, r5. }
      destruct (virustotal_api_key self) as [key|] eqn:Hkey.
      2: { exists (Raise VirusTotalApiKeyInvalid), w5, r5.
           unfold SampleParser._add_virustotal_output. rewrite Hkey.
           split; [done|]. split; [|done].
           intros Hvt. destruct (Hvt Hen) as (? & ? & ?). congruence. }
      destruct (decide (key = "")) as [->|Hkne].
      { exists (Raise VirusTotalApiKeyInvalid), w5, r5.
        unfold SampleParser._add_virustotal_output. rewrite Hkey.
        split; [done|]. split; [|done].
        intros Hvt. destruct (Hvt Hen) as (? & ? & ?). congruence. }
      destruct (add_virustotal_ok key r5 (hashlib_sha1 E data) b kept w5
                  Hkey Hkne Hr5) as (w6 & r6 & Hv & Hr6 & Hk6 & Hf6).
      + by rewrite Hk5.
      + by rewrite Hk5.
      + rewrite Hk5, Hf3 by done. by destruct b.
      + exists (Ok ()), w6, r6. split; [done|]. split; [done|].
        split; [done|]. split; [done|].
        rewrite Hf6. destruct b.
        * split; [done|]. apply names_and_types_reported.
        * by rewrite Hk5, Hf3. }
    exists out, w6, r6. split; [exact Hv|]. split; [done|]. split; [done|].
    split; [by rewrite Hk6, Hk5|]. split; [by rewrite Hk6, Hk5|]. done.
Qed.

End parse_sample.

(** ** C8 *)

(** C8 (the code departs from it).  With no room for a scratch file,
    [mkstemp] raises, and what gets out of [is_archive] and of
    [check_archive] is the [UnboundLocalError] of the handler, not
    [TempIOError].  (A failed write does raise [TempIOError], and a failed
    archive test only clears the flag: [is_archive_write_raises],
    [is_archive_returns].) *)
Theorem archive_check_without_scratch_file data write_sample :
  SampleParser.is_archive no_scratch_env data write_sample empty_world
    = (Raise UnboundLocalError, empty_world) ∧
  check_archive no_scratch_env data write_sample empty_world
    = (Raise UnboundLocalError, empty_world).
Proof.
  split.
  - by apply is_archive_mkstemp_raises.
  - rewrite check_archive_miss by done.
    by rewrite is_archive_mkstemp_raises.
Qed.

(** A sample that fails the archive test: no error, [is_archive = False]. *)
Example is_archive_of_plain_text :
  (SampleParser.is_archive sample_env "plain text" false empty_world).1
    = Ok (Flag false).
Proof. vm_compute. reflexivity. Qed.

Lemma sample_env_roundtrip : b64_roundtrip sample_env.
Proof. intros s. reflexivity. Qed.

(** A page, whose content type is blacklisted, and an archive with a page
    and a note inside. *)
Lemma parse_sample_blacklist_witness :
  SampleParser.parse_sample sample_env html_blacklist "<html><body>"
    (AStr "page.html") (AStr "text/html") ANone empty_world
  = (Ok (),
     with_result None
       (with_calls (calls empty_world ++
                    Sniffed "<html><body>" ::
                      (Sniffed ∘ snd <$> ([] : list (string * string))))
          empty_world)) ∧
  ∃ out w' r,
    SampleParser.parse_sample sample_env html_blacklist_plain "PK-good"
      (AStr "docs.zip") (AStr "application/zip") (AStr "base64") empty_world
    = (out, w') ∧
    (virustotal_ready html_blacklist_plain → out = Ok ()) ∧
    _result w' = Some r ∧
    r !! "filename" = Some (VStr "docs.zip") ∧
    r !! "Content-Type" = Some (VStr (from_buffer sample_env "PK-good")) ∧
    match r !! "files" with
    | Some (VFiles fs) =>
        test_archive sample_env "PK-good" = true ∧
        names_and_types fs =
          (λ x, (Some (AStr x.1), Some (AStr (from_buffer sample_env x.2)))) <$>
            List.filter (file_allowed sample_env html_blacklist_plain)
              [("index.html", "<html></html>"); ("notes.txt", "hello")]
    | Some (VAtom _) => False
    | None => test_archive sample_env "PK-good" = false
    end.
Proof.
  split.
  - apply (proj1 (parse_sample_blacklist sample_env html_blacklist
                    sample_env_roundtrip "<html><body>" _ _ _ [] empty_world
                    eq_refl eq_refl eq_refl
                    (non_empty_singleton_L (C:=gset string) "text/html"))).
    vm_compute. reflexivity.
  - apply (proj2 (parse_sample_blacklist sample_env html_blacklist_plain
                    sample_env_roundtrip "PK-good" _ _ _
                    [("index.html", "<html></html>"); ("notes.txt", "hello")]
                    empty_world eq_refl eq_refl (conj eq_refl eq_refl)
                    (non_empty_singleton_L (C:=gset string) "text/html"))).
    intros H. vm_compute in H. discriminate.
Defined.

(** What the parser keeps of the sample archive: the note, not the page. *)
Example parse_sample_prunes_html_member :
  (λ r : record, r !! "files") <$>
    _result (SampleParser.parse_sample sample_env html_blacklist_plain
               "PK-good" (AStr "docs.zip") (AStr "application/zip")
               (AStr "base64") empty_world).2
  = Some (Some (VFiles
      [ {[ "filename" := AStr "notes.txt"; "payload" := AStr "=hello";
           "size" := AInt 5; "Content-Type" := AStr "text/plain";
           "md5" := AStr "md5 of hello"; "sha1" := AStr "sha1 of hello";
           "sha256" := AStr "sha256 of hello";
           "sha512" := AStr "sha512 of hello";
           "ssdeep" := AStr "ssdeep of hello" ]} ])).
Proof. vm_compute. reflexivity. Qed.

(* ===================================================================== *)
(** ** More on [pophash] *)
(* ===================================================================== *)

Lemma hash_matches_spec key h (i : record) :
  Attachments.hash_matches key h i = bool_decide (i !! key = Some (VStr h)).
Proof.
  unfold Attachments.hash_matches. destruct (i !! key) as [v|] eqn:Hv.
  - destruct (value_eqb v (VStr h)) eqn:Hm.
    + apply value_eqb_str_r in Hm. subst. by rewrite bool_decide_eq_true_2.
    + rewrite bool_decide_eq_false_2; [done|]. intros [= ->].
      by rewrite value_eqb_refl in Hm.
  - by rewrite bool_decide_eq_false_2.
Qed.

(** X1.  For a hash of 32, 40, 64 or 128 characters, [pophash] returns
    normally, and the collection is then the old one, in the old order,
    without the records that carry that hash under ["md5"], ["sha1"],
    ["sha256"] or ["sha512"] respectively: every such record goes, not only
    the first, and no other record does. *)
Theorem pophash_removes_records_with_hash h key self :
  (String.length h = 32 ∧ key = "md5") ∨
  (String.length h = 40 ∧ key = "sha1") ∨
  (String.length h = 64 ∧ key = "sha256") ∨
  (String.length h = 128 ∧ key = "sha512") →
  Attachments.pophash h self =
    (Ok (),
     List.filter (λ i, negb (bool_decide (i !! key = Some (VStr h)))) self).
Proof.
  intros Hkey%len_hashes_Some. rewrite (pophash_valid _ _ _ Hkey).
  f_equal. apply List.filter_ext. intros i. by rewrite hash_matches_spec.
Qed.

(** The sample collection without the record of the second hash. *)
Lemma pophash_removes_records_with_hash_witness :
  Attachments.pophash sha_B three_records =
    (Ok (),
     List.filter (λ i, negb (bool_decide (i !! "sha1" = Some (VStr sha_B))))
       three_records).
Proof.
  apply (pophash_removes_records_with_hash sha_B "sha1").
  right. left. split; vm_compute; reflexivity.
Defined.

(* ===================================================================== *)
(** ** More on [popcontenttype] *)
(* ===================================================================== *)

(** A call that returns has gone through the loop body for every record. *)
Lemma popcontenttype_Ok_inv ct self self' :
  Attachments.popcontenttype ct self = (Ok (), self') →
  Forall (λ i, passes (lower ct) i = true) self ∧
  self' = omap (survive (lower ct)) self.
Proof.
  intros H.
  destruct (passes_split (lower ct) self)
    as [Hall|(pre & i & post & -> & Hpre & Hi)].
  - rewrite popcontenttype_passes in H by done. split; [done|congruence].
  - destruct (popcontenttype_fails ct pre i post Hpre Hi) as (e & _ & He).
    congruence.
Qed.

Lemma inner_loop_sound ct js acc :
  forallb member_sound js = true →
  Attachments.inner_loop ct js acc =
    Ok (acc ++ List.filter (member_matches ct) js).
Proof.
  revert acc. induction js as [|j js IH]; intros acc; simpl.
  - by rewrite app_nil_r.
  - intros [Hj Hjs]%andb_true_iff. unfold member_sound in Hj.
    unfold member_matches at 1.
    destruct (j !! "Content-Type") as [[| | |s]|]; simpl; try done.
    destruct (String.eqb (lower s) ct); rewrite IH by done; [|done].
    by rewrite <-app_assoc.
Qed.

Lemma inner_loop_Ok_sound ct js acc r :
  Attachments.inner_loop ct js acc = Ok r → forallb member_sound js = true.
Proof.
  revert acc. induction js as [|j js IH]; intros acc; simpl; [done|].
  unfold member_sound at 1.
  destruct (j !! "Content-Type") as [[| | |s]|]; simpl; try done.
  destruct (String.eqb (lower s) ct); apply IH.
Qed.

(** On a sound record the loop body goes through, whatever the target. *)
Lemma sound_passes ct i : record_sound i = true → passes ct i = true.
Proof.
  unfold record_sound, passes, members_sound.
  destruct (Attachments.is_filtered i); simpl; [done|].
  unfold Attachments.examine.
  destruct (i !! "Content-Type") as [[[| | |s]|fs]|]; simpl; try done.
  destruct (String.eqb (lower s) ct); [done|].
  destruct (i !! "files") as [[a|js]|]; [| |done].
  - by intros ->.
  - intros Hjs. rewrite inner_loop_sound by done. simpl.
    by rewrite (remove_each_filter member_eqb (member_matches ct))
      by auto using member_eqb_refl, member_matches_eqb.
Qed.

Lemma forallb_filter {A} (P Q : A → bool) l :
  forallb P l = true → forallb P (List.filter Q l) = true.
Proof.
  induction l as [|x l IH]; simpl; [done|].
  intros [Hx Hl]%andb_true_iff. destruct (Q x); simpl; [|by apply IH].
  by rewrite Hx, IH.
Qed.

Lemma forallb_filter_self {A} (P : A → bool) l :
  forallb P (List.filter P l) = true.
Proof.
  induction l as [|x l IH]; simpl; [done|].
  destruct (P x) eqn:Hx; simpl; [|done]. by rewrite Hx.
Qed.

(** What the loop body has gone through and left in the collection is
    sound. *)
Lemma passes_survive_sound ct i i' :
  passes ct i = true → survive ct i = Some i' → record_sound i' = true.
Proof.
  unfold passes, survive, record_sound.
  destruct (Attachments.is_filtered i) eqn:Hf; simpl.
  { intros _ [= <-]. by rewrite Hf. }
  destruct (Attachments.examine ct i) as [v|] eqn:Hex; [|done]. intros _.
  destruct (record_matches ct i) eqn:Hm; [done|]. intros [= <-].
  rewrite prune_is_filtered, Hf. simpl.
  rewrite prune_lookup_ne by done.
  unfold Attachments.examine in Hex. unfold record_matches in Hm.
  destruct (i !! "Content-Type") as [[[| | |s]|fs]|]; simpl in *; try done.
  rewrite Hm in Hex. unfold members_sound, prune.
  destruct (i !! "files") as [[a|js]|] eqn:Hfiles; rewrite ?Hfiles.
  - by destruct (atom_eqb a (AStr "")).
  - rewrite lookup_insert_eq.
    destruct (Attachments.inner_loop ct js []) as [rm|e] eqn:Hin.
    + apply forallb_filter. by eapply inner_loop_Ok_sound.
    + by destruct e.
  - done.
Qed.

Lemma Forall_survive_sound ct self :
  Forall (λ i, passes ct i = true) self →
  Forall (λ i, record_sound i = true) (omap (survive ct) self).
Proof.
  induction 1 as [|i self Hi _ IH]; csimpl; [constructor|].
  destruct (survive ct i) as [i'|] eqn:Hs; [|done].
  constructor; [by eapply passes_survive_sound|done].
Qed.

Lemma Forall_sound_passes ct self :
  Forall (λ i, record_sound i = true) self →
  Forall (λ i, passes ct i = true) self.
Proof.
  intros H. eapply Forall_impl; [exact H|]. intros i. apply sound_passes.
Qed.

Lemma popcontenttype_sound ct self :
  Forall (λ i, record_sound i = true) self →
  Attachments.popcontenttype ct self = (Ok (), omap (survive (lower ct)) self)
  ∧ Forall (λ i, record_sound i = true) (omap (survive (lower ct)) self).
Proof.
  intros Hs. split.
  - by apply popcontenttype_passes, Forall_sound_passes.
  - by apply Forall_survive_sound, Forall_sound_passes.
Qed.

(** Pruning for two targets, in either order. *)
Lemma filter_filter_comm {A} (P Q : A → bool) l :
  List.filter P (List.filter Q l) = List.filter Q (List.filter P l).
Proof.
  induction l as [|x l IH]; simpl; [done|].
  destruct (P x) eqn:HP, (Q x) eqn:HQ; simpl; rewrite ?HP, ?HQ, ?IH; done.
Qed.

Lemma filter_idemp {A} (P : A → bool) l :
  List.filter P (List.filter P l) = List.filter P l.
Proof.
  induction l as [|x l IH]; simpl; [done|].
  destruct (P x) eqn:HP; simpl; rewrite ?HP, ?IH; done.
Qed.

Lemma prune_prune ct ct' i : prune ct (prune ct' i) = prune ct' (prune ct i).
Proof.
  unfold prune. destruct (i !! "files") as [[a|js]|] eqn:Hfiles;
    rewrite ?Hfiles, ?lookup_insert_eq, ?insert_insert_eq; try done.
  by rewrite filter_filter_comm.
Qed.

Lemma prune_idemp ct i : prune ct (prune ct i) = prune ct i.
Proof.
  unfold prune. destruct (i !! "files") as [[a|js]|] eqn:Hfiles;
    rewrite ?Hfiles, ?lookup_insert_eq, ?insert_insert_eq; try done.
  by rewrite filter_idemp.
Qed.

Lemma survive_survive ct ct' i :
  survive ct i ≫= survive ct' = survive ct' i ≫= survive ct.
Proof.
  unfold survive. destruct (Attachments.is_filtered i) eqn:Hf; simpl.
  { by rewrite Hf. }
  destruct (record_matches ct i) eqn:Hm, (record_matches ct' i) eqn:Hm';
    simpl;
    rewrite ?prune_is_filtered, ?prune_record_matches, ?Hf, ?Hm, ?Hm';
    try done.
  by rewrite prune_prune.
Qed.

Lemma omap_omap {A B C} (f : A → option B) (g : B → option C) (l : list A) :
  omap g (omap f l) = omap (λ x, f x ≫= g) l.
Proof.
  induction l as [|x l IH]; csimpl; [done|].
  destruct (f x) as [y|]; csimpl; [|done].
  destruct (g y); by rewrite IH.
Qed.

Lemma survivors_comm ct ct' (self : list record) :
  omap (survive ct') (omap (survive ct) self) =
  omap (survive ct) (omap (survive ct') self).
Proof.
  rewrite !omap_omap.
  induction self as [|i self IH]; csimpl; [done|].
  by rewrite survive_survive, IH.
Qed.

Lemma survive_idemp ct i i' :
  survive ct i = Some i' → survive ct i' = Some i'.
Proof.
  unfold survive. destruct (Attachments.is_filtered i) eqn:Hf.
  { intros [= <-]. by rewrite Hf. }
  destruct (record_matches ct i) eqn:Hm; [done|]. intros [= <-].
  by rewrite prune_is_filtered, prune_record_matches, Hf, Hm, prune_idemp.
Qed.

Lemma survivors_idemp ct (self : list record) :
  omap (survive ct) (omap (survive ct) self) = omap (survive ct) self.
Proof.
  induction self as [|i self IH]; csimpl; [done|].
  destruct (survive ct i) as [i'|] eqn:Hs; csimpl; [|done].
  by rewrite (survive_idemp _ _ _ Hs), IH.
Qed.

(** X2.  After a call of [popcontenttype] that returned, the collection is
    in a state in which no later call can fail: [popcontenttype] returns for
    every target, and asking again for the target of the first call changes
    nothing. *)
Theorem popcontenttype_settles ct self self' :
  Attachments.popcontenttype ct self = (Ok (), self') →
  Attachments.popcontenttype ct self' = (Ok (), self') ∧
  ∀ ct', ∃ self'', Attachments.popcontenttype ct' self' = (Ok (), self'').
Proof.
  intros [Hall ->]%popcontenttype_Ok_inv.
  pose proof (Forall_survive_sound _ _ Hall) as Hs. split.
  - rewrite (proj1 (popcontenttype_sound ct _ Hs)).
    by rewrite survivors_idemp.
  - intros ct'. eexists. apply (popcontenttype_sound ct' _ Hs).
Qed.

(** The mixed sample collection after the removal of HTML. *)
Lemma popcontenttype_settles_witness :
  Attachments.popcontenttype "text/html"
    (omap (survive "text/html") mixed_collection) =
    (Ok (), omap (survive "text/html") mixed_collection) ∧
  ∀ ct', ∃ self'',
    Attachments.popcontenttype ct'
      (omap (survive "text/html") mixed_collection) = (Ok (), self'').
Proof.
  apply (popcontenttype_settles "text/html" mixed_collection).
  apply (bool_decide_unpack _). vm_compute. exact I.
Defined.

(** X3.  Two targets can be removed in either order: when each of the two
    calls returns on the collection as it is, the calls one after the other
    return as well, and both orders leave the same collection. *)
Theorem popcontenttype_order_irrelevant a b self self_a self_b :
  Attachments.popcontenttype a self = (Ok (), self_a) →
  Attachments.popcontenttype b self = (Ok (), self_b) →
  ∃ self', Attachments.popcontenttype b self_a = (Ok (), self') ∧
           Attachments.popcontenttype a self_b = (Ok (), self').
Proof.
  intros [Ha ->]%popcontenttype_Ok_inv [Hb ->]%popcontenttype_Ok_inv.
  pose proof (Forall_survive_sound _ _ Ha) as Hsa.
  pose proof (Forall_survive_sound _ _ Hb) as Hsb.
  eexists. split.
  - apply (popcontenttype_sound b _ Hsa).
  - rewrite (proj1 (popcontenttype_sound a _ Hsb)).
    by rewrite survivors_comm.
Qed.

(** HTML and plain text, removed from the mixed sample collection. *)
Lemma popcontenttype_order_irrelevant_witness :
  ∃ self',
    Attachments.popcontenttype "text/plain"
      (omap (survive "text/html") mixed_collection) = (Ok (), self') ∧
    Attachments.popcontenttype "text/html"
      (omap (survive "text/plain") mixed_collection) = (Ok (), self').
Proof.
  apply (popcontenttype_order_irrelevant "text/html" "text/plain"
           mixed_collection);
    apply (bool_decide_unpack _); vm_compute; exact I.
Defined.

(* ===================================================================== *)
(** ** [_filtercontenttypes] *)
(* ===================================================================== *)

Lemma filtercontenttypes_loop_sound cts self :
  Forall (λ i, record_sound i = true) self →
  Attachments.filtercontenttypes_loop cts self = (Ok (), survivors cts self).
Proof.
  revert self. induction cts as [|ct cts IH]; intros self Hs; simpl; [done|].
  destruct (popcontenttype_sound ct self Hs) as [-> Hs'].
  by rewrite IH.
Qed.

Lemma filtercontenttypes_loop_Ok_inv cts self self' :
  Attachments.filtercontenttypes_loop cts self = (Ok (), self') →
  self' = survivors cts self.
Proof.
  revert self. induction cts as [|ct cts IH]; intros self; simpl.
  - congruence.
  - destruct (Attachments.popcontenttype ct self) as [[[]|e] s1] eqn:Hp;
      [|done].
    apply popcontenttype_Ok_inv in Hp as [_ ->]. apply IH.
Qed.

Lemma survive_clear ct i i' :
  survive ct i = Some i' → Attachments.is_filtered i' = false →
  clear_of ct i' = true.
Proof.
  unfold survive. destruct (Attachments.is_filtered i) eqn:Hf.
  { intros [= <-]. congruence. }
  destruct (record_matches ct i) eqn:Hm; [done|]. intros [= <-] _.
  unfold clear_of. rewrite prune_record_matches, Hm. simpl.
  unfold prune. destruct (i !! "files") as [[a|js]|] eqn:Hfiles;
    rewrite ?Hfiles, ?lookup_insert_eq; try done.
  apply forallb_filter_self.
Qed.

Lemma survive_keeps_clear ct ct' i i' :
  survive ct' i = Some i' → clear_of ct i = true → clear_of ct i' = true.
Proof.
  unfold survive. destruct (Attachments.is_filtered i) eqn:Hf.
  { by intros [= <-]. }
  destruct (record_matches ct' i) eqn:Hm; [done|]. intros [= <-].
  unfold clear_of. rewrite prune_record_matches.
  intros [-> Hjs]%andb_true_iff. simpl.
  unfold prune. destruct (i !! "files") as [[a|js]|] eqn:Hfiles;
    rewrite ?Hfiles, ?lookup_insert_eq; try done.
  by apply forallb_filter.
Qed.

Lemma survive_unfiltered ct i i' :
  survive ct i = Some i' →
  Attachments.is_filtered i' = Attachments.is_filtered i.
Proof.
  unfold survive. destruct (Attachments.is_filtered i) eqn:Hf.
  { by intros [= <-]. }
  destruct (record_matches ct i); [done|]. intros [= <-].
  by rewrite prune_is_filtered.
Qed.

Lemma survivors_clear cts self :
  Forall (λ i, Attachments.is_filtered i = false →
               ∀ ct, ct ∈ cts → clear_of (lower ct) i = true)
    (survivors cts self).
Proof.
  unfold survivors. revert self.
  induction cts as [|ct cts IH] using rev_ind; intros self.
  { apply Forall_forall. intros i _ _ ct Hct. by apply elem_of_nil in Hct. }
  rewrite foldl_app. simpl. specialize (IH self).
  set (l := foldl _ self cts) in *. clearbody l.
  induction IH as [|i l Hi _ IHl]; csimpl; [constructor|].
  destruct (survive (lower ct) i) as [i'|] eqn:Hs; [|done].
  constructor; [|done]. intros Hf c Hc.
  apply elem_of_app in Hc as [Hc|Hc%list_elem_of_singleton].
  - eapply survive_keeps_clear; [done|]. apply Hi; [|done].
    by rewrite <-(survive_unfiltered _ _ _ Hs).
  - subst c. by eapply survive_clear.
Qed.

(** X4.  [_filtercontenttypes] over a list of content types.  Only the
    first call of [popcontenttype] can fail: once it has returned, the
    whole loop returns.  And when the loop has returned, no record of the
    collection that is not marked filtered has one of the listed content
    types (case ignored), and none of its members has. *)
Theorem filtercontenttypes_clears ct cts self :
  ((Attachments.popcontenttype ct self).1 = Ok () →
   (Attachments._filtercontenttypes (Some (ct :: cts)) self).1 = Ok ()) ∧
  (∀ self',
     Attachments._filtercontenttypes (Some (ct :: cts)) self = (Ok (), self') →
     self' = survivors (ct :: cts) self ∧
     Forall (λ i, Attachments.is_filtered i = false →
                  ∀ c, c ∈ ct :: cts → clear_of (lower c) i = true) self').
Proof.
  split.
  - simpl. destruct (Attachments.popcontenttype ct self) as [r s1] eqn:Hp.
    simpl. intros ->. apply popcontenttype_Ok_inv in Hp as [Hall ->].
    by rewrite filtercontenttypes_loop_sound by by apply Forall_survive_sound.
  - intros self' ->%filtercontenttypes_loop_Ok_inv.
    split; [done|apply survivors_clear].
Qed.

(** The mixed sample collection, cleared of HTML and of plain text. *)
Lemma filtercontenttypes_clears_witness :
  (Attachments._filtercontenttypes (Some ["text/HTML"; "text/plain"])
     mixed_collection).1 = Ok () ∧
  Forall (λ i, Attachments.is_filtered i = false →
               ∀ c, c ∈ ["text/HTML"; "text/plain"] →
                    clear_of (lower c) i = true)
    (survivors ["text/HTML"; "text/plain"] mixed_collection).
Proof.
  pose proof (filtercontenttypes_clears "text/HTML" ["text/plain"]
                mixed_collection) as [H1 H2].
  split.
  - apply H1. vm_compute. reflexivity.
  - destruct (H2 (survivors ["text/HTML"; "text/plain"] mixed_collection))
      as [_ H]; [|exact H].
    apply (bool_decide_unpack _). vm_compute. exact I.
Defined.

(* ===================================================================== *)
(** ** More on [filter] *)
(* ===================================================================== *)

Lemma filter_loop_Ok_inv check hash_type todo analyzed analyzed' todo' :
  Attachments.filter_loop check hash_type todo analyzed
    = (Ok analyzed', todo') →
  Forall (λ i, is_Some (fingerprint hash_type i)) todo.
Proof.
  revert analyzed todo'.
  induction todo as [|i todo IH]; intros analyzed todo'; simpl; [done|].
  destruct (i !! hash_type) as [[h|fs]|] eqn:Hi; try done.
  destruct (Attachments.filter_loop _ _ todo _) as [[a|e] rest] eqn:Hl;
    [|done].
  intros [= <- <-]. constructor; [|by eapply IH].
  exists h. by apply fingerprint_Some.
Qed.

Lemma filter_loop_again check hash_type todo analyzed analyzed' todo' :
  hash_type ≠ "payload" → hash_type ≠ "is_filtered" →
  Attachments.filter_loop check hash_type todo analyzed
    = (Ok analyzed', todo') →
  Attachments.filter_loop check hash_type todo' analyzed
    = (Ok analyzed', todo').
Proof.
  intros Hp Hf. revert analyzed todo'.
  induction todo as [|i todo IH]; intros analyzed todo'; simpl.
  { by intros [= <- <-]. }
  destruct (i !! hash_type) as [[h|fs]|] eqn:Hi; try done.
  destruct (Attachments.filter_loop _ _ todo _) as [[a|e] rest] eqn:Hl;
    [|done].
  intros [= <- <-]. apply IH in Hl. simpl.
  case_bool_decide.
  - rewrite lookup_insert_ne, lookup_delete_ne, Hi by done.
    rewrite Hl, bool_decide_eq_true_2 by done.
    by rewrite delete_insert_ne, delete_delete_eq, insert_insert_eq.
  - rewrite lookup_insert_ne, Hi by done.
    rewrite Hl, bool_decide_eq_false_2 by done.
    by rewrite insert_insert_eq.
Qed.

(** X5.  [filter] can be repeated: a second call with the same hash list,
    on the collection as a first call that returned has left it, returns
    the same set and changes nothing, provided the fingerprints are not
    kept under one of the two keys that [filter] itself writes. *)
Theorem filter_twice_is_filter_once check_list hash_type self analyzed self' :
  hash_type ≠ "payload" → hash_type ≠ "is_filtered" →
  Attachments.filter check_list hash_type self = (Ok analyzed, self') →
  Attachments.filter check_list hash_type self' = (Ok analyzed, self').
Proof. intros Hp Hf. by apply filter_loop_again. Qed.

(** The three sample records, marked twice with the hash of the second. *)
Lemma filter_twice_is_filter_once_witness :
  Attachments.filter [AStr sha_B] "sha1"
    (Attachments.filter [AStr sha_B] "sha1" three_records).2 =
  (Ok {[AStr sha_A; AStr sha_B; AStr sha_C]},
   (Attachments.filter [AStr sha_B] "sha1" three_records).2).
Proof.
  apply (filter_twice_is_filter_once [AStr sha_B] "sha1" three_records);
    [discriminate..|].
  apply (bool_decide_unpack _). vm_compute. exact I.
Defined.

(** X6.  When [filter] returns, the set it hands back holds the
    fingerprint of every record of the collection, matched or not; the
    collection has the records it had, in the same order, and in no record
    has a key other than ["payload"] and ["is_filtered"] been touched. *)
Theorem filter_reports_all_and_keeps_the_rest check_list hash_type self
    analyzed self' :
  Attachments.filter check_list hash_type self = (Ok analyzed, self') →
  analyzed = list_to_set (canon <$> omap (fingerprint hash_type) self) ∧
  Forall2 (λ i i', ∀ k, k ≠ "payload" → k ≠ "is_filtered" →
                        i' !! k = i !! k) self self'.
Proof.
  unfold Attachments.filter. intros H.
  pose proof (filter_loop_Ok_inv _ _ _ _ _ _ H) as Hall.
  destruct (filter_loop_total (pyset check_list) hash_type self ∅ Hall)
    as (a & s & Heq & -> & HF).
  rewrite Heq in H. injection H as <- <-. split; [set_solver|].
  eapply Forall2_impl; [exact HF|]. simpl.
  intros i i' (h & _ & ->) k Hk1 Hk2.
  case_bool_decide; by rewrite ?lookup_insert_ne, ?lookup_delete_ne.
Qed.

(** The three sample records, marked with the hash of the second. *)
Lemma filter_reports_all_and_keeps_the_rest_witness :
  ({[AStr sha_A; AStr sha_B; AStr sha_C]} : gset atom) =
    list_to_set (canon <$> omap (fingerprint "sha1") three_records) ∧
  Forall2 (λ i i', ∀ k, k ≠ "payload" → k ≠ "is_filtered" →
                        i' !! k = i !! k)
    three_records (Attachments.filter [AStr sha_B] "sha1" three_records).2.
Proof.
  apply (filter_reports_all_and_keeps_the_rest [AStr sha_B] "sha1"
           three_records).
  apply (bool_decide_unpack _). vm_compute. exact I.
Defined.

(** X7.  [filter] stops at the first record without a usable fingerprint:
    with [KeyError] when the key is missing, with [TypeError] when a list is
    stored under it.  The records before that one have been marked by then
    and stay so, that record and those after it are as they were. *)
Theorem filter_stops_at_record_without_hash check_list hash_type pre i post :
  Forall (λ j, is_Some (fingerprint hash_type j)) pre →
  fingerprint hash_type i = None →
  ∃ pre',
    Attachments.filter check_list hash_type (pre ++ i :: post) =
      (Raise (match i !! hash_type with
              | None => KeyError
              | Some _ => TypeError
              end), pre' ++ i :: post) ∧
    Forall2 (λ j j', ∃ h, fingerprint hash_type j = Some h ∧
                          j' = marked check_list h j) pre pre'.
Proof.
  intros Hpre Hi. unfold Attachments.filter. generalize (∅ : gset atom).
  induction Hpre as [|j pre [h Hj] _ IH]; intros analyzed; simpl.
  - exists []. split; [|constructor].
    unfold fingerprint in Hi.
    by destruct (i !! hash_type) as [[a|fs]|].
  - pose proof Hj as Hj'. apply fingerprint_Some in Hj'. rewrite Hj'.
    destruct (IH ({[canon h]} ∪ analyzed)) as (pre' & -> & HF).
    eexists (_ :: pre'). split; [reflexivity|].
    constructor; [|done]. by exists h.
Qed.

(** A record without ["sha1"] after a record with one. *)
Lemma filter_stops_at_record_without_hash_witness :
  ∃ pre',
    Attachments.filter [AStr sha_A] "sha1"
      ([html_page] ++ raw_attachment "second" :: [html_page]) =
      (Raise KeyError, pre' ++ raw_attachment "second" :: [html_page]) ∧
    Forall2 (λ j j', ∃ h, fingerprint "sha1" j = Some h ∧
                          j' = marked [AStr sha_A] h j) [html_page] pre'.
Proof.
  apply (filter_stops_at_record_without_hash [AStr sha_A] "sha1"
           [html_page] (raw_attachment "second") [html_page]).
  - apply Forall_cons_2; [|apply Forall_nil_2].
    exists (AStr sha_A). vm_compute. reflexivity.
  - vm_compute. reflexivity.
Defined.

(* ===================================================================== *)
(** ** [withhashes] *)
(* ===================================================================== *)

Lemma value_eqb_str_iff v s :
  value_eqb v (VStr s) = bool_decide (v = VStr s).
Proof.
  destruct (value_eqb v (VStr s)) eqn:H.
  - apply value_eqb_str_r in H. by rewrite bool_decide_eq_true_2.
  - rewrite bool_decide_eq_false_2; [done|]. intros ->.
    by rewrite value_eqb_refl in H.
Qed.

Lemma withhashes_item_spec E i :
  Attachments.withhashes_item E i =
    match payload_bytes E i with
    | Some p => Ok (hashed E p i)
    | None =>
        Raise (match i !! "payload" with
               | None => KeyError
               | Some (VAtom (AStr _)) => BinasciiError
               | Some _ =>
                   if bool_decide
                        (i !! "content_transfer_encoding"
                           = Some (VStr "base64"))
                   then AttributeError else TypeError
               end)
    end.
Proof.
  unfold Attachments.withhashes_item, payload_bytes.
  rewrite value_eqb_str_iff.
  replace (bool_decide
             (default (VAtom ANone) (i !! "content_transfer_encoding")
                = VStr "base64"))
    with (bool_decide
            (i !! "content_transfer_encoding" = Some (VStr "base64"))).
  2: { apply bool_decide_ext.
       destruct (i !! "content_transfer_encoding") as [v|]; simpl;
         split; congruence. }
  destruct (i !! "payload") as [[[| | |s]|fs]|]; try done;
    case_bool_decide; simpl; try done.
  by destruct (b64decode E s).
Qed.

(** X8.  [withhashes] either fingerprints every record or gives no
    collection at all.  When it returns, each record of the new collection
    is the old one with the five fingerprints of its payload bytes added
    (the payload decoded first when the record says it is base64), and
    nothing else changed.  It raises exactly when some record has no payload
    to take the bytes from. *)
Theorem withhashes_fingerprints_every_record E self :
  match Attachments.withhashes E self with
  | Ok self' =>
      Forall2 (λ i i', ∃ p, payload_bytes E i = Some p ∧ i' = hashed E p i)
        self self'
  | Raise _ => Exists (λ i, payload_bytes E i = None) self
  end.
Proof.
  induction self as [|i self IH]; simpl; [constructor|].
  rewrite withhashes_item_spec.
  destruct (payload_bytes E i) as [p|] eqn:Hp.
  - destruct (Attachments.withhashes E self) as [self'|e].
    + constructor; [by exists p|done].
    + by apply Exists_cons_tl.
  - by apply Exists_cons_hd.
Qed.

Lemma withhashes_Ok_inv E self self' :
  Attachments.withhashes E self = Ok self' →
  Forall2 (λ i i', ∃ p, payload_bytes E i = Some p ∧ i' = hashed E p i)
    self self'.
Proof.
  revert self'. induction self as [|i self IH]; intros self'; simpl.
  { intros [= <-]. constructor. }
  rewrite withhashes_item_spec.
  destruct (payload_bytes E i) as [p|] eqn:Hp; [|done].
  destruct (Attachments.withhashes E self) as [s|e]; [|done].
  intros [= <-]. constructor; [by exists p|by apply IH].
Qed.

Lemma hashed_digest E k p (i : record) :
  hash_key k = true → hashed E p i !! k = Some (VStr (digest E k p)).
Proof.
  unfold hash_key, digest, hashed. intros Hk.
  destruct (String.eqb_spec k "md5") as [->|?]; [by simplify_map_eq|].
  destruct (String.eqb_spec k "sha1") as [->|?]; [by simplify_map_eq|].
  destruct (String.eqb_spec k "sha256") as [->|?]; [by simplify_map_eq|].
  destruct (String.eqb_spec k "sha512") as [->|?]; [by simplify_map_eq|].
  destruct (String.eqb_spec k "ssdeep") as [->|?]; [by simplify_map_eq|].
  done.
Qed.

(** X9.  A collection made by [withhashes] can be put through [filter] by
    any of the five fingerprints: the call returns, and each record is
    marked by whether that digest of its payload bytes is in the hash
    list. *)
Theorem withhashes_then_filter E self self' check_list hash_type :
  Attachments.withhashes E self = Ok self' →
  hash_key hash_type = true →
  ∃ analyzed self'',
    Attachments.filter check_list hash_type self' = (Ok analyzed, self'') ∧
    Forall2 (λ i i'', ∃ p,
        payload_bytes E i = Some p ∧
        i'' = marked check_list (AStr (digest E hash_type p)) (hashed E p i))
      self self''.
Proof.
  intros HF%withhashes_Ok_inv Hk. unfold Attachments.filter.
  generalize (∅ : gset atom).
  induction HF as [|i i' self self' (p & Hp & ->) _ IH]; intros analyzed.
  - eexists _, _. split; [reflexivity|constructor].
  - simpl. rewrite hashed_digest by done.
    destruct (IH ({[canon (AStr (digest E hash_type p))]} ∪ analyzed))
      as (a & s & -> & HF').
    eexists _, _. split; [reflexivity|].
    constructor; [|done]. by exists p.
Qed.

(** Two raw attachments, one of them base64, fingerprinted and then marked
    by the SHA-256 of the first. *)
Lemma withhashes_then_filter_witness :
  ∃ analyzed self'',
    Attachments.filter [AStr "sha256 of first"] "sha256"
      [hashed sample_env "first" (raw_attachment "first");
       hashed sample_env "second"
         (<["content_transfer_encoding" := VStr "base64"]>
            (raw_attachment "=second"))] = (Ok analyzed, self'') ∧
    Forall2 (λ i i'', ∃ p,
        payload_bytes sample_env i = Some p ∧
        i'' = marked [AStr "sha256 of first"]
                (AStr (digest sample_env "sha256" p)) (hashed sample_env p i))
      [raw_attachment "first";
       <["content_transfer_encoding" := VStr "base64"]>
         (raw_attachment "=second")] self''.
Proof.
  apply (withhashes_then_filter sample_env).
  - apply (bool_decide_unpack _). vm_compute. exact I.
  - reflexivity.
Defined.

(* ===================================================================== *)
(** ** [filenamestext] and [payloadstext] *)
(* ===================================================================== *)

Lemma is_ascii_app a b :
  Attachments.is_ascii (a +:+ b) =
    Attachments.is_ascii a && Attachments.is_ascii b.
Proof.
  unfold Attachments.is_ascii. induction a as [|c a IH]; simpl; [done|].
  by rewrite IH, andb_assoc.
Qed.

Lemma is_ascii_cons c s :
  Attachments.is_ascii (String c s) =
    (nat_of_ascii c <? 128)%nat && Attachments.is_ascii s.
Proof. reflexivity. Qed.

Lemma lstrip_ascii s :
  Attachments.is_ascii s = true →
  Attachments.is_ascii (Attachments.lstrip s) = true.
Proof.
  induction s as [|c s IH]; simpl; [done|].
  destruct (Attachments.is_space c); [|done].
  rewrite is_ascii_cons. intros [_ H]%andb_true_iff. by apply IH.
Qed.

Lemma rstrip_ascii s :
  Attachments.is_ascii s = true →
  Attachments.is_ascii (Attachments.rstrip s) = true.
Proof.
  induction s as [|c s IH]; simpl; [done|].
  rewrite is_ascii_cons. intros [Hc Hs]%andb_true_iff. specialize (IH Hs).
  destruct (Attachments.rstrip s) as [|d r].
  - destruct (Attachments.is_space c); [done|].
    by rewrite is_ascii_cons, Hc.
  - by rewrite is_ascii_cons, Hc, IH.
Qed.

Lemma lstrip_head s :
  match Attachments.lstrip s with
  | EmptyString => True
  | String c _ => Attachments.is_space c = false
  end.
Proof.
  induction s as [|c s IH]; simpl; [done|].
  by destruct (Attachments.is_space c) eqn:Hc.
Qed.

Lemma rstrip_head c s :
  Attachments.rstrip (String c s) = EmptyString ∨
  ∃ r, Attachments.rstrip (String c s) = String c r.
Proof.
  simpl. destruct (Attachments.rstrip s) as [|d r]; [|eauto].
  destruct (Attachments.is_space c); eauto.
Qed.

Lemma rstrip_last s :
  match last (list_ascii_of_string (Attachments.rstrip s)) with
  | Some d => Attachments.is_space d = false
  | None => True
  end.
Proof.
  induction s as [|c s IH]; simpl; [done|].
  destruct (Attachments.rstrip s) as [|d r].
  - by destruct (Attachments.is_space c) eqn:Hc.
  - done.
Qed.

Lemma strip_stripped s : stripped (Attachments.strip s) = true.
Proof.
  unfold Attachments.strip, stripped.
  pose proof (lstrip_head s) as Hh.
  pose proof (rstrip_last (Attachments.lstrip s)) as Hl.
  destruct (Attachments.lstrip s) as [|c u]; [done|].
  destruct (rstrip_head c u) as [->|[r Hr]]; [done|].
  rewrite Hr in *. rewrite Hh. simpl negb.
  destruct (last (list_ascii_of_string (String c r))); [|done].
  by rewrite Hl.
Qed.

Lemma strip_ascii s :
  Attachments.is_ascii s = true →
  Attachments.is_ascii (Attachments.strip s) = true.
Proof. intros H. by apply rstrip_ascii, lstrip_ascii. Qed.

Lemma add_line_ascii text a :
  Attachments.is_ascii text = true →
  Attachments.is_ascii (text_of text (Attachments.add_line text a)) = true.
Proof.
  intros Ht. destruct a as [| | |s]; try done. simpl.
  destruct (Attachments.is_ascii s) eqn:Hs; [|done]. simpl.
  by rewrite !is_ascii_app, Ht, Hs.
Qed.

Lemma add_filenames_ascii js text :
  Attachments.is_ascii text = true →
  Attachments.is_ascii (text_of text (Attachments.add_filenames js text))
    = true.
Proof.
  revert text. induction js as [|j js IH]; intros text Ht; simpl; [done|].
  destruct (j !! "filename") as [a|]; [|done].
  pose proof (add_line_ascii text a Ht) as Ha.
  destruct (Attachments.add_line text a) as [t|t|e]; simpl in *; try done.
  specialize (IH t Ha).
  by destruct (Attachments.add_filenames js t).
Qed.

Lemma for_files_of_ascii i body text :
  (∀ js t, Attachments.is_ascii t = true →
           Attachments.is_ascii (text_of t (body js t)) = true) →
  Attachments.is_ascii text = true →
  Attachments.is_ascii (text_of text (Attachments.for_files_of i body text))
    = true.
Proof.
  intros Hbody Ht. unfold Attachments.for_files_of.
  destruct (i !! "files") as [[a|js]|]; [|by apply Hbody|done].
  by destruct (atom_eqb a (AStr "")).
Qed.

Lemma filenamestext_item_ascii i text :
  Attachments.is_ascii text = true →
  Attachments.is_ascii (text_of text (Attachments.filenamestext_item i text))
    = true.
Proof.
  intros Ht. unfold Attachments.filenamestext_item.
  destruct (i !! "filename") as [[a|fs]|]; try done.
  pose proof (add_line_ascii text a Ht) as Ha.
  destruct (Attachments.add_line text a) as [t|t|e]; simpl in *; try done.
  pose proof (for_files_of_ascii i Attachments.add_filenames t
                add_filenames_ascii Ha) as Hf.
  by destruct (Attachments.for_files_of i Attachments.add_filenames t).
Qed.

Lemma text_loop_ascii body todo text t :
  (∀ i text, Attachments.is_ascii text = true →
             Attachments.is_ascii (text_of text (body i text)) = true) →
  Attachments.is_ascii text = true →
  Attachments.text_loop body todo text = Ok t →
  Attachments.is_ascii t = true.
Proof.
  intros Hbody. revert text.
  induction todo as [|i todo IH]; intros text Ht; simpl.
  { by intros [= <-]. }
  specialize (Hbody i text Ht).
  destruct (body i text) as [t'|t'|e]; simpl in *; [| |done]; by apply IH.
Qed.

(** What the loop makes of a record depends on the text the body hands on
    and on whether an exception gets out, not on how the body ended. *)
Lemma text_loop_cons_eq body i i' todo text :
  escapes (body i text) = false → escapes (body i' text) = false →
  text_of text (body i text) = text_of text (body i' text) →
  Attachments.text_loop body (i :: todo) text =
  Attachments.text_loop body (i' :: todo) text.
Proof.
  simpl. destruct (body i text), (body i' text); simpl; try done;
    by intros _ _ ->.
Qed.

Lemma payloadstext_item_filtered E i text :
  Attachments.is_filtered i = true →
  Attachments.payloadstext_item E i text = Attachments.Appended text.
Proof.
  unfold Attachments.is_filtered, Attachments.payloadstext_item.
  destruct (i !! "is_filtered") as [v|]; simpl; [|done]. by intros ->.
Qed.

Lemma text_loop_unfiltered E todo text :
  Attachments.text_loop (Attachments.payloadstext_item E) todo text =
  Attachments.text_loop (Attachments.payloadstext_item E)
    (List.filter (λ i, negb (Attachments.is_filtered i)) todo) text.
Proof.
  revert text. induction todo as [|i todo IH]; intros text; simpl; [done|].
  destruct (Attachments.is_filtered i) eqn:Hf; simpl.
  - by rewrite payloadstext_item_filtered.
  - destruct (Attachments.payloadstext_item E i text); by rewrite ?IH.
Qed.

(** X10.  [payloadstext] does not look into the records marked filtered:
    its outcome, a text or an exception, is the one it has on the collection
    without them, whatever they hold or lack.  So the records that [filter]
    has marked, and that have lost their payload to it, take no part. *)
Theorem payloadstext_skips_filtered E self :
  Attachments.payloadstext E self =
    Attachments.payloadstext E
      (List.filter (λ i, negb (Attachments.is_filtered i)) self).
Proof.
  unfold Attachments.payloadstext. by rewrite <-text_loop_unfiltered.
Qed.

(** A record that [filter] has marked and left without payload, between two
    texts. *)
Example payloadstext_after_filter :
  Attachments.payloadstext sample_env
    [ {[ "payload" := VStr "one"; "content_transfer_encoding" := VStr "7bit" ]};
      {[ "is_filtered" := VTrue ]};
      {[ "payload" := VStr "two"; "content_transfer_encoding" := VStr "7bit" ]} ]
  = Ok ("one" +:+ Attachments.newline +:+ "two").
Proof. vm_compute. reflexivity. Qed.

Lemma add_line_named text s :
  escapes (Attachments.add_line text (AStr s)) = false.
Proof. simpl. by destruct (Attachments.is_ascii s). Qed.

Lemma add_filenames_named js text :
  forallb member_named js = true →
  escapes (Attachments.add_filenames js text) = false.
Proof.
  revert text. induction js as [|j js IH]; intros text; simpl; [done|].
  intros [Hj Hjs]%andb_true_iff. unfold member_named in Hj.
  destruct (j !! "filename") as [[| | |s]|]; try done. simpl.
  destruct (Attachments.is_ascii s); [by apply IH|done].
Qed.

Lemma filenamestext_item_named i text :
  record_named i = true →
  escapes (Attachments.filenamestext_item i text) = false.
Proof.
  unfold record_named, Attachments.filenamestext_item,
    Attachments.for_files_of.
  destruct (i !! "filename") as [[[| | |s]|fs]|]; try done. simpl.
  destruct (Attachments.is_ascii s); [|done].
  destruct (i !! "files") as [[a|js]|]; [|apply add_filenames_named|done].
  by intros ->.
Qed.

Lemma text_loop_named todo text :
  Forall (λ i, record_named i = true) todo →
  ∃ t, Attachments.text_loop Attachments.filenamestext_item todo text = Ok t.
Proof.
  intros Hall. revert text.
  induction Hall as [|i todo Hi _ IH]; intros text; simpl; [eauto|].
  pose proof (filenamestext_item_named i text Hi) as He.
  destruct (Attachments.filenamestext_item i text); [apply IH..|done].
Qed.

(** X11.  [filenamestext] returns on every collection whose records, and
    their members, have byte strings for names, whatever bytes there are in
    them: a name that is not ASCII is passed over.  The text is made of
    ASCII characters only and has no white space at its ends. *)
Theorem filenamestext_reads_named_records self :
  Forall (λ i, record_named i = true) self →
  ∃ text, Attachments.filenamestext self = Ok text ∧
          Attachments.is_ascii text = true ∧ stripped text = true.
Proof.
  intros Hall. unfold Attachments.filenamestext.
  destruct (text_loop_named self "" Hall) as [t Ht]. rewrite Ht.
  eexists. split; [reflexivity|]. split; [|apply strip_stripped].
  apply strip_ascii.
  apply (text_loop_ascii Attachments.filenamestext_item self "" t);
    [|reflexivity|exact Ht].
  intros i text. apply filenamestext_item_ascii.
Qed.

(** The mixed sample collection has names throughout. *)
Lemma filenamestext_reads_named_records_witness :
  ∃ text, Attachments.filenamestext mixed_collection = Ok text ∧
          Attachments.is_ascii text = true ∧ stripped text = true.
Proof.
  apply (filenamestext_reads_named_records mixed_collection).
  repeat (apply Forall_cons_2; [vm_compute; reflexivity|]).
  apply Forall_nil_2.
Defined.

Lemma add_payloads_stops E js1 j js2 s d text :
  j !! "payload" = Some (AStr s) → b64decode E s = Some d →
  Attachments.is_ascii d = false →
  Attachments.add_payloads E (js1 ++ j :: js2) text =
    match Attachments.add_payloads E js1 text with
    | Attachments.Appended t => Attachments.UnicodeDecodeError t
    | stop => stop
    end.
Proof.
  intros Hj Hs Hd. revert text.
  induction js1 as [|x js1 IH]; intros text; simpl.
  - rewrite Hj. unfold Attachments.add_decoded_line, Attachments.add_line.
    by rewrite Hs, Hd.
  - destruct (x !! "payload") as [a|]; [|done].
    by destruct (Attachments.add_decoded_line E text a) as [t|t|e].
Qed.

Lemma text_loop_stops_at_binary_member E pre i post js1 j js2 s d text :
  Attachments.is_filtered i = false →
  truthy (default (VAtom ANone) (i !! "is_archive")) = true →
  i !! "files" = Some (VFiles (js1 ++ j :: js2)) →
  j !! "payload" = Some (AStr s) → b64decode E s = Some d →
  Attachments.is_ascii d = false →
  Attachments.text_loop (Attachments.payloadstext_item E)
    (pre ++ i :: post) text =
  Attachments.text_loop (Attachments.payloadstext_item E)
    (pre ++ <["files" := VFiles js1]> i :: post) text.
Proof.
  intros Hf Ha Hfiles Hj Hs Hd. revert text.
  induction pre as [|x pre IH]; intros text.
  2: { simpl. destruct (Attachments.payloadstext_item E x text);
         [apply IH..|done]. }
  simpl. unfold Attachments.payloadstext_item, Attachments.is_filtered in *.
  rewrite !lookup_insert_ne by done.
  replace (truthy (default (VAtom ANone) (i !! "is_filtered")))
    with false.
  2: { by destruct (i !! "is_filtered"). }
  rewrite Ha. simpl. unfold Attachments.for_files_of.
  rewrite Hfiles, lookup_insert_eq.
  rewrite (add_payloads_stops E js1 j js2 s d) by done.
  by destruct (Attachments.add_payloads E js1 text).
Qed.

(** X12.  In an archive record, a member whose payload is not ASCII ends
    the record for [payloadstext]: the members after it are not read, so the
    outcome is the one for the record with the member list cut off before
    that member. *)
Theorem payloadstext_stops_at_binary_member E pre i post js1 j js2 s d :
  Attachments.is_filtered i = false →
  truthy (default (VAtom ANone) (i !! "is_archive")) = true →
  i !! "files" = Some (VFiles (js1 ++ j :: js2)) →
  j !! "payload" = Some (AStr s) → b64decode E s = Some d →
  Attachments.is_ascii d = false →
  Attachments.payloadstext E (pre ++ i :: post) =
  Attachments.payloadstext E (pre ++ <["files" := VFiles js1]> i :: post).
Proof.
  intros Hf Ha Hfiles Hj Hs Hd. unfold Attachments.payloadstext.
  by rewrite (text_loop_stops_at_binary_member E pre i post js1 j js2 s d).
Qed.

(** An archive with a picture between two texts: the second text is not
    read. *)
Lemma payloadstext_stops_at_binary_member_witness :
  Attachments.payloadstext sample_env
    ([raw_attachment "hello"] ++ zip_with_binary :: []) =
  Attachments.payloadstext sample_env
    ([raw_attachment "hello"] ++
     <["files" := VFiles [text_member "a.txt" "see http://a.example/"]]>
       zip_with_binary :: []).
Proof.
  apply (payloadstext_stops_at_binary_member sample_env
           [raw_attachment "hello"] zip_with_binary []
           [text_member "a.txt" "see http://a.example/"]
           (text_member "b.png" binary_blob)
           [text_member "c.txt" "see http://c.example/"]
           (b64encode sample_env binary_blob) binary_blob);
    apply (bool_decide_unpack _); vm_compute; exact I.
Defined.

(* ===================================================================== *)
(** ** More on [_addmetadata], and [run] *)
(* ===================================================================== *)

Lemma list_alter_lookup {A} (f : A → A) (l : list A) k x :
  l !! k = Some x → alter f k l = <[k := f x]> l.
Proof.
  revert k. induction l as [|y l IH]; intros [|k]; simpl; try done.
  - by intros [= ->].
  - intros H. f_equal. by apply IH.
Qed.

(** A loop over the indices of the collection whose body replaces the
    record at its index. *)
Lemma for_items (R : record → record → Prop) (body : nat → M unit) a m w w' :
  (∀ k w w', body k w = (Ok (), w') →
     ∃ i i', data w !! k = Some i ∧ R i i' ∧ data w' = <[k := i']> (data w)) →
  for_ (seq a m) body w = (Ok (), w') →
  length (data w') = length (data w) ∧
  ∀ j x y, data w !! j = Some x → data w' !! j = Some y →
    (a ≤ j < a + m → R x y) ∧ (¬ (a ≤ j < a + m) → y = x).
Proof.
  intros Hbody. revert a w.
  induction m as [|m IH]; intros a w; simpl.
  { intros [= <-]. split; [done|]. intros j x y Hx Hy.
    split; [lia|]. intros _. congruence. }
  intros ([] & w1 & H1 & H2)%bind_Ok_inv.
  destruct (Hbody _ _ _ H1) as (i & i' & Hi & HR & Hd1).
  destruct (IH _ _ H2) as [Hlen Hrest]. rewrite Hd1 in Hlen, Hrest.
  rewrite length_insert in Hlen. split; [done|].
  intros j x y Hx Hy. destruct (decide (j = a)) as [->|Hne].
  - assert (x = i) as -> by congruence.
    destruct (Hrest a i' y) as [_ Hy']; [|done|].
    { apply list_lookup_insert_eq. by eapply lookup_lt_Some. }
    rewrite Hy' by lia. split; [done|lia].
  - destruct (Hrest j x y) as [Hin Hout]; [|done|].
    { by rewrite list_lookup_insert_ne. }
    split; [intros ?; apply Hin; lia|intros ?; apply Hout; lia].
Qed.

Section addmetadata_data.
Context (E : env).

Lemma check_archive_data payload ws r w w' :
  check_archive E payload ws w = (r, w') → data w' = data w.
Proof.
  unfold check_archive, check_archive_wrapped, mkstemp, write_file,
    patool_test, os_remove, mbind, M_bind.
  destruct (lru_get _ _); [by intros [= _ <-]|].
  destruct (mkstemp_raises E); [by intros [= _ <-]|].
  destruct (write_raises E); [by intros [= _ <-]|]. simpl.
  rewrite lookup_insert_eq.
  destruct (test_archive E payload), ws; simpl;
    rewrite ?lookup_insert_eq; by intros [= _ <-].
Qed.

Lemma for_append_file_data k (f : string * string → member) found w i fs :
  data w !! k = Some i → i !! "files" = Some (VFiles fs) →
  for_ found (λ j, Attachments.append_file k (f j)) w =
    (Ok (),
     with_data (<[k := <["files" := VFiles (fs ++ (f <$> found))]> i]> (data w))
       w).
Proof.
  revert w i fs. induction found as [|x found IH]; intros w i fs Hi Hfs.
  - simpl. rewrite app_nil_r, insert_id, list_insert_id by done.
    by destruct w.
  - simpl. erewrite bind_Ok.
    2: { unfold Attachments.append_file.
         erewrite bind_Ok; [|unfold Attachments.get_item; by rewrite Hi].
         erewrite bind_Ok; [|unfold item; by rewrite Hfs].
         unfold Attachments.update_item.
         by rewrite (list_alter_lookup _ _ _ _ Hi). }
    erewrite IH; [| |apply lookup_insert_eq].
    2: { simpl. apply list_lookup_insert_eq. by eapply lookup_lt_Some. }
    simpl. rewrite insert_insert_eq, list_insert_insert_eq, <-app_assoc.
    by destruct w.
Qed.

Lemma walk_world d r w w' : walk d w = (Ok r, w') → w' = w.
Proof. by intros [= _ <-]. Qed.

Lemma mkdtemp_data q w w' : mkdtemp E w = (Ok q, w') → data w' = data w.
Proof.
  unfold mkdtemp. destruct (mkdtemp_raises E); [done|]. by intros [= _ <-].
Qed.

Lemma patool_extract_data p d w w' :
  patool_extract E p d w = (Ok (), w') → data w' = data w.
Proof.
  unfold patool_extract.
  destruct (files w !! p) as [x|]; [|done].
  destruct (dirs w !! d); [|done].
  destruct (extract_archive E x); [|done]. by intros [= <-].
Qed.

Lemma ignore_rmtree_data d r w w' :
  ignore_OSError (rmtree d) w = (r, w') → data w' = data w.
Proof.
  unfold ignore_OSError, rmtree. destruct (dirs w !! d); by intros [= _ <-].
Qed.

Lemma ignore_os_remove_data f r w w' :
  ignore_OSError (os_remove f) w = (r, w') → data w' = data w.
Proof.
  unfold ignore_OSError, os_remove. destruct (files w !! f);
    by intros [= _ <-].
Qed.

(** The values [_metadata] returns, when the payload it returns is a
    string. *)
Lemma metadata_Ok i payload size ext s w w' w'' :
  Attachments._metadata E i w = (Ok (payload, size, ext), w') →
  Attachments.as_string payload w' = (Ok s, w'') →
  payload_bytes E i = Some s ∧
  size = Z.of_nat (String.length s) ∧
  ∃ fn, i !! "filename" = Some (VStr fn) ∧
        ext = match extension fn with Some e => AStr e | None => ANone end.
Proof.
  unfold Attachments._metadata, payload_bytes.
  intros (enc & w1 & Henc & H)%bind_Ok_inv.
  apply bind_Ok_inv in H as (pl & w2 & Hpl & H).
  apply bind_Ok_inv in H as (pl' & w3 & Hdec & H).
  apply bind_Ok_inv in H as (sz & w4 & Hlen & H).
  apply bind_Ok_inv in H as (fl & w5 & Hfl & H).
  apply bind_Ok_inv in H as (ext' & w6 & Hext & H).
  injection H as <- <- <- <-. intros Hs.
  unfold item in Henc, Hpl, Hfl.
  destruct (i !! "content_transfer_encoding") as [enc'|] eqn:Hienc; [|done].
  destruct (i !! "payload") as [pl0|] eqn:Hipl; [|done].
  destruct (i !! "filename") as [fl0|] eqn:Hifl; [|done].
  injection Henc as -> <-. injection Hpl as -> <-. injection Hfl as -> <-.
  assert (pl' = VStr s) as ->.
  { unfold Attachments.as_string in Hs.
    destruct pl' as [[| | |?]|?]; try done. by injection Hs as ->. }
  assert (sz = Z.of_nat (String.length s)) as ->.
  { by injection Hlen as <- _. }
  assert (∃ fn, fl = VStr fn ∧
            ext' = match extension fn with Some e => AStr e | None => ANone end)
    as (fn & -> & ->).
  { unfold Attachments.extension_of in Hext.
    destruct fl as [[| | |fn]|?]; try done. injection Hext as <- _. eauto. }
  split; [|split; [done|eauto]].
  rewrite value_eqb_str_iff in Hdec. case_bool_decide as Hb.
  - subst enc. rewrite bool_decide_eq_true_2 by done.
    apply bind_Ok_inv in Hdec as (dec & w7 & Hdec & Hret).
    injection Hret as -> _.
    unfold value_decode_base64, decode_base64 in Hdec.
    destruct pl as [[| | |s0]|?]; try done.
    destruct (b64decode E s0); [|done]. by injection Hdec as ->.
  - injection Hdec as -> _.
    rewrite bool_decide_eq_false_2; [done|]. congruence.
Qed.

Lemma metadata_key_false k :
  metadata_key k = false →
  k ≠ "extension" ∧ k ≠ "size" ∧ k ≠ "Content-Type" ∧ k ≠ "is_archive" ∧
  k ≠ "files".
Proof.
  unfold metadata_key. rewrite !orb_false_iff, !String.eqb_neq. tauto.
Qed.

(** One turn of the loop of [_addmetadata] that ends normally. *)
Lemma addmetadata_item_data k w w' :
  Attachments._addmetadata_item E k w = (Ok (), w') →
  ∃ i i', data w !! k = Some i ∧ enriched E i i' ∧
          data w' = <[k := i']> (data w).
Proof.
  unfold Attachments._addmetadata_item.
  intros (i & w1 & Hget & H)%bind_Ok_inv.
  unfold Attachments.get_item in Hget.
  destruct (data w !! k) as [i0|] eqn:Hk; [|done]. injection Hget as -> <-.
  exists i. unfold enriched.
  destruct (Attachments.is_filtered i) eqn:Hf; simpl in H.
  { injection H as <-. exists i. by rewrite list_insert_id. }
  apply bind_Ok_inv in H as ([[payload size] ext] & w2 & Hm & H).
  pose proof (metadata_world _ _ _ _ _ Hm) as ->.
  apply bind_Ok_inv in H as (s & w3 & Hs & H).
  destruct (metadata_Ok _ _ _ _ _ _ _ _ Hm Hs) as (Hp & -> & fn & Hfn & ->).
  assert (w3 = w) as ->.
  { unfold Attachments.as_string in Hs.
    destruct payload as [[| | |?]|?]; by injection Hs. }
  apply bind_Ok_inv in H as (v & w4 & Hd4%check_archive_data & H).
  destruct v as [?|flag f]; [done|].
  apply bind_Ok_inv in H as ([] & w5 & Hu & H).
  unfold Attachments.update_item in Hu. injection Hu as <-.
  rewrite Hd4, (list_alter_lookup _ _ _ _ Hk) in H.
  apply bind_Ok_inv in H as ([] & w6 & Hblock & Hd7%ignore_os_remove_data).
  rewrite Hd7. clear Hd7 w'.
  set (i1 := <["is_archive" := VAtom (ABool flag)]> _) in Hblock.
  assert (i1 !! "files" = i !! "files") as Hfiles1.
  { subst i1. by rewrite !lookup_insert_ne. }
  assert (∀ i' : record,
            (∀ key, key ≠ "files" → i' !! key = i1 !! key) →
            (if flag
             then ∃ found,
               i' !! "files" =
                 Some (VFiles (Attachments.archived_file E <$> found))
             else i' !! "files" = i !! "files") →
            ∃ p fn0 (flag0 : bool),
              payload_bytes E i = Some p ∧ i !! "filename" = Some (VStr fn0) ∧
              i' !! "extension" =
                Some (VAtom match extension fn0 with
                            | Some e => AStr e | None => ANone end) ∧
              i' !! "size" = Some (VAtom (AInt (Z.of_nat (String.length p))))
              ∧ i' !! "Content-Type" = Some (VStr (from_buffer E p)) ∧
              i' !! "is_archive" = Some (VAtom (ABool flag0)) ∧
              (if flag0
               then ∃ found,
                 i' !! "files" =
                   Some (VFiles (Attachments.archived_file E <$> found))
               else i' !! "files" = i !! "files") ∧
              ∀ k, metadata_key k = false → i' !! k = i !! k) as Hpost.
  { intros i' Hi' Hfl. exists s, fn, flag.
    split; [done|]. split; [done|].
    rewrite !Hi' by done. subst i1.
    split; [by rewrite !lookup_insert_ne, lookup_insert_eq by done|].
    split; [by rewrite !lookup_insert_ne, lookup_insert_eq by done|].
    split; [by rewrite !lookup_insert_ne, lookup_insert_eq by done|].
    split; [by rewrite lookup_insert_eq|]. split; [done|].
    intros key (? & ? & ? & ? & ?)%metadata_key_false.
    rewrite Hi' by done. by rewrite !lookup_insert_ne. }
  destruct flag.
  - apply bind_Ok_inv in Hblock as ([] & wa & Hu & H).
    unfold Attachments.update_item in Hu. injection Hu as <-. simpl in H.
    assert (k < length (data w)) as Hlt by by eapply lookup_lt_Some.
    rewrite (list_alter_lookup _ _ k i1) in H
      by by apply list_lookup_insert_eq.
    rewrite list_insert_insert_eq in H.
    apply bind_Ok_inv in H as (q & wb & Hq & H).
    pose proof (mkdtemp_data _ _ _ Hq) as Hdb. simpl in Hdb.
    apply bind_Ok_inv in H as ([] & wc & Hdc%patool_extract_data & H).
    apply bind_Ok_inv in H as (found & wd & ->%walk_world & H).
    apply bind_Ok_inv in H as ([] & we & Hfor & Hdf%ignore_rmtree_data).
    rewrite (for_append_file_data k _ found wc
               (<["files" := VFiles []]> i1) []) in Hfor.
    2: { rewrite Hdc, Hdb. by apply list_lookup_insert_eq. }
    2: { apply lookup_insert_eq. }
    injection Hfor as <-. simpl in Hdf. rewrite Hdf, Hdc, Hdb.
    rewrite list_insert_insert_eq, insert_insert_eq.
    eexists. split; [done|]. split; [|reflexivity]. apply Hpost.
    + intros key Hkey. by rewrite lookup_insert_ne.
    + exists found. by rewrite lookup_insert_eq.
  - injection Hblock as <-. simpl.
    eexists. split; [done|]. split; [|reflexivity]. by apply Hpost.
Qed.

(** The collection after a pass of [_addmetadata] that returned. *)
Lemma addmetadata_enriched w w' :
  Attachments._addmetadata E w = (Ok (), w') →
  Forall2 (enriched E) (data w) (data w').
Proof.
  unfold Attachments._addmetadata.
  intros (w0 & w1 & [= <- <-] & H)%bind_Ok_inv.
  destruct (for_items (enriched E) _ _ _ _ _ addmetadata_item_data H)
    as [Hlen Hall].
  apply Forall2_same_length_lookup. split; [done|].
  intros j x y Hx Hy. apply (Hall j x y Hx Hy).
  apply lookup_lt_Some in Hx. lia.
Qed.

Lemma archived_file_sound found :
  forallb member_sound (Attachments.archived_file E <$> found) = true.
Proof.
  induction found as [|x found IH]; csimpl; [done|]. rewrite IH.
  unfold member_sound, Attachments.archived_file.
  destruct (fingerprints E x.2) as [[[[??]?]?]?].
  by rewrite !lookup_insert_ne, lookup_insert_eq by done.
Qed.

Lemma enriched_sound i i' :
  members_ready i = true → enriched E i i' → record_sound i' = true.
Proof.
  unfold members_ready, enriched, record_sound.
  destruct (Attachments.is_filtered i) eqn:Hf; simpl.
  { intros _ ->. by rewrite Hf. }
  intros Hm (p & fn & flag & _ & _ & _ & _ & Hct & _ & Hfiles & Hframe).
  rewrite Hct. apply orb_true_iff. right.
  unfold members_sound in *. destruct flag.
  - destruct Hfiles as [found ->]. apply archived_file_sound.
  - by rewrite Hfiles.
Qed.

End addmetadata_data.

(** X14.  [run] on a collection in which no unfiltered record comes with
    an unsound member list: once the metadata pass has returned, the
    content-type filter cannot fail (every record it looks at has a content
    type by then), so [run] returns, and the collection is the enriched one
    without the records and members of the listed content types. *)
Theorem run_filter_cannot_fail E filter_cont_types w w1 :
  Forall (λ i, members_ready i = true) (data w) →
  Attachments._addmetadata E w = (Ok (), w1) →
  Attachments.run E filter_cont_types w =
    (Ok (),
     with_data (survivors (default [] filter_cont_types) (data w1)) w1).
Proof.
  intros Hready Hadd. unfold Attachments.run.
  erewrite bind_Ok by exact Hadd.
  assert (Forall (λ i, record_sound i = true) (data w1)) as Hsound.
  { pose proof (addmetadata_enriched E _ _ Hadd) as HF.
    induction HF as [|i i' l l' Hi _ IH]; [constructor|].
    apply Forall_cons in Hready as [Hr Hready].
    constructor; [by eapply enriched_sound|by apply IH]. }
  unfold Attachments.on_data, Attachments._filtercontenttypes.
  destruct filter_cont_types as [cts|]; simpl.
  - by rewrite filtercontenttypes_loop_sound.
  - done.
Qed.

(** A good archive through [run], with archives to be filtered out. *)
Lemma run_filter_cannot_fail_witness :
  Attachments.run sample_env (Some ["application/zip"])
    (world_with "PK-good") =
  (Ok (),
   with_data
     (survivors ["application/zip"]
        (data (Attachments._addmetadata sample_env
                 (world_with "PK-good")).2))
     (Attachments._addmetadata sample_env (world_with "PK-good")).2).
Proof.
  apply (run_filter_cannot_fail sample_env (Some ["application/zip"])
           (world_with "PK-good")).
  - apply Forall_cons_2; [vm_compute; reflexivity|apply Forall_nil_2].
  - assert ((Attachments._addmetadata sample_env (world_with "PK-good")).1
            = Ok ()) as H by (vm_compute; reflexivity).
    destruct (Attachments._addmetadata sample_env (world_with "PK-good"))
      as [r w']. simpl in H. by subst.
Defined.

(* ===================================================================== *)
(** ** The memo table of [check_archive] *)
(* ===================================================================== *)

Lemma lru_get_insert {K V} `{EqDecision K} (key : K) (v : V) cache :
  lru_get key (lru_insert key v cache) = Some v.
Proof. unfold lru_insert. simpl. by rewrite decide_True. Qed.



Lemma lru_get_without_ne {K V} `{EqDecision K} (key key' : K)
    (cache : list (K * V)) :
  key' ≠ key → lru_get key (lru_without key' cache) = lru_get key cache.
Proof.
  intros Hne. induction cache as [|[k v] cache IH]; simpl; [done|].
  destruct (decide (k = key')) as [->|Hk].
  - rewrite bool_decide_eq_true_2 by done. simpl.
    by rewrite decide_False by done.
  - rewrite bool_decide_eq_false_2 by done. simpl. by rewrite IH.
Qed.




(* ===================================================================== *)
(** ** [_addmetadata] on an archive that is attached twice *)
(* ===================================================================== *)

Section addmetadata_twice.
Context (E : env).
Hypothesis scratch_works :
  mkstemp_raises E = false ∧ write_raises E = false ∧
  mkdtemp_raises E = false.

Lemma metadata_attached p i w :
  attached E p i →
  ∃ size ext, Attachments._metadata E i w = (Ok (VStr p, size, ext), w).
Proof.
  intros (_ & [enc Henc] & Hp & fn & Hfn).
  unfold payload_bytes in Hp. unfold Attachments._metadata.
  destruct (i !! "payload") as [[[| | |s]|?]|] eqn:Hpl; try done.
  erewrite bind_Ok by (unfold item; by rewrite Henc).
  erewrite bind_Ok by (unfold item; by rewrite Hpl).
  rewrite value_eqb_str_iff.
  destruct (decide (enc = VStr "base64")) as [->|Hne].
  - rewrite bool_decide_eq_true_2 in Hp by done.
    rewrite bool_decide_eq_true_2 by done.
    erewrite bind_Ok.
    2: { simpl. rewrite Hp. reflexivity. }
    erewrite bind_Ok by reflexivity.
    erewrite bind_Ok by (unfold item; by rewrite Hfn).
    erewrite bind_Ok by reflexivity. eauto.
  - rewrite bool_decide_eq_false_2 in Hp by congruence.
    rewrite bool_decide_eq_false_2 by done.
    injection Hp as ->.
    erewrite bind_Ok by reflexivity.
    erewrite bind_Ok by reflexivity.
    erewrite bind_Ok by (unfold item; by rewrite Hfn).
    erewrite bind_Ok by reflexivity. eauto.
Qed.

(** The turn of the loop for an archive that [check_archive] has not seen:
    the sample is written, tested, unpacked and removed again, and the memo
    table keeps the path it had. *)
Lemma addmetadata_item_new_archive k i p found w :
  data w !! k = Some i → attached E p i →
  test_archive E p = true → extract_archive E p = Some found →
  lru_get (p, true) (archive_cache w) = None →
  ∃ w' i',
    Attachments._addmetadata_item E k w = (Ok (), w') ∧
    files w' = files w ∧ dirs w' = dirs w ∧
    archive_cache w' =
      lru_insert (p, true) (FlagAndPath true (fresh_path w)) (archive_cache w)
    ∧ data w' = <[k := i']> (data w).
Proof.
  destruct scratch_works as (H1 & H2 & H3).
  intros Hk Hatt Ht Hx Hmiss.
  destruct (metadata_attached p i w Hatt) as (size & ext & Hm).
  destruct Hatt as (Hf & _).
  unfold Attachments._addmetadata_item.
  erewrite bind_Ok by (unfold Attachments.get_item; by rewrite Hk).
  rewrite Hf. change (negb false) with true. cbv iota.
  erewrite bind_Ok by exact Hm. cbv beta iota.
  erewrite bind_Ok by reflexivity.
  erewrite bind_Ok.
  2: { rewrite check_archive_miss by done.
       rewrite is_archive_returns by done. rewrite Ht. reflexivity. }
  cbv beta iota.
  set (f := fresh_path w).
  set (w1 := with_archive_cache _ _).
  erewrite bind_Ok by reflexivity.
  set (w2 := with_data _ w1).
  assert (files w2 !! f = Some p) as Hf2 by apply lookup_insert_eq.
  set (q := fresh_path w2).
  assert (k < length (data w)) as Hlt by by eapply lookup_lt_Some.
  erewrite bind_Ok.
  2: { erewrite bind_Ok by reflexivity.
       erewrite bind_Ok by (by apply mkdtemp_ok).
       erewrite bind_Ok.
       2: { eapply patool_extract_ok;
              [exact Hf2|apply lookup_insert_eq|exact Hx]. }
       erewrite bind_Ok by reflexivity.
       erewrite bind_Ok.
       2: { simpl. rewrite lookup_insert_eq. simpl.
            eapply (for_append_file_data k _ found _ _ []).
            - simpl. rewrite list_alter_alter_eq.
              erewrite list_alter_lookup by exact Hk.
              by apply list_lookup_insert_eq.
            - apply lookup_insert_eq. }
       unfold ignore_OSError.
       erewrite rmtree_dir by apply lookup_insert_eq. reflexivity. }
  unfold ignore_OSError.
  erewrite os_remove_file by exact Hf2.
  eexists _, _. split; [reflexivity|]. simpl.
  split; [by rewrite delete_insert_id by apply fresh_path_files|].
  split.
  { rewrite delete_insert_eq, delete_insert_id; [done|].
    apply (fresh_path_dirs (with_data _ w2)). }
  split; [done|].
  rewrite list_alter_alter_eq. erewrite list_alter_lookup by exact Hk.
  by rewrite list_insert_insert_eq.
Qed.

(** The turn of the loop for an archive whose sample [check_archive]
    remembers, when the sample is gone: the directory for the members is
    made, and unpacking fails. *)
Lemma addmetadata_item_stale_archive k i p f w :
  data w !! k = Some i → attached E p i →
  lru_get (p, true) (archive_cache w) = Some (FlagAndPath true f) →
  files w !! f = None →
  ∃ w',
    Attachments._addmetadata_item E k w = (Raise PatoolError, w') ∧
    files w' = files w ∧ dirs w' = <[fresh_path w := []]> (dirs w).
Proof.
  destruct scratch_works as (H1 & H2 & H3).
  intros Hk Hatt Hhit Hgone.
  destruct (metadata_attached p i w Hatt) as (size & ext & Hm).
  destruct Hatt as (Hf & _).
  unfold Attachments._addmetadata_item.
  erewrite bind_Ok by (unfold Attachments.get_item; by rewrite Hk).
  rewrite Hf. change (negb false) with true. cbv iota.
  erewrite bind_Ok by exact Hm. cbv beta iota.
  erewrite bind_Ok by reflexivity.
  erewrite bind_Ok by (unfold check_archive; rewrite Hhit; reflexivity).
  cbv beta iota.
  erewrite bind_Ok by reflexivity.
  erewrite bind_Raise; cycle 1.
  { erewrite bind_Ok by reflexivity.
    erewrite bind_Ok by (by apply mkdtemp_ok).
    erewrite bind_Raise; [reflexivity|].
    unfold patool_extract. simpl. by rewrite Hgone. }
  eexists. split; [reflexivity|]. simpl. split; reflexivity.
Qed.

(** X16.  A collection of two unfiltered records with the same archive as
    payload, on a scratch area that works and with an archive tool that can
    unpack the archive.  [_addmetadata] unpacks the first record and fails
    on the second with the error of the archive tool: [check_archive]
    answers for the second record from its memo table, with the path of the
    sample that was removed at the end of the first turn.  The directory
    made for the members of the second record stays behind. *)
Theorem addmetadata_same_archive_twice p found i1 i2 w :
  data w = [i1; i2] → attached E p i1 → attached E p i2 →
  test_archive E p = true → extract_archive E p = Some found →
  lru_get (p, true) (archive_cache w) = None →
  ∃ w' d,
    Attachments._addmetadata E w = (Raise PatoolError, w') ∧
    files w' = files w ∧
    dirs w !! d = None ∧ dirs w' = <[d := []]> (dirs w).
Proof.
  intros Hd Ha1 Ha2 Ht Hx Hmiss.
  destruct (addmetadata_item_new_archive 0 i1 p found w)
    as (w1 & i1' & Hrun1 & Hf1 & Hd1 & Hc1 & Hdata1); try done.
  { by rewrite Hd. }
  destruct (addmetadata_item_stale_archive 1 i2 p (fresh_path w) w1)
    as (w2 & Hrun2 & Hf2 & Hd2); try done.
  { by rewrite Hdata1, Hd. }
  { rewrite Hc1. apply lru_get_insert. }
  { rewrite Hf1. apply fresh_path_files. }
  exists w2, (fresh_path w1). split.
  - unfold Attachments._addmetadata.
    erewrite bind_Ok by reflexivity. rewrite Hd. simpl.
    erewrite bind_Ok by exact Hrun1.
    by erewrite bind_Raise by exact Hrun2.
  - split; [congruence|]. split; [|congruence].
    rewrite <-Hd1. apply fresh_path_dirs.
Qed.

End addmetadata_twice.

(** The same good archive, attached twice. *)
Lemma addmetadata_same_archive_twice_witness :
  ∃ w' d,
    Attachments._addmetadata sample_env attached_twice
      = (Raise PatoolError, w') ∧
    files w' = files attached_twice ∧
    dirs attached_twice !! d = None ∧
    dirs w' = <[d := []]> (dirs attached_twice).
Proof.
  assert (attached sample_env "PK-good" (raw_attachment "PK-good")) as Ha.
  { split; [vm_compute; reflexivity|].
    split; [eexists; vm_compute; reflexivity|].
    split; [vm_compute; reflexivity|].
    eexists. vm_compute. reflexivity. }
  apply (addmetadata_same_archive_twice sample_env
           (conj eq_refl (conj eq_refl eq_refl)) "PK-good"
           [("index.html", "<html></html>"); ("notes.txt", "hello")]
           (raw_attachment "PK-good") (raw_attachment "PK-good")
           attached_twice); first [exact Ha | reflexivity].
Defined.
(* ===================================================================== *)
(** ** What [_addmetadata] writes into the records *)
(* ===================================================================== *)

Lemma lru_get_take {K V} `{EqDecision K} (key : K) n (cache : list (K * V))
    v :
  lru_get key (take n cache) = Some v → lru_get key cache = Some v.
Proof.
  revert n. induction cache as [|[k x] cache IH]; intros [|n]; simpl;
    try done.
  destruct (decide (k = key)); [done|apply IH].
Qed.

Lemma lru_get_without_eq {K V} `{EqDecision K} (key : K)
    (cache : list (K * V)) :
  lru_get key (lru_without key cache) = None.
Proof.
  induction cache as [|[k v] cache IH]; simpl; [done|].
  destruct (decide (k = key)) as [->|Hk].
  - by rewrite bool_decide_eq_true_2 by done.
  - rewrite bool_decide_eq_false_2 by done. simpl.
    by rewrite decide_False by done.
Qed.

(** A loop over the indices of the collection whose body replaces the
    record at its index and keeps an invariant of the world. *)
Lemma for_items_inv (I : world → Prop) (R : record → record → Prop)
    (body : nat → M unit) a m w w' :
  (∀ k w w', I w → body k w = (Ok (), w') →
     (∃ i i', data w !! k = Some i ∧ R i i' ∧
              data w' = <[k := i']> (data w)) ∧ I w') →
  I w →
  for_ (seq a m) body w = (Ok (), w') →
  length (data w') = length (data w) ∧
  ∀ j x y, data w !! j = Some x → data w' !! j = Some y →
    (a ≤ j < a + m → R x y) ∧ (¬ (a ≤ j < a + m) → y = x).
Proof.
  intros Hbody. revert a w.
  induction m as [|m IH]; intros a w HI; simpl.
  { intros [= <-]. split; [done|]. intros j x y Hx Hy.
    split; [lia|]. intros _. congruence. }
  intros ([] & w1 & H1 & H2)%bind_Ok_inv.
  destruct (Hbody _ _ _ HI H1) as [(i & i' & Hi & HR & Hd1) HI1].
  destruct (IH _ _ HI1 H2) as [Hlen Hrest]. rewrite Hd1 in Hlen, Hrest.
  rewrite length_insert in Hlen. split; [done|].
  intros j x y Hx Hy. destruct (decide (j = a)) as [->|Hne].
  - assert (x = i) as -> by congruence.
    destruct (Hrest a i' y) as [_ Hy']; [|done|].
    { apply list_lookup_insert_eq. by eapply lookup_lt_Some. }
    rewrite Hy' by lia. split; [done|lia].
  - destruct (Hrest j x y) as [Hin Hout]; [|done|].
    { by rewrite list_lookup_insert_ne. }
    split; [intros ?; apply Hin; lia|intros ?; apply Hout; lia].
Qed.

Section addmetadata_exact.
Context (E : env).

(** A call of [check_archive] for a sample to be written, on a memo table
    that is in step: the flag is the answer of the archive test; the path
    named no file before the call; the sample is under that path now if it
    was written by this call, and the scratch area is as it was if the
    answer came from the table.  The paths of the table name no file of the
    scratch area as it was before the call. *)
Lemma check_archive_in_step p flag f w w4 :
  cache_in_step E w →
  check_archive E p true w = (Ok (FlagAndPath flag f), w4) →
  flag = test_archive E p ∧ files w !! f = None ∧
  (files w4 = files w ∨ files w4 = <[f := p]> (files w)) ∧
  ∀ p' flag' f',
    lru_get (p', true) (archive_cache w4) = Some (FlagAndPath flag' f') →
    flag' = test_archive E p' ∧ files w !! f' = None.
Proof.
  intros Hstep. unfold check_archive.
  destruct (lru_get (p, true) (archive_cache w)) as [v|] eqn:Hget.
  - intros [= -> <-]. destruct (Hstep _ _ _ Hget) as [-> Hnone].
    split; [done|]. split; [done|]. split; [by left|].
    intros p' flag' f'. simpl.
    destruct (decide ((p, true) = (p', true))) as [[= <-]|Hne].
    + intros [= <- <-]. done.
    + rewrite lru_get_without_ne by done. apply Hstep.
  - unfold check_archive_wrapped, mkstemp, write_file, patool_test.
    destruct (mkstemp_raises E); [done|].
    destruct (write_raises E); [done|]. simpl.
    rewrite lookup_insert_eq.
    assert (files w !! fresh_path w = None) as Hfresh
      by apply fresh_path_files.
    assert (∀ p' flag' f',
              lru_get (p', true)
                (lru_insert (p, true)
                   (FlagAndPath (test_archive E p) (fresh_path w))
                   (archive_cache w)) = Some (FlagAndPath flag' f') →
              flag' = test_archive E p' ∧ files w !! f' = None) as Hnew.
    { intros p' flag' f'. unfold lru_insert. simpl.
      destruct (decide ((p, true) = (p', true))) as [[= <-]|Hne].
      - by intros [= <- <-].
      - intros Hin%lru_get_take. by apply Hstep. }
    destruct (test_archive E p); intros [= <- <- <-]; simpl;
      (split; [done|]); (split; [done|]);
      (split; [right; by rewrite insert_insert_eq|exact Hnew]).
Qed.

Lemma mkdtemp_inv q w w' :
  mkdtemp E w = (Ok q, w') →
  q = fresh_path w ∧ w' = with_dirs (<[q := []]> (dirs w)) w.
Proof.
  unfold mkdtemp. destruct (mkdtemp_raises E); [done|]. by intros [= <- <-].
Qed.

Lemma patool_extract_inv f d w w' :
  patool_extract E f d w = (Ok (), w') →
  ∃ x found, files w !! f = Some x ∧ extract_archive E x = Some found ∧
             w' = with_dirs (<[d := found]> (dirs w)) w.
Proof.
  unfold patool_extract.
  destruct (files w !! f) as [x|]; [|done].
  destruct (dirs w !! d); [|done].
  destruct (extract_archive E x) as [found|] eqn:Hx; [|done].
  intros [= <-]. eauto.
Qed.

Lemma ignore_rmtree_inv d w w' :
  ignore_OSError (rmtree d) w = (Ok (), w') →
  files w' = files w ∧ archive_cache w' = archive_cache w ∧
  data w' = data w.
Proof.
  unfold ignore_OSError, rmtree. destruct (dirs w !! d); by intros [= <-].
Qed.

Lemma ignore_os_remove_inv f w w' :
  ignore_OSError (os_remove f) w = (Ok (), w') →
  files w' = delete f (files w) ∧ archive_cache w' = archive_cache w ∧
  data w' = data w.
Proof.
  unfold ignore_OSError, os_remove.
  destruct (files w !! f) eqn:Hf; intros [= <-]; [done|].
  by rewrite delete_id.
Qed.

(** One turn of the loop of [_addmetadata] that ends normally, on a memo
    table that is in step. *)
Lemma addmetadata_item_exact k w w' :
  cache_in_step E w →
  Attachments._addmetadata_item E k w = (Ok (), w') →
  (∃ i i', data w !! k = Some i ∧ with_metadata E i i' ∧
           data w' = <[k := i']> (data w)) ∧
  cache_in_step E w'.
Proof.
  intros Hstep. unfold Attachments._addmetadata_item.
  intros (i & w1 & Hget & H)%bind_Ok_inv.
  unfold Attachments.get_item in Hget.
  destruct (data w !! k) as [i0|] eqn:Hk; [|done]. injection Hget as -> <-.
  destruct (Attachments.is_filtered i) eqn:Hf; simpl in H.
  { injection H as <-. split; [|done]. exists i, i. split; [done|].
    split; [unfold with_metadata; by rewrite Hf|by rewrite list_insert_id]. }
  apply bind_Ok_inv in H as ([[payload size] ext] & w2 & Hm & H).
  pose proof (metadata_world _ _ _ _ _ Hm) as ->.
  apply bind_Ok_inv in H as (s & w3 & Hs & H).
  destruct (metadata_Ok _ _ _ _ _ _ _ _ _ Hm Hs) as (Hp & -> & fn & Hfn & ->).
  assert (w3 = w) as ->.
  { unfold Attachments.as_string in Hs.
    destruct payload as [[| | |?]|?]; by injection Hs. }
  apply bind_Ok_inv in H as (v & w4 & Hchk & H).
  destruct v as [?|flag f]; [done|].
  destruct (check_archive_in_step _ _ _ _ _ Hstep Hchk)
    as (-> & Hfnone & Hfiles4 & Hcache4).
  pose proof (check_archive_data _ _ _ _ _ _ Hchk) as Hd4.
  apply bind_Ok_inv in H as ([] & w5 & Hu & H).
  unfold Attachments.update_item in Hu. injection Hu as <-.
  rewrite Hd4, (list_alter_lookup _ _ _ _ Hk) in H.
  apply bind_Ok_inv in H as ([] & w6 & Hblock & Hrm).
  destruct (ignore_os_remove_inv _ _ _ Hrm) as (Hf7 & Hc7 & Hd7).
  set (i1 := <["is_archive" := _]> _) in Hblock.
  assert (k < length (data w)) as Hlt by by eapply lookup_lt_Some.
  assert (∀ i' : record,
            (∀ key, key ≠ "files" → i' !! key = i1 !! key) →
            (if test_archive E s
             then ∃ found,
               extract_archive E s = Some found ∧
               i' !! "files" =
                 Some (VFiles (Attachments.archived_file E <$> found))
             else i' !! "files" = i !! "files") →
            with_metadata E i i') as Hpost.
  { intros i' Hi' Hfl. unfold with_metadata. rewrite Hf. exists s, fn.
    split; [done|]. split; [done|].
    rewrite !Hi' by done. subst i1.
    split; [by rewrite !lookup_insert_ne, lookup_insert_eq by done|].
    split; [by rewrite !lookup_insert_ne, lookup_insert_eq by done|].
    split; [by rewrite !lookup_insert_ne, lookup_insert_eq by done|].
    split; [by rewrite lookup_insert_eq|]. split; [done|].
    intros key (? & ? & ? & ? & ?)%metadata_key_false.
    rewrite Hi' by done. by rewrite !lookup_insert_ne. }
  assert (files w6 = files w4 ∧ archive_cache w6 = archive_cache w4 ∧
          ∃ i', data w6 = <[k := i']> (data w) ∧ with_metadata E i i')
    as (Hf6 & Hc6 & i' & Hd6 & Hwm).
  { destruct (test_archive E s) eqn:Ht.
    - apply bind_Ok_inv in Hblock as ([] & wa & Hu & H).
      unfold Attachments.update_item in Hu. injection Hu as <-. simpl in H.
      rewrite (list_alter_lookup _ _ k i1) in H
        by by apply list_lookup_insert_eq.
      rewrite list_insert_insert_eq in H.
      apply bind_Ok_inv in H as (q & wb & [-> ->]%mkdtemp_inv & H).
      apply bind_Ok_inv in H
        as ([] & wc & (x & found & Hx & Hex & ->)%patool_extract_inv & H).
      simpl in Hx.
      assert (x = s) as ->.
      { destruct Hfiles4 as [Heq|Heq]; rewrite Heq in Hx; [congruence|].
        rewrite lookup_insert_eq in Hx. congruence. }
      apply bind_Ok_inv in H as (found' & wd & Hwalk & H).
      unfold walk in Hwalk. simpl in Hwalk.
      rewrite lookup_insert_eq in Hwalk. injection Hwalk as <- <-.
      apply bind_Ok_inv in H as ([] & we & Hfor & Hrt).
      rewrite (for_append_file_data k _ found _
                 (<["files" := VFiles []]> i1) []) in Hfor.
      2: { simpl. by apply list_lookup_insert_eq. }
      2: { apply lookup_insert_eq. }
      injection Hfor as <-.
      destruct (ignore_rmtree_inv _ _ _ Hrt) as (Hf6 & Hc6 & Hd6).
      simpl in *. split; [done|]. split; [done|].
      eexists. split.
      { rewrite Hd6, list_insert_insert_eq, insert_insert_eq. reflexivity. }
      apply Hpost.
      + intros key Hkey. by rewrite lookup_insert_ne.
      + exists found. by rewrite lookup_insert_eq.
    - injection Hblock as <-. simpl. split; [done|]. split; [done|].
      exists i1. split; [done|]. apply Hpost; [done|].
      subst i1. by rewrite !lookup_insert_ne. }
  split.
  - exists i, i'. by rewrite Hd7.
  - intros p' flag' f'. rewrite Hc7, Hc6. intros Hin.
    destruct (Hcache4 _ _ _ Hin) as [-> Hnone]. split; [done|].
    rewrite Hf7, Hf6. apply lookup_delete_None.
    destruct Hfiles4 as [->| ->]; [by right|].
    destruct (decide (f = f')) as [|Hne]; [by left|right].
    by rewrite lookup_insert_ne.
Qed.

(** The collection after a pass of [_addmetadata] that returned, on a memo
    table that is in step. *)
Lemma addmetadata_exact w w' :
  cache_in_step E w →
  Attachments._addmetadata E w = (Ok (), w') →
  Forall2 (with_metadata E) (data w) (data w').
Proof.
  intros Hstep. unfold Attachments._addmetadata.
  intros (w0 & w1 & [= <- <-] & H)%bind_Ok_inv.
  destruct (for_items_inv (cache_in_step E) (with_metadata E) _ _ _ _ _
              addmetadata_item_exact Hstep H) as [Hlen Hall].
  apply Forall2_same_length_lookup. split; [done|].
  intros j x y Hx Hy. apply (Hall j x y Hx Hy).
  apply lookup_lt_Some in Hx. lia.
Qed.

End addmetadata_exact.

(** X13.  What a pass of [_addmetadata] that returns has done to the
    collection, when the memo table of [check_archive] is in step with the
    archive tool and the scratch area at the start (as an empty table is).
    The records are the same in number and order; a record marked filtered
    is untouched; every other record has got the extension of its file
    name, the size and the content type of its payload bytes (decoded first
    when the record says base64), and as archive flag the answer of the
    archive test on those bytes; when they are an archive, its member list
    is rebuilt from the files the archive tool unpacks from them, one member
    for each file in their order, and otherwise its member list is as it
    was; nothing else in it has changed. *)
Theorem addmetadata_enriches_every_record E w w' :
  cache_in_step E w →
  Attachments._addmetadata E w = (Ok (), w') →
  Forall2 (with_metadata E) (data w) (data w').
Proof. apply addmetadata_exact. Qed.

(** A good archive through the metadata pass, with an empty memo table. *)
Lemma addmetadata_enriches_every_record_witness :
  Forall2 (with_metadata sample_env) (data (world_with "PK-good"))
    (data (Attachments._addmetadata sample_env (world_with "PK-good")).2).
Proof.
  apply (addmetadata_enriches_every_record sample_env (world_with "PK-good")).
  - intros p flag f Hin. done.
  - assert ((Attachments._addmetadata sample_env (world_with "PK-good")).1
            = Ok ()) as H by (vm_compute; reflexivity).
    destruct (Attachments._addmetadata sample_env (world_with "PK-good"))
      as [r w']. simpl in H. by subst.
Defined.

(** The good archive as the pass leaves it: its members are a page and a
    note, in the order the archive tool unpacked them. *)
Example addmetadata_members_of_good_archive :
  data (Attachments._addmetadata sample_env (world_with "PK-good")).2 =
    [ <["files" := VFiles (Attachments.archived_file sample_env <$>
                             [("index.html", "<html></html>");
                              ("notes.txt", "hello")])]>
        (<["is_archive" := VTrue]>
           (<["Content-Type" := VStr "application/zip"]>
              (<["size" := VAtom (AInt 7)]>
                 (<["extension" := VStr ".zip"]>
                    (raw_attachment "PK-good"))))) ].
Proof. apply (bool_decide_unpack _). vm_compute. exact I. Qed.
(* ===================================================================== *)
(** ** The scratch area when unpacking fails *)
(* ===================================================================== *)

Section extraction_fails.
Context (E : env).
Hypothesis scratch_works :
  mkstemp_raises E = false ∧ write_raises E = false ∧
  mkdtemp_raises E = false.

(** The turn of the loop of [_addmetadata] for an archive that
    [check_archive] has not seen and that the archive tool cannot unpack:
    the sample is written and tested, the directory for the members is made,
    and the error of the archive tool ends the turn there. *)
Lemma addmetadata_item_extract_raises k i p w :
  data w !! k = Some i → attached E p i →
  test_archive E p = true → extract_archive E p = None →
  lru_get (p, true) (archive_cache w) = None →
  ∃ w',
    Attachments._addmetadata_item E k w = (Raise PatoolError, w') ∧
    files w' = <[fresh_path w := p]> (files w) ∧
    dirs w' =
      <[fresh_path (with_files (<[fresh_path w := p]> (files w)) w) := []]>
        (dirs w).
Proof.
  destruct scratch_works as (H1 & H2 & H3).
  intros Hk Hatt Ht Hx Hmiss.
  destruct (metadata_attached E p i w Hatt) as (size & ext & Hm).
  destruct Hatt as (Hf & _).
  unfold Attachments._addmetadata_item.
  erewrite bind_Ok by (unfold Attachments.get_item; by rewrite Hk).
  rewrite Hf. change (negb false) with true. cbv iota.
  erewrite bind_Ok by exact Hm. cbv beta iota.
  erewrite bind_Ok by reflexivity.
  erewrite bind_Ok.
  2: { rewrite check_archive_miss by done.
       rewrite is_archive_returns by done. rewrite Ht. reflexivity. }
  cbv beta iota.
  erewrite bind_Ok by reflexivity.
  erewrite bind_Raise; cycle 1.
  { erewrite bind_Ok by reflexivity.
    erewrite bind_Ok by (by apply mkdtemp_ok).
    erewrite bind_Raise; [reflexivity|].
    eapply patool_extract_raises;
      [apply lookup_insert_eq|apply lookup_insert_eq|exact Hx]. }
  eexists. split; [reflexivity|]. simpl. split; reflexivity.
Qed.

End extraction_fails.

(** ** C3 *)

(** C3 (the code departs from it).  The scratch file and the scratch
    directory are not removed on every exit.  When the sample passes the
    archive test and the archive tool then gives up unpacking it, the
    error of the tool gets out of [_create_sample_result] and out of
    [_addmetadata], and the lines that remove the scratch directory and the
    scratch file are never reached: the file with the sample and the
    directory made for its members, neither of which was there before, are
    still there afterwards. *)
Theorem scratch_left_when_extraction_fails (E : env) (p : string) :
  mkstemp_raises E = false → write_raises E = false →
  mkdtemp_raises E = false →
  test_archive E p = true → extract_archive E p = None →
  (∀ fn mct te w,
     ∃ w' file_ temp_dir,
       SampleParser._create_sample_result E p fn mct te w
         = (Raise PatoolError, w') ∧
       files w !! file_ = None ∧ files w' !! file_ = Some p ∧
       dirs w !! temp_dir = None ∧ dirs w' !! temp_dir = Some []) ∧
  (∀ i rest w,
     data w = i :: rest → attached E p i →
     lru_get (p, true) (archive_cache w) = None →
     ∃ w' file_ temp_dir,
       Attachments._addmetadata E w = (Raise PatoolError, w') ∧
       files w !! file_ = None ∧ files w' !! file_ = Some p ∧
       dirs w !! temp_dir = None ∧ dirs w' !! temp_dir = Some []).
Proof.
  intros H1 H2 H3 Ht Hx. split.
  - intros fn mct te w.
    set (w1 := with_files (<[fresh_path w := p]> (files w)) w).
    eexists _, (fresh_path w), (fresh_path w1).
    split; [by apply create_sample_result_extract_raises|]. simpl.
    split; [apply fresh_path_files|]. split; [apply lookup_insert_eq|].
    split; [apply (fresh_path_dirs w1)|apply lookup_insert_eq].
  - intros i rest w Hd Hatt Hmiss.
    destruct (addmetadata_item_extract_raises E (conj H1 (conj H2 H3))
                0 i p w) as (w' & Hrun & Hf & Hdirs); try done.
    { by rewrite Hd. }
    set (w1 := with_files (<[fresh_path w := p]> (files w)) w) in Hdirs.
    exists w', (fresh_path w), (fresh_path w1). split.
    { unfold Attachments._addmetadata.
      erewrite bind_Ok by reflexivity. rewrite Hd. simpl.
      by erewrite bind_Raise by exact Hrun. }
    rewrite Hf, Hdirs.
    split; [apply fresh_path_files|]. split; [apply lookup_insert_eq|].
    split; [apply (fresh_path_dirs w1)|apply lookup_insert_eq].
Qed.

(** A truncated archive, as a sample of the sample parser and as the only
    attachment of a collection. *)
Lemma scratch_left_when_extraction_fails_witness :
  (∃ w' file_ temp_dir,
     SampleParser._create_sample_result sample_env "PK-truncated"
       (AStr "docs.zip") ANone (AStr "base64") empty_world
       = (Raise PatoolError, w') ∧
     files empty_world !! file_ = None ∧
     files w' !! file_ = Some "PK-truncated" ∧
     dirs empty_world !! temp_dir = None ∧ dirs w' !! temp_dir = Some []) ∧
  (∃ w' file_ temp_dir,
     Attachments._addmetadata sample_env (world_with "PK-truncated")
       = (Raise PatoolError, w') ∧
     files (world_with "PK-truncated") !! file_ = None ∧
     files w' !! file_ = Some "PK-truncated" ∧
     dirs (world_with "PK-truncated") !! temp_dir = None ∧
     dirs w' !! temp_dir = Some []).
Proof.
  assert (attached sample_env "PK-truncated" (raw_attachment "PK-truncated"))
    as Ha.
  { split; [vm_compute; reflexivity|].
    split; [eexists; vm_compute; reflexivity|].
    split; [vm_compute; reflexivity|].
    eexists. vm_compute. reflexivity. }
  destruct (scratch_left_when_extraction_fails sample_env "PK-truncated")
    as [Hsample Hcollection]; try reflexivity.
  split.
  - apply Hsample.
  - apply (Hcollection (raw_attachment "PK-truncated") []);
      [reflexivity|exact Ha|reflexivity].
Defined.

(** The run on the truncated archive: the sample is file 0 and the
    directory made for its members is directory 1. *)
Example create_sample_result_leaves_scratch :
  (SampleParser._create_sample_result sample_env "PK-truncated"
     (AStr "docs.zip") ANone (AStr "base64") empty_world).1
    = Raise PatoolError ∧
  files (SampleParser._create_sample_result sample_env "PK-truncated"
           (AStr "docs.zip") ANone (AStr "base64") empty_world).2 !! 0%nat
    = Some "PK-truncated" ∧
  dirs (SampleParser._create_sample_result sample_env "PK-truncated"
          (AStr "docs.zip") ANone (AStr "base64") empty_world).2 !! 1%nat
    = Some [].
Proof. repeat split; vm_compute; reflexivity. Qed.

Example addmetadata_leaves_scratch :
  (Attachments._addmetadata sample_env (world_with "PK-truncated")).1
    = Raise PatoolError ∧
  files (Attachments._addmetadata sample_env (world_with "PK-truncated")).2
    !! 0%nat = Some "PK-truncated" ∧
  dirs (Attachments._addmetadata sample_env (world_with "PK-truncated")).2
    !! 1%nat = Some [].
Proof. repeat split; vm_compute; reflexivity. Qed.

(** The same sample unpacked without error: the sibling path on which the
    code does clean up, and the scratch area is as it was. *)
Example create_sample_result_cleans_up_after_success :
  (SampleParser._create_sample_result sample_env "PK-good"
     (AStr "docs.zip") ANone (AStr "base64") empty_world).1 = Ok () ∧
  same_scratch empty_world
    (SampleParser._create_sample_result sample_env "PK-good"
       (AStr "docs.zip") ANone (AStr "base64") empty_world).2.
Proof. split; [|split]; vm_compute; reflexivity. Qed.

(* ===================================================================== *)
(** ** [parse_sample]: what is computed, and who is asked *)
(* ===================================================================== *)

Section parse_sample_run.
Context (E : env) (self : sample_parser).
Hypothesis b64 : b64_roundtrip E.

Lemma filter_all {A} (P : A → bool) l :
  (∀ x, P x = true) → List.filter P l = l.
Proof.
  intros HP. induction l as [|x l IH]; simpl; [done|]. by rewrite HP, IH.
Qed.

(** [_remove_content_type] when the content type of the sample is not in
    the blacklist, be the blacklist empty or not. *)
Lemma remove_content_type_allowed ct r (b : bool) found w :
  _result w = Some r → r !! "Content-Type" = Some (VStr ct) →
  ct ∉ blacklist_content_types self →
  r !! "is_archive" = Some (VAtom (ABool b)) →
  (if b then r !! "files" = Some (VFiles (member_sniffed E <$> found))
   else True) →
  SampleParser._remove_content_type self w =
    (Ok (),
     with_result
       (Some ((if b
               then <["files" := VFiles (member_sniffed E <$>
                                           kept E self found)]>
               else id) r)) w).
Proof.
  intros Hr Hct Hin Ha Hf.
  destruct (decide (blacklist_content_types self = ∅)) as [Hempty|Hne].
  - unfold SampleParser._remove_content_type.
    rewrite bool_decide_eq_false_2 by (by intros ?).
    unfold kept. rewrite filter_all.
    2: { intros x. unfold file_allowed. rewrite Hempty.
         by rewrite bool_decide_eq_false_2 by set_solver. }
    destruct b; simpl; rewrite ?insert_id by done;
      destruct w; simpl in *; by subst.
  - by eapply remove_content_type_members.
Qed.

Lemma add_tika_exact r p w :
  _result w = Some r →
  r !! "Content-Type" = Some (VStr (from_buffer E p)) →
  r !! "payload" = Some (VStr (b64encode E p)) →
  (if tika_enabled self then SampleParser._add_tika_meta_data E self
   else mret ()) w =
    (Ok (),
     if tika_wanted E self p
     then with_result
            (Some (<["tika" := VAtom (extract_all_content E (b64encode E p))]>
                     r))
            (with_calls (calls w ++ [TikaExtract (b64encode E p)]) w)
     else w).
Proof.
  intros Hr Hct Hp. unfold tika_wanted.
  destruct (tika_enabled self); [|done]. simpl.
  unfold SampleParser._add_tika_meta_data.
  erewrite bind_Ok by (by apply get_result_Some).
  erewrite bind_Ok by (by apply item_Some).
  erewrite bind_Ok by apply in_set_str.
  destruct (bool_decide (from_buffer E p ∈ tika_content_types self)); [|done].
  erewrite bind_Ok by (by apply item_Some). cbv beta iota.
  erewrite bind_Ok by reflexivity.
  unfold SampleParser.update_result.
  erewrite bind_Ok by (by apply get_result_Some). reflexivity.
Qed.

Lemma add_virustotal_exact key r h (b : bool) xs w :
  virustotal_api_key self = Some key → key ≠ "" →
  _result w = Some r →
  r !! "sha1" = Some (VStr h) →
  r !! "is_archive" = Some (VAtom (ABool b)) →
  (if b then r !! "files" = Some (VFiles (member_hashed E <$> xs))
   else xs = []) →
  SampleParser._add_virustotal_output E self w =
    (Ok (),
     with_result
       (Some ((if b then <["files" := VFiles (member_reported E <$> xs)]>
               else id)
                (if atom_truthy (get_file_report E h)
                 then <["virustotal" := VAtom (get_file_report E h)]> r
                 else r)))
       (with_calls
          (calls w ++ VtReport h :: (VtReport ∘ hashlib_sha1 E ∘ snd <$> xs))
          w)).
Proof.
  intros Hkey Hne Hr Hs Ha Hf. unfold SampleParser._add_virustotal_output.
  rewrite Hkey. destruct key as [|c key]; [done|].
  erewrite bind_Ok by (by apply get_result_Some).
  erewrite bind_Ok by (by apply item_Some). cbv beta iota.
  erewrite bind_Ok by reflexivity.
  set (report := get_file_report E h).
  set (r1 := if atom_truthy report then <["virustotal" := VAtom report]> r
             else r).
  set (w1 := with_result (Some r1) (with_calls (calls w ++ [VtReport h]) w)).
  assert (∀ k, k ≠ "virustotal" → r1 !! k = r !! k) as Hr1.
  { intros k Hk. subst r1. destruct (atom_truthy report); [|done].
    by rewrite lookup_insert_ne. }
  erewrite (bind_Ok _ _ _ () w1).
  2: { subst w1 r1. destruct (atom_truthy report).
       - unfold SampleParser.update_result.
         erewrite bind_Ok by (by apply get_result_Some). reflexivity.
       - destruct w; simpl in *. by subst. }
  erewrite bind_Ok by (by apply get_result_Some).
  erewrite bind_Ok by (apply item_Some; by rewrite Hr1).
  destruct b; simpl.
  - erewrite (for_files_map _ (member_hashed E) (member_reported E)
                (λ x, [VtReport (hashlib_sha1 E x.2)]));
      [| reflexivity | by rewrite Hr1 |].
    + simpl. rewrite concat_singletons, <-app_assoc. by destruct w.
    + intros x w'.
      erewrite bind_Ok.
      2: { apply item_Some. unfold member_hashed. by simplify_map_eq. }
      erewrite bind_Ok by reflexivity.
      unfold member_reported.
      by destruct (atom_truthy (get_file_report E (hashlib_sha1 E x.2))).
  - subst xs. simpl. by destruct w.
Qed.

(** The whole run, for a sample that the blacklist lets through, on a
    scratch area and with an archive tool that work. *)
Lemma parse_sample_runs data fn mct te found w :
  mkstemp_raises E = false → write_raises E = false →
  (if test_archive E data
   then mkdtemp_raises E = false ∧ extract_archive E data = Some found
   else found = []) →
  from_buffer E data ∉ blacklist_content_types self →
  virustotal_ready self →
  ∃ w' r,
    SampleParser.parse_sample E self data fn mct te w = (Ok (), w') ∧
    calls w' = calls w ++ expected_calls E self data found ∧
    files w' = files w ∧ dirs w' = dirs w ∧
    _result w' = Some r ∧
    (∀ k, hash_key k = true → r !! k = Some (VStr (digest E k data))) ∧
    r !! "payload" = Some (VStr (b64encode E data)) ∧
    r !! "files" =
      (if test_archive E data
       then Some (VFiles (member_parsed E self <$> kept E self found))
       else None) ∧
    r !! "tika" =
      (if tika_wanted E self data
       then Some (VAtom (extract_all_content E (b64encode E data)))
       else None) ∧
    r !! "virustotal" =
      (if virustotal_enabled self &&
          atom_truthy (get_file_report E (hashlib_sha1 E data))
       then Some (VAtom (get_file_report E (hashlib_sha1 E data)))
       else None).
Proof.
  intros H1 H2 H3 Hnin Hvt.
  pose proof (create_sample_result_ok E data fn mct te found w H1 H2 H3)
    as Hc.
  assert (test_archive E data = false → found = []) as Hnil.
  { intros Hb. by rewrite Hb in H3. }
  set (b := test_archive E data) in *.
  set (r0 := (if b then <["files" := VFiles (SampleParser.archived_file E <$> found)]>
              else id) (basic_result E data fn mct te)) in *.
  assert (∀ k, k ≠ "files" → r0 !! k = basic_result E data fn mct te !! k)
    as Hk0.
  { intros k Hk. subst r0. destruct b; simpl; [|done].
    by rewrite lookup_insert_ne. }
  assert (r0 !! "payload" = Some (VStr (b64encode E data))) as Hp0
    by (by rewrite Hk0).
  assert (r0 !! "is_archive" = Some (VAtom (ABool b))) as Ha0
    by (by rewrite Hk0).
  assert (r0 !! "tika" = None) as Ht0 by (by rewrite Hk0).
  assert (r0 !! "virustotal" = None) as Hv0 by (by rewrite Hk0).
  assert (if b then r0 !! "files" =
                      Some (VFiles (SampleParser.archived_file E <$> found))
          else found = []) as Hf0.
  { subst r0. destruct b eqn:Hb; [by simplify_map_eq|by apply Hnil]. }
  assert (b = false → r0 !! "files" = None) as Hf0'.
  { intros Hb. subst r0. rewrite Hb. done. }
  set (w1 := with_result (Some r0) w) in *.
  pose proof (add_content_type_ok E b64 data r0 b found w1 eq_refl Hp0 Ha0 Hf0)
    as Hs.
  set (r1 := (if b then <["files" := VFiles (member_sniffed E <$> found)]>
              else id) (<["Content-Type" := VStr (from_buffer E data)]> r0))
    in *.
  set (w2 := with_result (Some r1)
               (with_calls (calls w1 ++ Sniffed data :: (Sniffed ∘ snd <$> found))
                  w1)) in *.
  assert (r1 !! "Content-Type" = Some (VStr (from_buffer E data))) as Hct1.
  { subst r1. destruct b; simpl;
      by rewrite ?(lookup_insert_ne _ "files"), lookup_insert_eq by done. }
  assert (∀ k, k ≠ "files" → k ≠ "Content-Type" → r1 !! k = r0 !! k) as Hk1.
  { intros k ??. subst r1. destruct b; simpl;
      by rewrite !lookup_insert_ne by done. }
  assert (if b then r1 !! "files" = Some (VFiles (member_sniffed E <$> found))
          else True) as Hf1.
  { subst r1. destruct b; by simplify_map_eq. }
  assert (b = false → r1 !! "files" = None) as Hf1'.
  { intros Hb. subst r1. rewrite Hb. simpl. rewrite lookup_insert_ne by done.
    by apply Hf0'. }
  unfold SampleParser.parse_sample.
  erewrite bind_Ok by exact Hc. erewrite bind_Ok by exact Hs.
  set (xs := kept E self found).
  set (r2 := (if b then <["files" := VFiles (member_sniffed E <$> xs)]>
              else id) r1).
  erewrite bind_Ok.
  2: { eapply (remove_content_type_allowed _ r1 b found w2 eq_refl Hct1 Hnin);
         [by rewrite Hk1|exact Hf1]. }
  fold xs. fold r2.
  assert (∀ k, k ≠ "files" → r2 !! k = r1 !! k) as Hk2.
  { intros k ?. subst r2. destruct b; by simplify_map_eq. }
  assert (if b then r2 !! "files" = Some (VFiles (member_sniffed E <$> xs))
          else True) as Hf2.
  { subst r2. destruct b; by simplify_map_eq. }
  assert (b = false → r2 !! "files" = None) as Hf2'.
  { intros Hb. subst r2. rewrite Hb. by apply Hf1'. }
  set (w3 := with_result (Some r2) w2).
  erewrite bind_Ok.
  2: { eapply (result_truthy_Some r2 "Content-Type"); [reflexivity|].
       by rewrite Hk2. }
  cbv beta iota.
  erewrite bind_Ok.
  2: { eapply (add_fingerprints_ok E b64 data r2 b xs w3 eq_refl);
         [| |exact Hf2].
       - by rewrite Hk2, Hk1.
       - by rewrite Hk2, Hk1. }
  set (r3 := (if b then <["files" := VFiles (member_hashed E <$> xs)]>
              else id) (hashed E data r2)).
  set (w4 := with_result (Some r3) _).
  assert (∀ k, k ≠ "files" → hash_key k = false → r3 !! k = r2 !! k)
    as Hk3.
  { intros k Hk Hh. subst r3. unfold hashed, hash_key in *.
    repeat (apply orb_false_iff in Hh as [Hh ?%String.eqb_neq]).
    apply String.eqb_neq in Hh.
    destruct b; simpl; by rewrite !lookup_insert_ne by congruence. }
  assert (∀ k, hash_key k = true → r3 !! k = Some (VStr (digest E k data)))
    as Hh3.
  { intros k Hk. subst r3.
    assert (k ≠ "files") by (by intros ->).
    destruct b; simpl; rewrite ?lookup_insert_ne by done;
      by apply hashed_digest. }
  assert (r3 !! "Content-Type" = Some (VStr (from_buffer E data))) as Hct3
    by (by rewrite Hk3, Hk2).
  assert (r3 !! "payload" = Some (VStr (b64encode E data))) as Hp3
    by (by rewrite Hk3, Hk2, Hk1).
  assert (r3 !! "is_archive" = Some (VAtom (ABool b))) as Ha3
    by (by rewrite Hk3, Hk2, Hk1).
  assert (r3 !! "tika" = None) as Ht3 by (by rewrite Hk3, Hk2, Hk1).
  assert (r3 !! "virustotal" = None) as Hv3 by (by rewrite Hk3, Hk2, Hk1).
  assert (r3 !! "files" = if b then Some (VFiles (member_hashed E <$> xs))
                          else None) as Hf3.
  { subst r3. destruct b eqn:Hb; [by rewrite lookup_insert_eq|].
    unfold hashed. simpl. rewrite !lookup_insert_ne by done.
    by apply Hf2'. }
  (* Tika *)
  erewrite bind_Ok by (by apply (add_tika_exact r3 data w4)).
  set (r5 := if tika_wanted E self data
             then <["tika" := VAtom (extract_all_content E (b64encode E data))]>
                    r3
             else r3).
  set (w5 := if tika_wanted E self data then with_result _ _ else w4).
  assert (_result w5 = Some r5) as Hr5.
  { subst w5 r5. by destruct (tika_wanted E self data). }
  assert (∀ k, k ≠ "tika" → r5 !! k = r3 !! k) as Hk5.
  { intros k Hk. subst r5. destruct (tika_wanted E self data); [|done].
    by rewrite lookup_insert_ne. }
  assert (r5 !! "tika" =
            if tika_wanted E self data
            then Some (VAtom (extract_all_content E (b64encode E data)))
            else None) as Ht5.
  { subst r5. destruct (tika_wanted E self data); [|done].
    by rewrite lookup_insert_eq. }
  assert (calls w5 = calls w ++ Sniffed data :: (Sniffed ∘ snd <$> found) ++
            Hashed data :: (Hashed ∘ snd <$> xs) ++
            (if tika_wanted E self data then [TikaExtract (b64encode E data)]
             else [])) as Hc5.
  { assert ((if b then Hashed ∘ snd <$> xs else []) = Hashed ∘ snd <$> xs)
      as Hxs.
    { destruct b eqn:Hb; [done|]. subst xs. by rewrite (Hnil eq_refl). }
    subst w5 w4 w3 w2 w1. destruct (tika_wanted E self data); simpl;
      rewrite Hxs, <-?app_assoc; simpl; by rewrite ?app_nil_r. }
  assert (files w5 = files w ∧ dirs w5 = dirs w) as [Hfi5 Hdi5].
  { subst w5. by destruct (tika_wanted E self data). }
  clearbody w5. clear w4 w3 w2 w1 Hc Hs.
  unfold expected_calls, member_parsed. fold xs.
  destruct (virustotal_enabled self) eqn:Hen.
  - destruct (Hvt Hen) as (key & Hkey & Hkne).
    erewrite (add_virustotal_exact key r5 (hashlib_sha1 E data) b xs w5
                Hkey Hkne Hr5).
    + eexists _, _. split; [reflexivity|]. simpl.
      split.
      { rewrite Hc5, <-(app_assoc (calls w)). f_equal.
        by repeat (simpl; rewrite <-app_assoc). }
      split; [done|]. split; [done|]. split; [reflexivity|].
      set (report := get_file_report E (hashlib_sha1 E data)).
      set (r6 := if atom_truthy report then _ else r5).
      assert (∀ k, k ≠ "virustotal" → r6 !! k = r5 !! k) as Hk6.
      { intros k Hk. subst r6. destruct (atom_truthy report); [|done].
        by rewrite lookup_insert_ne. }
      assert (∀ k (v : option value), k ≠ "files" → r6 !! k = v →
                ((if b then <["files" := VFiles (member_reported E <$> xs)]>
                  else id) r6) !! k = v) as Hfin.
      { intros k v Hk <-. destruct b; simpl; [|done].
        by rewrite lookup_insert_ne. }
      split.
      { intros k Hk. assert (k ≠ "files") by (by intros ->).
        assert (k ≠ "virustotal") by (by intros ->).
        assert (k ≠ "tika") by (by intros ->).
        apply Hfin; [done|]. rewrite Hk6, Hk5 by done. by apply Hh3. }
      split; [apply Hfin; [done|]; by rewrite Hk6, Hk5|].
      split.
      { destruct b eqn:Hb; simpl; [by rewrite lookup_insert_eq|].
        by rewrite Hk6, Hk5, Hf3. }
      split; [apply Hfin; [done|]; by rewrite Hk6|].
      apply Hfin; [done|]. subst r6. destruct (atom_truthy report).
      * by rewrite lookup_insert_eq.
      * by rewrite Hk5.
    + by rewrite Hk5, Hh3.
    + by rewrite Hk5.
    + rewrite Hk5, Hf3 by done. destruct b eqn:Hb; [done|].
      subst xs. by rewrite (Hnil eq_refl).
  - eexists _, _. split; [reflexivity|].
    split; [by rewrite Hc5, app_nil_r|].
    split; [done|]. split; [done|]. split; [exact Hr5|].
    split; [intros k Hk; rewrite Hk5 by (by intros ->); by apply Hh3|].
    split; [by rewrite Hk5|]. split; [by rewrite Hk5|].
    split; [done|]. by rewrite Hk5.
Qed.

(** X17.  The calls [parse_sample] makes to its collaborators, for a
    sample that the blacklist lets through, when the scratch area and the
    archive tool work and VirusTotal, if switched on, has its key.  The call
    returns, the scratch area is as before, and the calls are, in this
    order: a content-type sniff of the sample and of every unpacked file;
    the fingerprints of the sample and of the members the blacklist lets
    through, and of no other; one call to Tika with the whole sample in
    base64, if Tika is switched on and the content type of the sample is one
    of those configured for it; with VirusTotal switched on, a report for
    the SHA-1 of the sample and then for that of each member kept. *)
Theorem parse_sample_asks_in_order data fn mct te found w :
  mkstemp_raises E = false → write_raises E = false →
  (if test_archive E data
   then mkdtemp_raises E = false ∧ extract_archive E data = Some found
   else found = []) →
  from_buffer E data ∉ blacklist_content_types self →
  virustotal_ready self →
  ∃ w',
    SampleParser.parse_sample E self data fn mct te w = (Ok (), w') ∧
    calls w' = calls w ++ expected_calls E self data found ∧
    same_scratch w w'.
Proof.
  intros H1 H2 H3 Hnin Hvt.
  destruct (parse_sample_runs data fn mct te found w H1 H2 H3 Hnin Hvt)
    as (w' & r & Hrun & Hcalls & Hfi & Hdi & _).
  by exists w'.
Qed.

(** X18.  The record [parse_sample] builds under the same conditions.
    Under each of the five fingerprint keys it has the digest of the sample
    itself (what comes out of decoding the stored payload); its member list
    has, for an archive, exactly the members the blacklist lets through, in
    the order they were unpacked, each with the digests of its own bytes
    (and its VirusTotal report, if there is one); ["tika"] is there exactly
    when Tika was asked, ["virustotal"] exactly when VirusTotal is switched
    on and its report is not empty. *)
Theorem parse_sample_record data fn mct te found w :
  mkstemp_raises E = false → write_raises E = false →
  (if test_archive E data
   then mkdtemp_raises E = false ∧ extract_archive E data = Some found
   else found = []) →
  from_buffer E data ∉ blacklist_content_types self →
  virustotal_ready self →
  ∃ r,
    _result (SampleParser.parse_sample E self data fn mct te w).2 = Some r ∧
    (∀ k, hash_key k = true → r !! k = Some (VStr (digest E k data))) ∧
    (∃ s, r !! "payload" = Some (VStr s) ∧ b64decode E s = Some data) ∧
    r !! "files" =
      (if test_archive E data
       then Some (VFiles (member_parsed E self <$> kept E self found))
       else None) ∧
    r !! "tika" =
      (if tika_wanted E self data
       then Some (VAtom (extract_all_content E (b64encode E data)))
       else None) ∧
    r !! "virustotal" =
      (if virustotal_enabled self &&
          atom_truthy (get_file_report E (hashlib_sha1 E data))
       then Some (VAtom (get_file_report E (hashlib_sha1 E data)))
       else None).
Proof.
  intros H1 H2 H3 Hnin Hvt.
  destruct (parse_sample_runs data fn mct te found w H1 H2 H3 Hnin Hvt)
    as (w' & r & Hrun & _ & _ & _ & Hr & Hh & Hp & Hf & Ht & Hv).
  exists r. rewrite Hrun. split; [done|]. split; [done|].
  split; [|done]. exists (b64encode E data). by rewrite b64.
Qed.

End parse_sample_run.

(** The sample archive through the parser with everything switched on. *)
Lemma parse_sample_asks_in_order_witness :
  ∃ w',
    SampleParser.parse_sample sample_env full_parser "PK-good"
      (AStr "docs.zip") (AStr "application/zip") (AStr "base64") empty_world
      = (Ok (), w') ∧
    calls w' =
      calls empty_world ++
      expected_calls sample_env full_parser "PK-good"
        [("index.html", "<html></html>"); ("notes.txt", "hello")] ∧
    same_scratch empty_world w'.
Proof.
  apply (parse_sample_asks_in_order sample_env full_parser
           sample_env_roundtrip "PK-good" _ _ _
           [("index.html", "<html></html>"); ("notes.txt", "hello")]
           empty_world eq_refl eq_refl (conj eq_refl eq_refl)).
  - intros H. vm_compute in H. discriminate.
  - intros _. exists "0123456789abcdef". split; [reflexivity|discriminate].
Defined.

(** The record built for the sample archive. *)
Lemma parse_sample_record_witness :
  ∃ r,
    _result (SampleParser.parse_sample sample_env full_parser "PK-good"
               (AStr "docs.zip") (AStr "application/zip") (AStr "base64")
               empty_world).2 = Some r ∧
    (∀ k, hash_key k = true →
          r !! k = Some (VStr (digest sample_env k "PK-good"))) ∧
    (∃ s, r !! "payload" = Some (VStr s) ∧
          b64decode sample_env s = Some "PK-good") ∧
    r !! "files" =
      (if test_archive sample_env "PK-good"
       then Some (VFiles (member_parsed sample_env full_parser <$>
                            kept sample_env full_parser
                              [("index.html", "<html></html>");
                               ("notes.txt", "hello")]))
       else None) ∧
    r !! "tika" =
      (if tika_wanted sample_env full_parser "PK-good"
       then Some (VAtom (extract_all_content sample_env
                           (b64encode sample_env "PK-good")))
       else None) ∧
    r !! "virustotal" =
      (if virustotal_enabled full_parser &&
          atom_truthy (get_file_report sample_env
                         (hashlib_sha1 sample_env "PK-good"))
       then Some (VAtom (get_file_report sample_env
                           (hashlib_sha1 sample_env "PK-good")))
       else None).
Proof.
  apply (parse_sample_record sample_env full_parser
           sample_env_roundtrip "PK-good" _ _ _
           [("index.html", "<html></html>"); ("notes.txt", "hello")]
           empty_world eq_refl eq_refl (conj eq_refl eq_refl)).
  - intros H. vm_compute in H. discriminate.
  - intros _. exists "0123456789abcdef". split; [reflexivity|discriminate].
Defined.

(* ===================================================================== *)
(** ** [_extract_urls] and the whitelist *)
(* ===================================================================== *)

Lemma pop_whitelisted_filter {U} (whitelist : gset string) ds
    (urls : gmap string U) :
  NoDup ds → (∀ d, d ∈ ds → is_Some (urls !! d)) →
  pop_whitelisted whitelist ds urls =
    Ok (filter (λ kv, ¬ (kv.1 ∈ ds ∧ lower kv.1 ∈ whitelist)) urls).
Proof.
  intros Hnd. revert urls.
  induction Hnd as [|d ds Hd Hnd IH]; intros urls Hin; simpl.
  - f_equal. symmetry. apply map_filter_id. intros k v _ [Hk _]. simpl in Hk.
    by apply elem_of_nil in Hk.
  - destruct (Hin d) as [v Hv]; [left|].
    case_bool_decide as Hw.
    + rewrite Hv, IH.
      2: { intros d' Hd'. rewrite lookup_delete_ne by (by intros ->).
           apply Hin. by right. }
      f_equal. apply map_eq. intros k.
      destruct (decide (k = d)) as [->|Hne].
      * rewrite map_lookup_filter, lookup_delete_eq. simpl.
        rewrite map_lookup_filter, Hv. simpl.
        rewrite option_guard_False; [done|]. intros Hn. apply Hn.
        split; [left|done].
      * rewrite !map_lookup_filter, lookup_delete_ne by done.
        destruct (urls !! k) as [x|]; simpl; [|done].
        apply option_guard_iff. simpl. rewrite elem_of_cons. tauto.
    + rewrite IH by (intros d' Hd'; apply Hin; by right).
      f_equal. apply map_filter_ext. intros k x _. simpl.
      rewrite elem_of_cons. split; [|tauto].
      intros Hn [[->|Hk] Hl]; [done|]. by apply Hn.
Qed.

(** What [_extract_urls] returns without [conv_to_str]. *)
Lemma extract_urls_filter {U} (H : urls_env U) self text :
  _extract_urls H self text false =
    let urls :=
      if String.eqb text "" then ∅
      else filter (λ kv, lower kv.1 ∉ _whitelist self) (urls_obj H text) in
    Ok (negb (size urls =? 0)%nat, UrlsDict urls).
Proof.
  unfold _extract_urls. destruct (String.eqb text ""); simpl; [done|].
  rewrite pop_whitelisted_filter.
  - replace (filter (λ kv, ¬ (kv.1 ∈ (map_to_list (urls_obj H text)).*1 ∧
                              lower kv.1 ∈ _whitelist self))
               (urls_obj H text))
      with (filter (λ kv : string * U, lower kv.1 ∉ _whitelist self)
              (urls_obj H text)); [done|].
    apply map_filter_ext. intros k x Hk. simpl. split; [tauto|].
    intros Hn Hl. apply Hn. split; [|done].
    apply list_elem_of_fmap. exists (k, x). split; [done|].
    by apply elem_of_map_to_list.
  - apply NoDup_fst_map_to_list.
  - intros d ([k x] & -> & Hkx%elem_of_map_to_list)%list_elem_of_fmap.
    by exists x.
Qed.

(** X19.  [_extract_urls] never fails on the dictionary of the extractor:
    every key it takes out is there.  What it returns for a text that is
    not empty is what the extractor found without the domains that are in
    the whitelist when written in lower case, every other domain with what
    was found for it; for the empty text it is the empty dictionary, and
    the extractor is not consulted.  The flag says whether anything is
    left. *)
Theorem extract_urls_drops_whitelisted {U} (H : urls_env U) self text :
  _extract_urls H self text false =
    let urls :=
      if String.eqb text "" then ∅
      else filter (λ kv, lower kv.1 ∉ _whitelist self) (urls_obj H text) in
    Ok (negb (size urls =? 0)%nat, UrlsDict urls).
Proof. apply extract_urls_filter. Qed.

Section whitelist_more.
Context (C : bolt_env).

Lemma live_earlier now now' v :
  (now ≤ now')%Z → live C now' v = true → live C now v = true.
Proof.
  unfold live. intros Hle.
  destruct (default ANone (v !! "expiry")) as [| | |s]; try done.
  destruct (String.eqb s ""); [done|].
  destruct (strptime C s) as [t|]; [|done].
  intros Hlt%Z.ltb_lt. apply Z.ltb_lt. lia.
Qed.

(** X20.  The whitelist can only shrink as time goes by: with the same
    well-formed configuration, a reload at a later time gives a whitelist
    that is contained in the one of a reload at an earlier time. *)
Theorem whitelist_shrinks_with_time later whitelists self self_later :
  Forall (λ kv, entry_ok C kv.2 = true) whitelists →
  (∀ n m, (utcnow C n ≤ later m)%Z) →
  _whitelist
    (_load_whitelist (BoltEnv (strptime C) later (load_config C))
       whitelists self_later).2
  ⊆ _whitelist (_load_whitelist C whitelists self).2.
Proof.
  intros Hall Hlater. unfold _load_whitelist.
  rewrite (load_whitelist_loop_ok C) by done.
  rewrite (load_whitelist_loop_ok (BoltEnv (strptime C) later (load_config C)))
    by done.
  simpl. intros d Hd. apply elem_of_union in Hd as [Hd|Hd]; [set_solver|].
  apply elem_of_union. right.
  apply elem_of_rebuilt in Hd as (pre & k & v & post & -> & Hl & Hd).
  apply elem_of_rebuilt. exists pre, k, v, post. split; [done|].
  split; [|done]. eapply live_earlier; [|exact Hl]. apply Hlater.
Qed.

(** The loop over a list of entries in two parts. *)
Lemma load_whitelist_loop_app pre rest self :
  load_whitelist_loop C (pre ++ rest) self =
    match load_whitelist_loop C pre self with
    | (Ok _, self') => load_whitelist_loop C rest self'
    | stop => stop
    end.
Proof.
  revert self. induction pre as [|[k v] pre IH]; intros self; simpl; [done|].
  destruct (atom_truthy (default ANone (v !! "expiry"))).
  - destruct (default ANone (v !! "expiry")) as [| | |s]; try done.
    destruct (strptime C s) as [t|]; [|done].
    destruct (utcnow C (clock_reads self) <? t)%Z; [|apply IH].
    destruct (v !! "path") as [path|]; [|done].
    destruct (load_config C path) as [[domains|]|]; try done.
    destruct (lower_all domains); [apply IH|done].
  - destruct (v !! "path") as [path|]; [|done].
    destruct (load_config C path) as [[domains|]|]; try done.
    destruct (lower_all domains); [apply IH|done].
Qed.

(** X21.  A configured list without expiry whose file does not hold a list
    stops the reload with [ImproperlyConfigured].  The bolt is then left
    with the domains of the entries before that one: the whitelist it had
    before the reload is gone, and the entries after it are not read. *)
Theorem load_whitelist_stops_at_bad_file pre k v path post self :
  Forall (λ kv, entry_ok C kv.2 = true) pre →
  has_expiry v = false →
  v !! "path" = Some path → load_config C path = Ok COther →
  _load_whitelist C (pre ++ (k, v) :: post) self =
    (Raise ImproperlyConfigured,
     Bolt (rebuilt C pre (clock_reads self)) (clock_reads self + reads pre)).
Proof.
  intros Hpre Hexp Hpath Hload. unfold _load_whitelist.
  rewrite load_whitelist_loop_app, load_whitelist_loop_ok by done.
  simpl. unfold has_expiry in Hexp. rewrite Hexp, Hpath, Hload.
  f_equal. f_equal. set_solver.
Qed.

(** X22.  After a reload of a well-formed configuration, no domain that
    a live entry lists comes out of [_extract_urls], in whatever letter case
    the text has it. *)
Theorem reloaded_whitelist_filters_urls {U} (H : urls_env U) pre k v post
    self text d :
  Forall (λ kv, entry_ok C kv.2 = true) (pre ++ (k, v) :: post) →
  live C (utcnow C (clock_reads self + reads pre)) v = true →
  lower d ∈ domains_of C v →
  ∃ with_urls urls,
    _extract_urls H (_load_whitelist C (pre ++ (k, v) :: post) self).2
      text false = Ok (with_urls, UrlsDict urls) ∧
    urls !! d = None.
Proof.
  intros Hall Hlive Hd. rewrite extract_urls_filter. simpl.
  eexists _, _. split; [reflexivity|].
  destruct (String.eqb text ""); [apply lookup_empty|].
  apply map_lookup_filter_None. right. intros x _ Hn. simpl in Hn.
  apply Hn. unfold _load_whitelist.
  rewrite load_whitelist_loop_ok by done. simpl.
  apply elem_of_union. right. apply elem_of_rebuilt.
  by exists pre, k, v, post.
Qed.

End whitelist_more.

(** The reload at the sample time and a day later. *)
Lemma whitelist_shrinks_with_time_witness :
  _whitelist
    (_load_whitelist
       (BoltEnv (strptime sample_bolt_env)
          (λ _, reload_time + 86400000000)%Z (load_config sample_bolt_env))
       sample_whitelists stale_bolt).2
  ⊆ _whitelist
      (_load_whitelist sample_bolt_env sample_whitelists stale_bolt).2.
Proof.
  apply (whitelist_shrinks_with_time sample_bolt_env
           (λ _, reload_time + 86400000000)%Z sample_whitelists
           stale_bolt stale_bolt).
  - repeat (apply Forall_cons_2; [by vm_compute|]). apply Forall_nil_2.
  - intros n m. simpl. lia.
Defined.

(** The generic list, then a list whose file is missing. *)
Lemma load_whitelist_stops_at_bad_file_witness :
  _load_whitelist sample_bolt_env
    ([("generic",
       {[ "path" := AStr "/etc/spamscope/whitelists/generic.yml" ]})] ++
     broken_entry :: [])
    stale_bolt =
  (Raise ImproperlyConfigured,
   Bolt (rebuilt sample_bolt_env
           [("generic",
             {[ "path" := AStr "/etc/spamscope/whitelists/generic.yml" ]})]
           (clock_reads stale_bolt))
     (clock_reads stale_bolt +
      reads [("generic",
              ({[ "path" := AStr "/etc/spamscope/whitelists/generic.yml" ]}
                 : member))])).
Proof.
  apply (load_whitelist_stops_at_bad_file sample_bolt_env
           [("generic",
             {[ "path" := AStr "/etc/spamscope/whitelists/generic.yml" ]})]
           "broken" broken_entry.2
           (AStr "/etc/spamscope/whitelists/missing.yml") [] stale_bolt).
  - apply Forall_cons_2; [by vm_compute|apply Forall_nil_2].
  - vm_compute. reflexivity.
  - vm_compute. reflexivity.
  - reflexivity.
Defined.

(** A mail that names a partner and a stranger, after the sample reload. *)
Lemma reloaded_whitelist_filters_urls_witness :
  ∃ with_urls urls,
    _extract_urls sample_urls_env
      (_load_whitelist sample_bolt_env
         ([] ++ ("generic",
                 {[ "path" := AStr "/etc/spamscope/whitelists/generic.yml" ]})
             :: []) stale_bolt).2
      "see http://Example.COM/a and http://stranger.example/b" false
      = Ok (with_urls, UrlsDict urls) ∧
    urls !! "Example.COM" = None.
Proof.
  apply (reloaded_whitelist_filters_urls sample_bolt_env sample_urls_env
           [] "generic"
           {[ "path" := AStr "/etc/spamscope/whitelists/generic.yml" ]} []
           stale_bolt).
  - apply Forall_cons_2; [by vm_compute|apply Forall_nil_2].
  - vm_compute. reflexivity.
  - apply (bool_decide_unpack _). vm_compute. exact I.
Defined.


(* ===================================================================== *)
(** ** More on [extension] *)
(* ===================================================================== *)

Lemma rfind_from_spec c s pos found :
  (found < pos)%Z →
  rfind_from c s pos found = found ∨
  ((pos ≤ rfind_from c s pos found < pos + Z.of_nat (String.length s))%Z ∧
   String.get (Z.to_nat (rfind_from c s pos found - pos)) s = Some c).
Proof.
  revert pos found. induction s as [|x s IH]; intros pos found Hlt; simpl;
    [by left|].
  destruct (IH (pos + 1)%Z (if Ascii.eqb x c then pos else found))
    as [Heq|[Hrange Hget]].
  { destruct (Ascii.eqb x c); lia. }
  - rewrite Heq. destruct (Ascii.eqb_spec x c) as [->|Hne]; [|by left].
    right. split; [lia|]. by rewrite Z.sub_diag.
  - right. split; [lia|].
    replace (Z.to_nat (rfind_from c s (pos + 1)
                         (if Ascii.eqb x c then pos else found) - pos))
      with (S (Z.to_nat (rfind_from c s (pos + 1)
                           (if Ascii.eqb x c then pos else found)
                         - (pos + 1)))) by lia.
    done.
Qed.

Lemma substring_whole s : String.substring 0 (String.length s) s = s.
Proof. induction s as [|x s IH]; simpl; [done|]. by rewrite IH. Qed.

Lemma substring_from_get s n c :
  String.get n s = Some c →
  ∃ rest, String.substring n (String.length s - n) s = String c rest.
Proof.
  revert n. induction s as [|x s IH]; intros [|n]; simpl; try done.
  - intros [= ->]. eauto.
  - apply IH.
Qed.

Lemma substring_split s (n : nat) :
  (n ≤ String.length s)%nat →
  String.substring 0 n s +:+ String.substring n (String.length s - n) s = s.
Proof.
  revert n. induction s as [|x s IH]; intros [|n] Hn; simpl in *;
    try done; try lia.
  - by rewrite substring_whole.
  - change (String x (String.substring 0 n s +:+
                       String.substring n (String.length s - n) s)
            = String x s).
    f_equal. apply IH. lia.
Qed.

Lemma append_empty_r s : s +:+ "" = s.
Proof.
  induction s as [|x s IH]; [done|].
  change (String x (s +:+ "") = String x s). by rewrite IH.
Qed.

(** [splitext] cuts the path in two, and the second part is empty or
    starts at a dot. *)
Lemma splitext_shape p :
  (splitext p).1 +:+ (splitext p).2 = p ∧
  ((splitext p).2 = "" ∨ ∃ r, (splitext p).2 = String "."%char r).
Proof.
  unfold splitext.
  destruct (_ && _) eqn:Hcond; simpl.
  2: { split; [apply append_empty_r|by left]. }
  apply andb_true_iff in Hcond as [Hlt%Z.ltb_lt _].
  pose proof (rfind_from_lower_bound "/" p 0 (-1)) as Hsep.
  unfold rfind in *.
  destruct (rfind_from_spec "." p 0 (-1)) as [Heq|[Hrange Hget]]; [lia| |].
  { lia. }
  rewrite Z.sub_0_r in Hget. unfold str_take, str_drop. split.
  - apply substring_split. lia.
  - right. by apply substring_from_get.
Qed.

Lemma lower_app a b : lower (a +:+ b) = lower a +:+ lower b.
Proof.
  induction a as [|x a IH]; [done|].
  change (lower (String x (a +:+ b)) =
          String (lower_ascii x) (lower a +:+ lower b)).
  simpl. by rewrite IH.
Qed.

Lemma lower_ascii_idemp c : lower_ascii (lower_ascii c) = lower_ascii c.
Proof. by destruct c as [[] [] [] [] [] [] [] []]. Qed.

Lemma lower_idemp s : lower (lower s) = lower s.
Proof.
  induction s as [|x s IH]; simpl; [done|]. by rewrite lower_ascii_idemp, IH.
Qed.

(** X23.  The shape of what [extension] returns.  It is always a string:
    the end of the file name in lower case, which is either empty or starts
    at a dot; and it is in lower case itself, so that taking the extension
    does not depend on the letter case of the name. *)
Theorem extension_is_lower_case_suffix filename :
  ∃ root e,
    extension filename = Some e ∧
    lower filename = root +:+ e ∧
    lower e = e ∧
    (e = "" ∨ ∃ r, e = String "."%char r).
Proof.
  destruct (splitext_shape filename) as [Hsplit Hdot].
  exists (lower (splitext filename).1), (lower (splitext filename).2).
  split; [apply extension_is_Some|].
  split; [by rewrite <-lower_app, Hsplit|].
  split; [apply lower_idemp|].
  destruct Hdot as [->|[r ->]]; [by left|]. right. by exists (lower r).
Qed.

(* ===================================================================== *)
(** ** More on [is_archive] *)
(* ===================================================================== *)

(** X24.  [is_archive] without [write_sample] is a probe of the scratch
    area.  On a scratch area that works it returns the answer of the archive
    test, and the files and directories are as they were: the sample it
    wrote is gone again.  (The descriptor that [mkstemp] opened is not part
    of the model; the code never closes it.)  When no scratch file can be
    made it raises [UnboundLocalError]; when the scratch file cannot be
    written it raises [TempIOError], and the empty scratch file, which was
    not there before, stays behind. *)
Theorem is_archive_probe E data w :
  (mkstemp_raises E = false → write_raises E = false →
   ∃ w', SampleParser.is_archive E data false w
           = (Ok (Flag (test_archive E data)), w') ∧
         same_scratch w w') ∧
  (mkstemp_raises E = true →
   ∃ w', SampleParser.is_archive E data false w
           = (Raise UnboundLocalError, w') ∧
         same_scratch w w') ∧
  (mkstemp_raises E = false → write_raises E = true →
   ∃ w', SampleParser.is_archive E data false w = (Raise TempIOError, w') ∧
         files w !! fresh_path w = None ∧
         files w' = <[fresh_path w := ""]> (files w) ∧ dirs w' = dirs w).
Proof.
  split; [|split].
  - intros H1 H2. rewrite is_archive_returns_flag by done. by eexists.
  - intros H1. rewrite is_archive_mkstemp_raises by done. by eexists.
  - intros H1 H2. rewrite is_archive_write_raises by done.
    eexists. split; [done|]. split; [apply fresh_path_files|done].
Qed.

(** A plain text on the sample scratch area, on one without room for a
    file, and on one that cannot be written. *)
Lemma is_archive_probe_witness :
  (∃ w', SampleParser.is_archive sample_env "plain text" false empty_world
           = (Ok (Flag (test_archive sample_env "plain text")), w') ∧
         same_scratch empty_world w') ∧
  (∃ w', SampleParser.is_archive no_scratch_env "plain text" false empty_world
           = (Raise UnboundLocalError, w') ∧
         same_scratch empty_world w') ∧
  (∃ w', SampleParser.is_archive no_write_env "plain text" false empty_world
           = (Raise TempIOError, w') ∧
         files empty_world !! fresh_path empty_world = None ∧
         files w' = <[fresh_path empty_world := ""]> (files empty_world) ∧
         dirs w' = dirs empty_world).
Proof.
  split; [|split].
  - apply (proj1 (is_archive_probe sample_env "plain text" empty_world));
      reflexivity.
  - apply (proj1 (proj2 (is_archive_probe no_scratch_env "plain text"
                           empty_world))); reflexivity.
  - apply (proj2 (proj2 (is_archive_probe no_write_env "plain text"
                           empty_world))); reflexivity.
Defined.

(* ===================================================================== *)
(** ** What is left when a call fails *)
(* ===================================================================== *)

(** X25.  [popcontenttype] is not atomic.  When it comes to an unfiltered
    record without ["Content-Type"], after records it could read, it raises
    [ContentTypeError] without having removed any record, not even those of
    the content type asked for; but the records before the failing one that
    do not match have already lost their matching members. *)
Theorem popcontenttype_fails_half_way ct pre i post :
  Forall (λ j, record_sound j = true) pre →
  Attachments.is_filtered i = false → i !! "Content-Type" = None →
  Attachments.popcontenttype ct (pre ++ i :: post) =
    (Raise ContentTypeError, (touch (lower ct) <$> pre) ++ i :: post).
Proof.
  intros Hpre Hf Hct.
  assert (Attachments.examine (lower ct) i = Raise ContentTypeError) as Hex.
  { unfold Attachments.examine. by rewrite Hct. }
  destruct (popcontenttype_fails ct pre i post) as (e & He & ->).
  - by apply Forall_sound_passes.
  - unfold passes. by rewrite Hf, Hex.
  - congruence.
Qed.

(** An archive with a page inside, then a raw attachment, then a page. *)
Lemma popcontenttype_fails_half_way_witness :
  Attachments.popcontenttype "text/html"
    ([zip_with_html] ++ raw_attachment "hello" :: [html_page]) =
  (Raise ContentTypeError,
   (touch (lower "text/html") <$> [zip_with_html]) ++
   raw_attachment "hello" :: [html_page]).
Proof.
  apply (popcontenttype_fails_half_way "text/html" [zip_with_html]
           (raw_attachment "hello") [html_page]).
  - apply Forall_cons_2; [vm_compute; reflexivity|apply Forall_nil_2].
  - vm_compute. reflexivity.
  - vm_compute. reflexivity.
Defined.

(** X26.  The records marked filtered cost [_addmetadata] nothing: on a
    collection in which every record is marked, it returns and the world is
    exactly as it was, whatever the state of the scratch area and of the
    archive tool. *)
Theorem addmetadata_all_filtered E w :
  Forall (λ i, Attachments.is_filtered i = true) (data w) →
  Attachments._addmetadata E w = (Ok (), w).
Proof.
  intros Hall. unfold Attachments._addmetadata.
  erewrite bind_Ok by reflexivity.
  assert (∀ a m : nat, (a + m ≤ length (data w))%nat →
            for_ (seq a m) (Attachments._addmetadata_item E) w = (Ok (), w))
    as Hloop.
  { intros a m. revert a. induction m as [|m IH]; intros a Hm; [done|].
    simpl. destruct (lookup_lt_is_Some_2 (data w) a) as [i Hi]; [lia|].
    erewrite bind_Ok; [apply IH; lia|].
    unfold Attachments._addmetadata_item.
    erewrite bind_Ok by (unfold Attachments.get_item; by rewrite Hi).
    rewrite Forall_forall in Hall. rewrite (Hall i); [done|].
    by eapply list_elem_of_lookup_2. }
  by apply Hloop.
Qed.

(** A collection of one record that an earlier [filter] call marked, with
    no room for scratch files. *)
Lemma addmetadata_all_filtered_witness :
  Attachments._addmetadata no_scratch_env
    (World ∅ ∅ [] [] None [marked_earlier]) =
  (Ok (), World ∅ ∅ [] [] None [marked_earlier]).
Proof.
  apply (addmetadata_all_filtered no_scratch_env
           (World ∅ ∅ [] [] None [marked_earlier])).
  apply Forall_cons_2; [vm_compute; reflexivity|apply Forall_nil_2].
Defined.

Lemma allowed_files_without_virustotal self fs :
  SampleParser.allowed_files (without_virustotal self) fs =
  SampleParser.allowed_files self fs.
Proof. induction fs as [|i fs IH]; simpl; [done|]. by rewrite IH. Qed.

Lemma remove_content_type_without_virustotal self w :
  SampleParser._remove_content_type (without_virustotal self) w =
  SampleParser._remove_content_type self w.
Proof.
  unfold SampleParser._remove_content_type. simpl.
  destruct (bool_decide (blacklist_content_types self ≠ ∅)); [|done].
  unfold mbind, M_bind.
  destruct (SampleParser.get_result w) as [[r|e] w1]; [|done].
  destruct (item r "Content-Type" w1) as [[ct|e] w2]; [|done].
  destruct (SampleParser.in_set ct (blacklist_content_types self) w2)
    as [[listed|e] w3]; [|done].
  destruct listed; [done|].
  destruct (item r "is_archive" w3) as [[a|e] w4]; [|done].
  destruct (truthy a); [|done].
  destruct (item r "files" w4) as [[[x|fs]|e] w5]; try done.
  by rewrite allowed_files_without_virustotal.
Qed.

(** X27.  The API key of VirusTotal is looked at last.  With VirusTotal
    switched on and no key, [parse_sample] does everything it does with
    VirusTotal switched off: it fails where that run fails, and where that
    run ends with a record it raises [VirusTotalApiKeyInvalid] with the
    world in the very state that run leaves, the record with its
    fingerprints included; VirusTotal itself is not called. *)
Theorem parse_sample_without_api_key E self data fn mct te w :
  virustotal_enabled self = true →
  virustotal_api_key self = None ∨ virustotal_api_key self = Some "" →
  match SampleParser.parse_sample E (without_virustotal self)
          data fn mct te w with
  | (Raise e, w') =>
      SampleParser.parse_sample E self data fn mct te w = (Raise e, w')
  | (Ok _, w') =>
      SampleParser.result_truthy w' = (Ok true, w') →
      SampleParser.parse_sample E self data fn mct te w =
        (Raise VirusTotalApiKeyInvalid, w')
  end.
Proof.
  intros Hen Hkey.
  assert (∀ w0, SampleParser._add_virustotal_output E self w0 =
                  (Raise VirusTotalApiKeyInvalid, w0)) as Hvt.
  { intros w0. unfold SampleParser._add_virustotal_output.
    by destruct Hkey as [-> | ->]. }
  unfold SampleParser.parse_sample. rewrite Hen.
  change (virustotal_enabled (without_virustotal self)) with false.
  change (tika_enabled (without_virustotal self)) with (tika_enabled self).
  change (SampleParser._add_tika_meta_data E (without_virustotal self))
    with (SampleParser._add_tika_meta_data E self).
  cbv iota. unfold mbind, M_bind.
  destruct (SampleParser._create_sample_result E data fn mct te w)
    as [[[]|e1] w1]; [|done].
  destruct (SampleParser._add_content_type E w1) as [[[]|e2] w2]; [|done].
  rewrite remove_content_type_without_virustotal.
  destruct (SampleParser._remove_content_type self w2) as [[[]|e3] w3];
    [|done].
  destruct (SampleParser.result_truthy w3) as [[kept|e4] w4] eqn:Hkept;
    [|done].
  assert (w4 = w3) as -> by (by injection Hkept).
  destruct kept.
  - destruct (SampleParser._add_fingerprints E w3) as [[[]|e5] w5]; [|done].
    destruct ((if tika_enabled self
               then SampleParser._add_tika_meta_data E self
               else mret ()) w5) as [[[]|e6] w6]; [|done].
    simpl. intros _. apply Hvt.
  - simpl. rewrite Hkept. by intros [= ?].
Qed.

(** The sample archive through the parser that has VirusTotal switched on
    without a key. *)
Lemma parse_sample_without_api_key_witness :
  SampleParser.parse_sample sample_env html_blacklist "PK-good"
    (AStr "docs.zip") (AStr "application/zip") (AStr "base64") empty_world =
  (Raise VirusTotalApiKeyInvalid,
   (SampleParser.parse_sample sample_env (without_virustotal html_blacklist)
      "PK-good" (AStr "docs.zip") (AStr "application/zip") (AStr "base64")
      empty_world).2).
Proof.
  pose proof (parse_sample_without_api_key sample_env html_blacklist
                "PK-good" (AStr "docs.zip") (AStr "application/zip")
                (AStr "base64") empty_world eq_refl (or_introl eq_refl))
    as H.
  assert ((SampleParser.parse_sample sample_env
             (without_virustotal html_blacklist) "PK-good" (AStr "docs.zip")
             (AStr "application/zip") (AStr "base64") empty_world).1 = Ok ())
    as H1 by (vm_compute; reflexivity).
  assert ((SampleParser.result_truthy
             (SampleParser.parse_sample sample_env
                (without_virustotal html_blacklist) "PK-good"
                (AStr "docs.zip") (AStr "application/zip") (AStr "base64")
                empty_world).2).1 = Ok true)
    as H2 by (vm_compute; reflexivity).
  destruct (SampleParser.parse_sample sample_env
              (without_virustotal html_blacklist) "PK-good" (AStr "docs.zip")
              (AStr "application/zip") (AStr "base64") empty_world)
    as [r w']. simpl in *. subst r. apply H.
  unfold SampleParser.result_truthy in *. simpl in H2. by injection H2 as ->.
Defined.
